(** * Todo AI: the two AI route handlers

    A shallow embedding of
    - [src/app/api/ai/generate-todo/route.ts]: [validateInput],
      [preprocessInput], [postprocessResult] and the [POST] handler with its
      model-identifier fallback loop;
    - [src/app/api/ai/analyze-todos/route.ts]: the [POST] handler, i.e. the
      request validation, the statistics aggregation and the single model call;
    - [src/app/page.tsx]: [handleAnalyzeTodos], the caller of the analysis
      handler, up to the request it sends.

    JavaScript strings are sequences of UTF-16 code units ([list N]); objects
    used as maps are [gmap]s; the hosted model, the wall clock and the
    environment are explicit arguments; what ECMAScript leaves to the
    implementation is collected in the class [Host]. *)

From Stdlib Require Import ZArith QArith List Bool Lia String Ascii.
From stdpp Require Import gmap strings list fin_maps.

Set Default Proof Using "Type".
Set Warnings "-register-all".
Open Scope Z_scope.

(** ** JavaScript strings *)

Module JS.

(** A string value: its UTF-16 code units. *)
Abbreviation jsstring := (list N).

(** An ASCII literal as a JavaScript string. *)
Definition js (s : string) : jsstring :=
  List.map N_of_ascii (list_ascii_of_string s).

(** [WhiteSpace] and [LineTerminator] code points: what [String.prototype.trim]
    strips and what the regular-expression class [\s] matches. *)
Definition isWhiteSpace (c : N) : bool :=
  ((9 <=? c) && (c <=? 13) || (c =? 32) || (c =? 160) || (c =? 5760)
   || (8192 <=? c) && (c <=? 8202) || (c =? 8232) || (c =? 8233)
   || (c =? 8239) || (c =? 8287) || (c =? 12288) || (c =? 65279))%N.

(** [\d] (no [u] flag): the ASCII digits. *)
Definition isDigit (c : N) : bool := ((48 <=? c) && (c <=? 57))%N.

(** [\w]: ASCII letters, digits and the underscore. *)
Definition isWordChar (c : N) : bool :=
  ((65 <=? c) && (c <=? 90) || (97 <=? c) && (c <=? 122) || isDigit c
   || (c =? 95))%N.

(** The range [가-힣] of Hangul syllables, U+AC00 to U+D7A3. *)
Definition isHangul (c : N) : bool := ((44032 <=? c) && (c <=? 55203))%N.

Fixpoint trimStart (s : jsstring) : jsstring :=
  match s with
  | c :: r => if isWhiteSpace c then trimStart r else s
  | [] => []
  end.

Fixpoint trimEnd (s : jsstring) : jsstring :=
  match s with
  | c :: r =>
      match trimEnd r with
      | [] => if isWhiteSpace c then [] else [c]
      | r' => c :: r'
      end
  | [] => []
  end.

(** [s.trim()] *)
Definition trim (s : jsstring) : jsstring := trimEnd (trimStart s).

(** [s.substring(0, n)] *)
Definition substring0 (n : nat) (s : jsstring) : jsstring := take n s.

Fixpoint startsWith (p s : jsstring) : bool :=
  match p, s with
  | [], _ => true
  | a :: p', b :: s' => (a =? b)%N && startsWith p' s'
  | _ :: _, [] => false
  end.

(** [s.includes(p)] *)
Fixpoint includes (s p : jsstring) : bool :=
  startsWith p s ||
  match s with
  | [] => false
  | _ :: r => includes r p
  end.

Definition streq (a b : jsstring) : bool := bool_decide (a = b).

(** [s.split(":")[0]]: the code units before the first colon. *)
Fixpoint beforeColon (s : jsstring) : jsstring :=
  match s with
  | [] => []
  | c :: r => if (c =? 58)%N then [] else c :: beforeColon r
  end.

End JS.
Export JS.

(** ** Numbers, values and truthiness *)

Module Values.

(** A Number value. Finite doubles are rationals; only their order against
    small integer constants and their being zero are ever inspected. *)
Inductive num :=
| NaN
| NegInf
| Fin (q : Q)
| PosInf.

(** [x >= k] *)
Definition numGe (x : num) (k : Z) : bool :=
  match x with
  | NaN | NegInf => false
  | Fin q => Qle_bool (inject_Z k) q
  | PosInf => true
  end.

(** [x < k] *)
Definition numLt (x : num) (k : Z) : bool :=
  match x with
  | NaN | PosInf => false
  | Fin q => negb (Qle_bool (inject_Z k) q)
  | NegInf => true
  end.

(** A JSON-like value as the handlers receive it ([any] in the source). *)
Inductive value :=
| VUndefined
| VNull
| VBool (b : bool)
| VNum (x : num)
| VStr (s : jsstring)
| VArr (items : list value)
| VObj (fields : list (string * value)).

(** ToBoolean *)
Definition truthy (v : value) : bool :=
  match v with
  | VUndefined | VNull => false
  | VBool b => b
  | VNum NaN => false
  | VNum (Fin q) => negb (Qeq_bool q 0)
  | VNum _ => true
  | VStr s => negb (streq s [])
  | VArr _ | VObj _ => true
  end.

(** An object: own properties by name. A missing property reads [undefined]. *)
Abbreviation obj := (gmap string value).

Definition field (o : obj) (k : string) : value := default VUndefined (o !! k).

End Values.
Export Values.

(** ** Time values and [Date] *)

Module JSDate.

Definition msPerDay : Z := 86400000.

(** A time value: milliseconds since the epoch, [None] for [NaN]
    (an Invalid Date). *)
Abbreviation timeValue := (option Z).

Definition TimeClip (t : Z) : timeValue :=
  if Z.abs t <=? 8640000000000000 then Some t else None.

Definition InLeapYear (y : Z) : bool :=
  (y mod 4 =? 0) && (negb (y mod 100 =? 0) || (y mod 400 =? 0)).

Definition DaysInYear (y : Z) : Z := if InLeapYear y then 366 else 365.

Definition DayFromYear (y : Z) : Z :=
  365 * (y - 1970) + (y - 1969) / 4 - (y - 1901) / 100 + (y - 1601) / 400.

Definition DaysInMonth (y m : Z) : Z :=
  if m =? 2 then (if InLeapYear y then 29 else 28)
  else if (m =? 4) || (m =? 6) || (m =? 9) || (m =? 11) then 30
  else 31.

(** Days of the year before the first of month [m] (1 to 12). *)
Definition monthStart (y m : Z) : Z :=
  let l := if InLeapYear y then 1 else 0 in
  if m <=? 1 then 0
  else if m =? 2 then 31
  else if m =? 3 then 59 + l
  else if m =? 4 then 90 + l
  else if m =? 5 then 120 + l
  else if m =? 6 then 151 + l
  else if m =? 7 then 181 + l
  else if m =? 8 then 212 + l
  else if m =? 9 then 243 + l
  else if m =? 10 then 273 + l
  else if m =? 11 then 304 + l
  else 334 + l.

(** [MakeDay]: the day number of a calendar date (month 1 to 12). *)
Definition MakeDay (y m d : Z) : Z := DayFromYear y + monthStart y m + (d - 1).

Definition validYMD (y m d : Z) : bool :=
  (1 <=? m) && (m <=? 12) && (1 <=? d) && (d <=? DaysInMonth y m).

Definition digit (c : N) : Z := Z.of_N c - 48.

Definition digits2 (a b : N) : Z := 10 * digit a + digit b.

Definition digits4 (a b c d : N) : Z :=
  1000 * digit a + 100 * digit b + 10 * digit c + digit d.

Definition isDash (c : N) : bool := (c =? 45)%N.

(** The date-only forms of the Date Time String Format: [YYYY], [YYYY-MM]
    and [YYYY-MM-DD], read as (year, month, day). *)
Definition isoDateOnly (s : jsstring) : option (Z * Z * Z) :=
  match s with
  | [a; b; c; d] =>
      if isDigit a && isDigit b && isDigit c && isDigit d
      then Some (digits4 a b c d, 1, 1) else None
  | [a; b; c; d; p; e; f] =>
      if isDigit a && isDigit b && isDigit c && isDigit d && isDash p
         && isDigit e && isDigit f
      then Some (digits4 a b c d, digits2 e f, 1) else None
  | [a; b; c; d; p; e; f; q; g; h] =>
      if isDigit a && isDigit b && isDigit c && isDigit d && isDash p
         && isDigit e && isDigit f && isDash q && isDigit g && isDigit h
      then Some (digits4 a b c d, digits2 e f, digits2 g h) else None
  | _ => None
  end.

(** A date-only string with legal month and day. *)
Definition isoDate (s : jsstring) : option (Z * Z * Z) :=
  match isoDateOnly s with
  | Some (y, m, d) => if validYMD y m d then Some (y, m, d) else None
  | None => None
  end.

(** [t1 < t2], [t1 <= t2] on time values; false when either is [NaN]. *)
Definition tvLt (a b : timeValue) : bool :=
  match a, b with
  | Some x, Some y => x <? y
  | _, _ => false
  end.

Definition tvLe (a b : timeValue) : bool :=
  match a, b with
  | Some x, Some y => x <=? y
  | _, _ => false
  end.

(** The civil date of a day number (proleptic Gregorian calendar), for
    [toISOString]. *)
Definition civilFromDays (z : Z) : Z * Z * Z :=
  let z := z + 719468 in
  let era := z / 146097 in
  let doe := z - era * 146097 in
  let yoe := (doe - doe / 1460 + doe / 36524 - doe / 146096) / 365 in
  let doy := doe - (365 * yoe + yoe / 4 - yoe / 100) in
  let mp := (5 * doy + 2) / 153 in
  let d := doy - (153 * mp + 2) / 5 + 1 in
  let m := if mp <? 10 then mp + 3 else mp - 9 in
  ((yoe + era * 400) + (if m <=? 2 then 1 else 0), m, d).

Definition digitChar (n : Z) : N := Z.to_N (48 + n mod 10).

Definition pad2 (n : Z) : jsstring := [digitChar (n / 10); digitChar n].

Definition pad4 (n : Z) : jsstring :=
  [digitChar (n / 1000); digitChar (n / 100); digitChar (n / 10); digitChar n].

(** [new Date(t).toISOString().split("T")[0]]: the UTC date of [t]; years
    outside 0..9999 take the expanded form with a sign and six digits. *)
Definition toISODate (t : Z) : jsstring :=
  let '(y, m, d) := civilFromDays (t / msPerDay) in
  let year :=
    if (0 <=? y) && (y <=? 9999) then pad4 y
    else (if 0 <=? y then 43%N else 45%N)
         :: digitChar (Z.abs y / 100000) :: digitChar (Z.abs y / 10000)
         :: pad4 (Z.abs y) in
  year ++ [45%N] ++ pad2 m ++ [45%N] ++ pad2 d.

End JSDate.
Export JSDate.

(** ** What the source leaves to the JavaScript host *)

(** [(c / t) * 100] for counts [c] and [t]: the operands of the division are
    kept, so that a zero denominator stays visible. *)
Record Pct := { pctNum : nat; pctDen : nat }.

Class Host := {
  (** The local time zone's offset from UTC in milliseconds, taken constant. *)
  LocalTZA : Z;
  LocalTZA_range : (Z.abs LocalTZA <? msPerDay) = true;
  (** [Date.parse] on a string that is not a legal date-only form: the other
      forms of the Date Time String Format and the implementation-defined
      fallbacks. *)
  parseOther : jsstring -> option Z;
  (** [String.prototype.toLowerCase] (Unicode case mapping). *)
  toLowerCase : jsstring -> jsstring;
  (** [Number(s)] on a trimmed string that is not a run of decimal digits. *)
  numberOther : jsstring -> num;
  (** The sign of [rateB - rateA] in double arithmetic, as a sort comparator
      reads it: [Lt] negative, [Eq] zero, [Gt] positive. *)
  rateDiff : Pct -> Pct -> comparison;
  (** The message of the TypeError that [const { ... } = body] throws when
      [body] is [null]. *)
  destructureNull : option jsstring;
}.

Module HostDate.
Section WithHost.
Context `{Host}.

(** The time value of [new Date(s)] for a string [s]. *)
Definition newDate (s : jsstring) : timeValue :=
  match isoDate s with
  | Some (y, m, d) => Some (MakeDay y m d * msPerDay)
  | None => parseOther s ≫= TimeClip
  end.

(** [d.setHours(0, 0, 0, 0)]: the start of the local day of [t]. *)
Definition setHours0 (t : timeValue) : timeValue :=
  t ≫= fun t => TimeClip ((t + LocalTZA) / msPerDay * msPerDay - LocalTZA).

(** [d.getDay()]: 0 is Sunday. *)
Definition getDay (t : Z) : Z := ((t + LocalTZA) / msPerDay + 4) mod 7.

(** [d.setDate(d.getDate() + 1)] *)
Definition addOneDay (t : timeValue) : timeValue :=
  t ≫= fun t => TimeClip (t + msPerDay).

Fixpoint digitsValue (acc : Z) (s : jsstring) : Z :=
  match s with
  | [] => acc
  | c :: r => digitsValue (10 * acc + digit c) r
  end.

(** [Number(s)]: surrounding white space is ignored, the empty string is 0,
    a run of digits is its decimal value (rounding a long run to a double
    keeps its order against the small constants it is compared with). *)
Definition ToNumber (s : jsstring) : num :=
  let t := trim s in
  if forallb isDigit t then Fin (inject_Z (digitsValue 0 t)) else numberOther t.

End WithHost.
End HostDate.
Export HostDate.

(** ASCII letters to lower case, every other code unit unchanged. *)
Definition asciiLower (s : jsstring) : jsstring :=
  List.map (fun c => if (65 <=? c) && (c <=? 90) then c + 32 else c)%N s.

(** [(cb / tb) * 100 - (ca / ta) * 100] compared with 0 on the exact
    quotients (zero denominators compare equal). *)
Definition exactRateDiff (a b : Pct) : comparison :=
  if (pctDen a =? 0)%nat || (pctDen b =? 0)%nat then Eq
  else Nat.compare (pctNum b * pctDen a) (pctNum a * pctDen b).

(** A host for running the model on examples: Korea Standard Time, no
    fallback date or number syntax, ASCII case mapping. *)
Definition refHost : Host := {|
  LocalTZA := 32400000;
  LocalTZA_range := eq_refl;
  parseOther := fun _ => None;
  toLowerCase := asciiLower;
  numberOther := fun _ => NaN;
  rateDiff := exactRateDiff;
  destructureNull := None;
|}.

(** ** Outcomes of calls and HTTP responses *)

(** A thrown error: its [message], [None] when it has none. *)
Record JsError := { message : option jsstring }.

Inductive Outcome (A : Type) :=
| Returns (a : A)
| Throws (e : JsError).
Arguments Returns {A} a.
Arguments Throws {A} e.

(** The process environment and the wall clock of one request. *)
Record Env := {
  (** [process.env.GOOGLE_GENERATIVE_AI_API_KEY] is set and not empty *)
  apiKey : bool;
  (** the time value of the [k]-th evaluation of [new Date()] *)
  clock : nat -> Z;
}.

(** [NextResponse.json(body, { status })]; [M] is the set of error messages
    and [D] the type of [data]. The optional [details] of an error body
    (development mode only) are left out. *)
Inductive Body (M D : Type) :=
| ErrorBody (error : M)
| DataBody (data : D).
Arguments ErrorBody {M D} error.
Arguments DataBody {M D} data.

Record Response (M D : Type) := { status : Z; body : Body M D }.
Arguments status {M D} r.
Arguments body {M D} r.
Arguments Build_Response {M D} status body.

(** ** [generate-todo/route.ts] *)

Module GenerateTodo.

(** The messages of [validateInput], by the check that produces them. *)
Inductive ValidationError :=
| EmptyInput
| TooShort
| TooLong
| TooManySpecialChars.

Record Validation := { isValid : bool; error : option ValidationError }.

Definition invalid (e : ValidationError) : Validation :=
  {| isValid := false; error := Some e |}.

(** [/[^\w\s가-힣]/] *)
Definition isSpecialChar (c : N) : bool :=
  negb (isWordChar c || isWhiteSpace c || isHangul c).

Definition validateInput (text : jsstring) : Validation :=
  if streq text [] || (length (trim text) =? 0)%nat then invalid EmptyInput
  else if (length (trim text) <? 2)%nat then invalid TooShort
  else if (500 <? length text)%nat then invalid TooLong
  else
    let specialCharCount := length (List.filter isSpecialChar text) in
    (* specialCharCount > text.length * 0.5 *)
    if (length text <? 2 * specialCharCount)%nat then invalid TooManySpecialChars
    else {| isValid := true; error := None |}.

(** [s.replace(/\s+/g, " ")]; [inRun] says that the previous code unit was
    white space. *)
Fixpoint collapseWhiteSpace (inRun : bool) (s : jsstring) : jsstring :=
  match s with
  | [] => []
  | c :: r =>
      if isWhiteSpace c
      then (if inRun then collapseWhiteSpace true r
            else 32%N :: collapseWhiteSpace true r)
      else c :: collapseWhiteSpace false r
  end.

Definition preprocessInput (text : jsstring) : jsstring :=
  let processed := trim text in
  collapseWhiteSpace false processed.

(** The placeholder title, U+D560 U+0020 U+C77C. *)
Definition defaultTitle : jsstring := [54624; 32; 51068]%N.

Definition isString (v : value) : bool :=
  match v with
  | VStr _ => true
  | _ => false
  end.

(** [/^\d{4}-\d{2}-\d{2}$/.test(s)] *)
Definition dateRegex (s : jsstring) : bool :=
  match s with
  | [a; b; c; d; p; e; f; q; g; h] =>
      isDigit a && isDigit b && isDigit c && isDigit d && isDash p
      && isDigit e && isDigit f && isDash q && isDigit g && isDigit h
  | _ => false
  end.

Definition inRange (lo hi c : N) : bool := ((lo <=? c) && (c <=? hi))%N.

(** [/^([0-1][0-9]|2[0-3]):[0-5][0-9]$/.test(s)] *)
Definition timeRegex (s : jsstring) : bool :=
  match s with
  | [a; b; c; d; e] =>
      (inRange 48 49 a && isDigit b || (a =? 50)%N && inRange 48 51 b)
      && (c =? 58)%N && inRange 48 53 d && isDigit e
  | _ => false
  end.

(** [["high", "medium", "low"].includes(v)] *)
Definition isPriority (v : value) : bool :=
  match v with
  | VStr s => streq s (js "high") || streq s (js "medium") || streq s (js "low")
  | _ => false
  end.

Section WithHost.
Context `{Host}.

Definition normalizeTitle (result : obj) : obj :=
  match field result "title" with
  | VStr s =>
      if negb (truthy (VStr s)) then <["title" := VStr defaultTitle]> result
      else
        let title := trim s in
        let title :=
          if (100 <? length title)%nat
          then substring0 97 title ++ js "..." else title in
        let title := if (length title <? 1)%nat then defaultTitle else title in
        <["title" := VStr title]> result
  | _ => <["title" := VStr defaultTitle]> result
  end.

(** The same check is written out for [description] and [category]. *)
Definition normalizeText (key : string) (result : obj) : obj :=
  match field result key with
  | VStr s =>
      if truthy (VStr s) then
        let t := trim s in
        if (length t =? 0)%nat then <[key := VNull]> result
        else <[key := VStr t]> result
      else <[key := VNull]> result
  | _ => <[key := VNull]> result
  end.

(** The body of the [try] cannot throw: an unparsable string makes an Invalid
    Date, on which [setHours] and [<] are defined. *)
Definition normalizeDueDate (currentDate : jsstring) (result : obj) : obj :=
  match field result "due_date" with
  | VStr s =>
      if truthy (VStr s) then
        let dueDate := newDate s in
        let today := newDate currentDate in
        let today := setHours0 today in
        let dueDate := setHours0 dueDate in
        if tvLt dueDate today then <["due_date" := VStr currentDate]> result
        else if negb (dateRegex s) then <["due_date" := VNull]> result
        else result
      else <["due_date" := VNull]> result
  | _ => <["due_date" := VNull]> result
  end.

Definition normalizeDueTime (result : obj) : obj :=
  match field result "due_time" with
  | VStr s =>
      if truthy (VStr s) then
        if negb (timeRegex s) then <["due_time" := VNull]> result else result
      else <["due_time" := VNull]> result
  | _ => <["due_time" := VNull]> result
  end.

Definition normalizePriority (result : obj) : obj :=
  let p := field result "priority" in
  if negb (truthy p) || negb (isPriority p)
  then <["priority" := VStr (js "medium")]> result
  else result.

Definition postprocessResult (data : obj) (currentDate : jsstring) : obj :=
  let result := data in
  let result := normalizeTitle result in
  let result := normalizeText "description" result in
  let result := normalizeDueDate currentDate result in
  let result := normalizeDueTime result in
  let result := normalizePriority result in
  let result := normalizeText "category" result in
  result.

(** *** The request handler *)

(** The error messages of the handler's responses, by the place that sends
    them. *)
Inductive Message :=
| BadJson
| NotAString
| Invalid (e : option ValidationError)
| MissingApiKey
| QuotaExceeded
| AuthFailed
| ModelUnavailableCheckSetup
| ModelUnavailableRetryLater
| NetworkError
| GenerationFailed
| GenerationError.

(** What one call of [generateObject] is given: the model identifier and the
    values interpolated into the prompt. *)
Record GenPrompt := {
  model : jsstring;
  processedText : jsstring;
  promptDate : jsstring;
  promptNow : Z;
}.

Definition modelNames : list jsstring :=
  [js "gemini-2.5-flash"; js "gemini-1.5-flash"].

(** The argument of [generateObject] for one model identifier; the current
    date and time in the prompt both come from [now]. *)
Definition makePrompt (processedText : jsstring) (now : Z) (modelName : jsstring)
    : GenPrompt :=
  {| model := modelName; processedText := processedText;
     promptDate := toISODate now; promptNow := now |}.

(** [e?.message?.toLowerCase() || ""] *)
Definition errorText (e : option JsError) : jsstring :=
  match e with
  | Some {| message := Some m |} => toLowerCase m
  | _ => []
  end.

Definition respond (st : Z) (m : Message) : Response Message obj :=
  Build_Response st (ErrorBody m).

Definition mentions (text : jsstring) (words : list string) : bool :=
  existsb (fun w => includes text (js w)) words.

(** The classification of the last error once every model has failed. *)
Definition classifyLastError (lastError : option JsError) : Response Message obj :=
  let errorMessage := errorText lastError in
  if mentions errorMessage ["quota"; "rate limit"; "429"; "resource exhausted"]
  then respond 429 QuotaExceeded
  else if mentions errorMessage ["api key"; "api_key"; "authentication"]
  then respond 500 AuthFailed
  else if mentions errorMessage
            ["model"; "not found"; "invalid model"; "model not found"; "404"]
  then respond 500 ModelUnavailableCheckSetup
  else if mentions errorMessage ["network"; "timeout"; "fetch"]
  then respond 500 NetworkError
  else respond 500 GenerationFailed.

(** The outermost [catch]. *)
Definition classifyCaught (e : JsError) : Response Message obj :=
  let errorMessage := errorText (Some e) in
  if mentions errorMessage ["api key"; "api_key"; "authentication"]
  then respond 500 AuthFailed
  else if mentions errorMessage ["quota"; "rate limit"; "429"; "resource exhausted"]
  then respond 429 QuotaExceeded
  else if mentions errorMessage ["model"; "not found"]
  then respond 500 ModelUnavailableRetryLater
  else if mentions errorMessage ["network"; "timeout"; "fetch"]
  then respond 500 NetworkError
  else respond 500 GenerationError.

(** The state of the [for (const modelName of modelNames)] loop: [object],
    [lastError] and the identifiers [generateObject] was called with so far. *)
Record LoopState := {
  object : option obj;
  lastError : option JsError;
  called : list jsstring;
}.

Fixpoint tryModels (generateObject : GenPrompt -> Outcome obj)
    (prompt : jsstring -> GenPrompt) (names : list jsstring) (st : LoopState)
    : LoopState :=
  match names with
  | [] => st
  | modelName :: rest =>
      match generateObject (prompt modelName) with
      | Returns result =>
          (* object = result.object; break *)
          {| object := Some result; lastError := lastError st;
             called := called st ++ [modelName] |}
      | Throws modelError =>
          (* lastError = modelError; continue *)
          tryModels generateObject prompt rest
            {| object := object st; lastError := Some modelError;
               called := called st ++ [modelName] |}
      end
  end.

(** [body.text]: a property of a parsed JSON value (the last binding of a
    repeated key wins); [undefined] on anything but an object. *)
Definition prop (v : value) (k : string) : value :=
  match v with
  | VObj fields =>
      fold_left (fun acc kv => if String.eqb (fst kv) k then snd kv else acc)
        fields VUndefined
  | _ => VUndefined
  end.

(** [POST]: [request] is the outcome of [request.json()], [None] when the body
    is not JSON. The result pairs the response with the model identifiers
    [generateObject] was called with, in order. *)
Definition POST (env : Env) (generateObject : GenPrompt -> Outcome obj)
    (request : option value) : Response Message obj * list jsstring :=
  match request with
  | None => (respond 400 BadJson, [])
  | Some (VNull | VUndefined) =>
      (classifyCaught {| message := destructureNull |}, [])
  | Some body =>
      match prop body "text" with
      | VStr text =>
          let validation := validateInput text in
          if negb (isValid validation)
          then (respond 400 (Invalid (error validation)), [])
          else
            let processedText := preprocessInput text in
            if negb (apiKey env) then (respond 500 MissingApiKey, [])
            else
              let now := clock env 0 in
              let currentDate := toISODate now in
              let st :=
                tryModels generateObject (makePrompt processedText now) modelNames
                  {| object := None; lastError := None; called := [] |} in
              match object st with
              | None => (classifyLastError (lastError st), called st)
              | Some o =>
                  let processedResult := postprocessResult o currentDate in
                  (Build_Response 200 (DataBody processedResult), called st)
              end
      | _ => (respond 400 NotAString, [])
      end
  end.

End WithHost.

End GenerateTodo.

(** ** [analyze-todos/route.ts] *)

Module AnalyzeTodos.

(** A task as the client sends it: the columns of [public.todos] the handler
    reads, typed as the table types them, and the [due_time] it looks for.
    The handler itself takes the elements of [todos] as [any]; elements of
    other shapes are outside this model. *)
Record Task := {
  title : jsstring;
  completed : bool;
  priority : jsstring;
  category : option jsstring;
  due_date : option jsstring;
  due_time : option jsstring;
  created_date : jsstring;
}.

(** The truthy strings: present and not empty. *)
Definition present (s : option jsstring) : option jsstring :=
  match s with
  | Some (c :: r) => Some (c :: r)
  | _ => None
  end.

Record Count := { total : nat; done : nat }.

Definition zeroCount : Count := {| total := 0; done := 0 |}.

(** [stats.total++; if (todo.completed) stats.completed++] *)
Definition bump (isDone : bool) (c : Count) : Count :=
  {| total := S (total c); done := if isDone then S (done c) else done c |}.

(** A completion rate as the handler writes it. *)
Inductive Rate :=
| Zero                (* the literal "0" *)
| Fixed1 (p : Pct).   (* ((c / t) * 100).toFixed(1) *)

(** [t > 0 ? ((c / t) * 100).toFixed(1) : "0"] *)
Definition guardedRate (c t : nat) : Rate :=
  if (0 <? t)%nat then Fixed1 {| pctNum := c; pctDen := t |} else Zero.

(** [((c / t) * 100).toFixed(1)], with no test of [t]. *)
Definition plainRate (c : Count) : Rate :=
  Fixed1 {| pctNum := done c; pctDen := total c |}.

(** A rate whose computation divides by zero. *)
Definition dividesByZero (r : Rate) : bool :=
  match r with
  | Zero => false
  | Fixed1 p => (pctDen p =? 0)%nat
  end.

Inductive Slot := Morning | Afternoon | Evening | Night.

Inductive Weekday :=
| Monday | Tuesday | Wednesday | Thursday | Friday | Saturday | Sunday.

#[export] Instance Slot_eq_dec : EqDecision Slot.
Proof. solve_decision. Defined.

#[export] Instance Weekday_eq_dec : EqDecision Weekday.
Proof. solve_decision. Defined.

(** An object with a fixed set of keys, in insertion order. *)
Definition bumpAt {K} `{EqDecision K} (k : K) (isDone : bool)
    (tbl : list (K * Count)) : list (K * Count) :=
  List.map (fun e => if decide (fst e = k) then (fst e, bump isDone (snd e)) else e)
    tbl.

Definition timeSlots0 : list (Slot * Count) :=
  [(Morning, zeroCount); (Afternoon, zeroCount); (Evening, zeroCount);
   (Night, zeroCount)].

Definition dayOfWeekStats0 : list (Weekday * Count) :=
  [(Monday, zeroCount); (Tuesday, zeroCount); (Wednesday, zeroCount);
   (Thursday, zeroCount); (Friday, zeroCount); (Saturday, zeroCount);
   (Sunday, zeroCount)].

(** The chain of comparisons on [hours]; [None] is the bare [return]. *)
Definition slotOfHours (hours : num) : option Slot :=
  if numGe hours 9 && numLt hours 12 then Some Morning
  else if numGe hours 12 && numLt hours 18 then Some Afternoon
  else if numGe hours 18 && numLt hours 21 then Some Evening
  else if numGe hours 21 then Some Night
  else None.

(** [dayNames[dueDate.getDay()]] *)
Definition dayName (d : Z) : option Weekday :=
  if d =? 0 then Some Sunday
  else if d =? 1 then Some Monday
  else if d =? 2 then Some Tuesday
  else if d =? 3 then Some Wednesday
  else if d =? 4 then Some Thursday
  else if d =? 5 then Some Friday
  else if d =? 6 then Some Saturday
  else None.

(** The category of tasks without one, U+AE30 U+D0C0. *)
Definition otherCategory : jsstring := [44592; 53440]%N.

(** The property names every object inherits from [Object.prototype]: read on
    [categoryStats] they give a truthy value, so no own property is made
    for them and the increments land on the inherited value. *)
Definition inheritedNames : list jsstring :=
  List.map js
    ["constructor"; "__proto__"; "toString"; "toLocaleString"; "valueOf";
     "hasOwnProperty"; "isPrototypeOf"; "propertyIsEnumerable";
     "__defineGetter__"; "__defineSetter__"; "__lookupGetter__";
     "__lookupSetter__"].

Definition categoryOf (todo : Task) : jsstring :=
  match present (category todo) with
  | Some c => c
  | None => otherCategory
  end.

Definition addCategory (categoryStats : gmap jsstring Count) (todo : Task)
    : gmap jsstring Count :=
  let category := categoryOf todo in
  if existsb (streq category) inheritedNames then categoryStats
  else
    let categoryStats :=
      match categoryStats !! category with
      | None => <[category := zeroCount]> categoryStats
      | Some _ => categoryStats
      end in
    alter (bump (completed todo)) category categoryStats.

(** A stable sort by a comparator that returns the sign of [compare(a, b)]. *)
Fixpoint insertBy {A} (cmp : A -> A -> comparison) (x : A) (l : list A) : list A :=
  match l with
  | [] => [x]
  | y :: r =>
      match cmp x y with
      | Gt => y :: insertBy cmp x r
      | _ => x :: l
      end
  end.

Definition sortBy {A} (cmp : A -> A -> comparison) (l : list A) : list A :=
  foldr (insertBy cmp) [] l.

Definition busy {K} (e : K * Count) : bool := (0 <? total (snd e))%nat.

Definition pctOf (c : Count) : Pct := {| pctNum := done c; pctDen := total c |}.

(** The statistics computed before the prompt is built. *)
Record Stats := {
  totalCount : nat;
  completedCount : nat;
  completionRate : Rate;
  highPriorityTotal : nat;
  highPriorityCompleted : nat;
  highPriorityRate : Rate;
  mediumPriorityTotal : nat;
  mediumPriorityCompleted : nat;
  mediumPriorityRate : Rate;
  lowPriorityTotal : nat;
  lowPriorityCompleted : nat;
  lowPriorityRate : Rate;
  highPriorityPending : nat;
  mediumPriorityPending : nat;
  lowPriorityPending : nat;
  withDueDate : nat;
  completedOnTime : nat;
  onTimeRate : Rate;
  overdue : nat;
  upcomingDeadlines : nat;
  timeSlots : list (Slot * Count);
  dayOfWeekStats : list (Weekday * Count);
  categoryStats : gmap jsstring Count;
  mostProductiveTimeSlot : option (Slot * Count);
  mostProductiveDay : option (Weekday * Count);
  mostConcentratedTimeSlot : option (Slot * Count);
}.

Section WithHost.
Context `{Host}.

Definition count (p : Task -> bool) (todos : list Task) : nat :=
  length (List.filter p todos).

Definition hasPriority (p : string) (t : Task) : bool := streq (priority t) (js p).

Definition hasDueDate (t : Task) : bool :=
  match present (due_date t) with
  | Some _ => true
  | None => false
  end.

Definition isCompletedOnTime (t : Task) : bool :=
  match present (due_date t) with
  | Some due =>
      if negb (completed t) then false
      else
        let dueDate := newDate due in
        let completedDate := newDate (created_date t) in
        tvLe completedDate dueDate
  | None => false
  end.

(** A filter whose predicate reads the clock: [k] counts the evaluations of
    [new Date()] so far. *)
Fixpoint countClocked (p : Task -> nat -> bool * nat) (todos : list Task)
    (k : nat) : nat * nat :=
  match todos with
  | [] => (0%nat, k)
  | t :: rest =>
      let '(b, k) := p t k in
      let '(n, k) := countClocked p rest k in
      (if b then S n else n, k)
  end.

Definition isOverdue (env : Env) (t : Task) (k : nat) : bool * nat :=
  match present (due_date t) with
  | Some due =>
      if completed t then (false, k)
      else (tvLt (newDate due) (TimeClip (clock env k)), S k)
  | None => (false, k)
  end.

Definition isUpcoming (env : Env) (t : Task) (k : nat) : bool * nat :=
  match present (due_date t) with
  | Some due =>
      if completed t then (false, k)
      else
        let dueDate := newDate due in
        let now := TimeClip (clock env k) in
        let tomorrow := addOneDay now in
        (tvLe now dueDate && tvLe dueDate tomorrow, S k)
  | None => (false, k)
  end.

(** [const [hours] = todo.due_time.split(":").map(Number)] *)
Definition hoursOf (dueTime : jsstring) : num := ToNumber (beforeColon dueTime).

Definition addTimeSlot (timeSlots : list (Slot * Count)) (todo : Task)
    : list (Slot * Count) :=
  match present (due_time todo) with
  | Some dueTime =>
      match slotOfHours (hoursOf dueTime) with
      | Some slot => bumpAt slot (completed todo) timeSlots
      | None => timeSlots
      end
  | None => timeSlots
  end.

Definition addDayOfWeek (dayOfWeekStats : list (Weekday * Count)) (todo : Task)
    : list (Weekday * Count) :=
  match present (due_date todo) with
  | Some due =>
      match newDate due ≫= (fun t => dayName (getDay t)) with
      | Some day => bumpAt day (completed todo) dayOfWeekStats
      | None => dayOfWeekStats
      end
  | None => dayOfWeekStats
  end.

(** [(a, b) => rateB - rateA] *)
Definition byRate {K} (a b : K * Count) : comparison :=
  rateDiff (pctOf (snd a)) (pctOf (snd b)).

(** [(a, b) => b.total - a.total] *)
Definition byTotal {K} (a b : K * Count) : comparison :=
  Nat.compare (total (snd b)) (total (snd a)).

(** Lines 45 to 180 of the handler; the result carries the number of clock
    readings made. *)
Definition aggregate (env : Env) (todos : list Task) : Stats * nat :=
  let total := length todos in
  let completedN := count completed todos in
  let both p q (t : Task) : bool := p t && q t in
  let pending (t : Task) := negb (completed t) in
  let highTotal := count (hasPriority "high") todos in
  let highDone := count (both (hasPriority "high") completed) todos in
  let mediumTotal := count (hasPriority "medium") todos in
  let mediumDone := count (both (hasPriority "medium") completed) todos in
  let lowTotal := count (hasPriority "low") todos in
  let lowDone := count (both (hasPriority "low") completed) todos in
  let withDue := count hasDueDate todos in
  let onTime := count isCompletedOnTime todos in
  let '(overdueN, k) := countClocked (isOverdue env) todos 0%nat in
  let '(upcomingN, k) := countClocked (isUpcoming env) todos k in
  let slots := fold_left addTimeSlot todos timeSlots0 in
  let days := fold_left addDayOfWeek todos dayOfWeekStats0 in
  ({| totalCount := total;
      completedCount := completedN;
      completionRate := guardedRate completedN total;
      highPriorityTotal := highTotal;
      highPriorityCompleted := highDone;
      highPriorityRate := guardedRate highDone highTotal;
      mediumPriorityTotal := mediumTotal;
      mediumPriorityCompleted := mediumDone;
      mediumPriorityRate := guardedRate mediumDone mediumTotal;
      lowPriorityTotal := lowTotal;
      lowPriorityCompleted := lowDone;
      lowPriorityRate := guardedRate lowDone lowTotal;
      highPriorityPending := count (both (hasPriority "high") pending) todos;
      mediumPriorityPending := count (both (hasPriority "medium") pending) todos;
      lowPriorityPending := count (both (hasPriority "low") pending) todos;
      withDueDate := withDue;
      completedOnTime := onTime;
      onTimeRate := guardedRate onTime withDue;
      overdue := overdueN;
      upcomingDeadlines := upcomingN;
      timeSlots := slots;
      dayOfWeekStats := days;
      categoryStats := fold_left addCategory todos ∅;
      mostProductiveTimeSlot := head (sortBy byRate (List.filter busy slots));
      mostProductiveDay := head (sortBy byRate (List.filter busy days));
      mostConcentratedTimeSlot := head (sortBy byTotal slots) |}, k).

(** *** The prompt and the request handler *)

(** The values interpolated into the prompt; the fixed text around them is
    left out. *)
Record Prompt := {
  period : jsstring;
  stats : Stats;
  (** lines 209 to 214: every slot, its rate guarded *)
  slotLines : list (Slot * Count * Rate);
  (** line 215 *)
  productiveSlotRate : option Rate;
  (** lines 219 to 225: the weekdays with tasks *)
  dayLines : list (Weekday * Count * Rate);
  (** line 226 *)
  productiveDayRate : option Rate;
  (** lines 229 to 234: the own properties of [categoryStats] (their order
      is not modelled) *)
  categoryLines : list (jsstring * Count * Rate);
  (** line 242, per task *)
  overdueMarks : list bool;
  tasks : list Task;
  currentDate : jsstring;
}.

Definition withRate {K} (rate : Count -> Rate) (e : K * Count) : K * Count * Rate :=
  (e, rate (snd e)).

Fixpoint mapClocked (p : Task -> nat -> bool * nat) (todos : list Task)
    (k : nat) : list bool :=
  match todos with
  | [] => []
  | t :: rest => let '(b, k) := p t k in b :: mapClocked p rest k
  end.

Definition buildPrompt (env : Env) (todos : list Task) (period : jsstring)
    : Prompt :=
  let '(st, k) := aggregate env todos in
  let currentDate := toISODate (clock env k) in
  {| period := period;
     stats := st;
     slotLines :=
       List.map (withRate (fun c => guardedRate (done c) (total c))) (timeSlots st);
     productiveSlotRate := plainRate ∘ snd <$> mostProductiveTimeSlot st;
     dayLines := List.map (withRate plainRate) (List.filter busy (dayOfWeekStats st));
     productiveDayRate := plainRate ∘ snd <$> mostProductiveDay st;
     categoryLines := List.map (withRate plainRate) (map_to_list (categoryStats st));
     overdueMarks := mapClocked (isOverdue env) todos (S k);
     tasks := todos;
     currentDate := currentDate |}.

(** Every quotient the handler forms: the rates of the statistics and of the
    prompt, and the operands of the two sorts by rate. *)
Definition rateComputations (p : Prompt) : list Rate :=
  let st := stats p in
  [completionRate st; highPriorityRate st; mediumPriorityRate st;
   lowPriorityRate st; onTimeRate st]
  ++ List.map snd (slotLines p)
  ++ option_list (productiveSlotRate p)
  ++ List.map snd (dayLines p)
  ++ option_list (productiveDayRate p)
  ++ List.map snd (categoryLines p)
  ++ List.map (plainRate ∘ snd) (List.filter busy (timeSlots st))
  ++ List.map (plainRate ∘ snd) (List.filter busy (dayOfWeekStats st)).

Inductive Message :=
| TodosRequired
| PeriodRequired
| MissingApiKey
| AuthFailed
| QuotaExceeded
| ModelUnavailable
| NetworkError
| AnalysisError.

(** The object the model returns, passed on as it is. *)
Record Analysis := {
  summary : jsstring;
  urgentTasks : list jsstring;
  insights : list jsstring;
  recommendations : list jsstring;
}.

(** The outcome of [const { todos, period } = await request.json()]:
    [Unreadable] when that line throws; otherwise [todos] is [None] for a
    value that is missing or not an array. *)
Inductive Request :=
| Unreadable (e : JsError)
| Parsed (todos : option (list Task)) (period : value).

Definition respond (st : Z) (m : Message) : Response Message Analysis :=
  Build_Response st (ErrorBody m).

(** [["today", "week"].includes(period)] *)
Definition periodOf (v : value) : option jsstring :=
  match v with
  | VStr s => if streq s (js "today") || streq s (js "week") then Some s else None
  | _ => None
  end.

Definition classifyCaught (e : JsError) : Response Message Analysis :=
  let errorMessage := GenerateTodo.errorText (Some e) in
  let mentions := GenerateTodo.mentions errorMessage in
  if mentions ["api key"; "api_key"; "authentication"]
  then respond 500 AuthFailed
  else if mentions ["quota"; "rate limit"; "429"; "resource exhausted"]
  then respond 429 QuotaExceeded
  else if mentions ["model"; "not found"]
  then respond 500 ModelUnavailable
  else if mentions ["network"; "timeout"; "fetch"]
  then respond 500 NetworkError
  else respond 500 AnalysisError.

(** [POST]: the response and the prompts [generateObject] was called with. *)
Definition POST (env : Env) (generateObject : Prompt -> Outcome Analysis)
    (request : Request) : Response Message Analysis * list Prompt :=
  match request with
  | Unreadable e => (classifyCaught e, [])
  | Parsed None _ => (respond 400 TodosRequired, [])
  | Parsed (Some todos) period =>
      match periodOf period with
      | None => (respond 400 PeriodRequired, [])
      | Some period =>
          if negb (apiKey env) then (respond 500 MissingApiKey, [])
          else
            let prompt := buildPrompt env todos period in
            match generateObject prompt with
            | Returns object => (Build_Response 200 (DataBody object), [prompt])
            | Throws e => (classifyCaught e, [prompt])
            end
      end
  end.

End WithHost.

End AnalyzeTodos.

(** ** [page.tsx]: the caller of the analysis handler *)

Module AnalyzeClient.
Import AnalyzeTodos.

(** [period: "today" | "week"] *)
Inductive Period := Today | Week.

Definition periodName (period : Period) : jsstring :=
  match period with
  | Today => js "today"
  | Week => js "week"
  end.

(** The three texts [setAnalysisError] is given before anything is sent. *)
Inductive Notice :=
| NothingToAnalyze
| NothingToday
| NothingThisWeek.

Section WithHost.
Context `{Host}.

(** [new Date(now.getFullYear(), now.getMonth(), now.getDate())]: the
    constructor reads a year from 0 to 99 as a year of the 1900s. *)
Definition localMidnight (now : timeValue) : timeValue :=
  now ≫= fun t =>
    let '(y, m, d) := civilFromDays ((t + LocalTZA) / msPerDay) in
    let yr := if (0 <=? y) && (y <=? 99) then 1900 + y else y in
    TimeClip (MakeDay yr m d * msPerDay - LocalTZA).

(** [weekStart.setDate(weekStart.getDate() - weekStart.getDay())] *)
Definition startOfWeek (today : timeValue) : timeValue :=
  today ≫= fun t => TimeClip (t - getDay t * msPerDay).

(** [weekEnd.setDate(weekEnd.getDate() + 6)] and then
    [weekEnd.setHours(23, 59, 59, 999)] *)
Definition endOfWeek (weekStart : timeValue) : timeValue :=
  let weekEnd := weekStart ≫= fun t => TimeClip (t + 6 * msPerDay) in
  weekEnd ≫= fun t =>
    TimeClip ((t + LocalTZA) / msPerDay * msPerDay + (msPerDay - 1) - LocalTZA).

(** The filter of the period today: [dueDate.getTime() === today.getTime()]
    after [dueDate.setHours(0, 0, 0, 0)]. *)
Definition dueToday (today : timeValue) (todo : Task) : bool :=
  match present (due_date todo) with
  | Some due =>
      match setHours0 (newDate due), today with
      | Some a, Some b => a =? b
      | _, _ => false
      end
  | None => false
  end.

(** The filter of the period week: [dueDate >= weekStart && dueDate <= weekEnd] *)
Definition dueThisWeek (weekStart weekEnd : timeValue) (todo : Task) : bool :=
  match present (due_date todo) with
  | Some due =>
      let dueDate := newDate due in
      tvLe weekStart dueDate && tvLe dueDate weekEnd
  | None => false
  end.

Definition filterByPeriod (period : Period) (now : Z) (todos : list Task)
    : list Task :=
  let today := localMidnight (TimeClip now) in
  let weekStart := startOfWeek today in
  match period with
  | Today => List.filter (dueToday today) todos
  | Week =>
      let weekEnd := endOfWeek weekStart in
      List.filter (dueThisWeek weekStart weekEnd) todos
  end.

(** [handleAnalyzeTodos] up to its [fetch]: the notice it shows instead of
    sending, or the body it sends, as the handler reads it back. [user] is
    whether a user is signed in, [now] the reading of [new Date()]. *)
Definition handleAnalyzeTodos (user : bool) (todos : list Task)
    (period : Period) (now : Z) : Notice + Request :=
  if negb user || (length todos =? 0)%nat then inl NothingToAnalyze
  else
    let filteredTodos := filterByPeriod period now todos in
    if (length filteredTodos =? 0)%nat
    then inl (match period with
              | Today => NothingToday
              | Week => NothingThisWeek
              end)
    else inr (Parsed (Some filteredTodos) (VStr (periodName period))).

End WithHost.

End AnalyzeClient.

(** * The vocabulary of the properties *)

Module StringSpec.

(** A string that [trimStart] leaves alone: empty or starting with a code
    unit that is not white space. *)
Definition headOk (s : jsstring) : Prop :=
  match s with
  | [] => True
  | c :: _ => isWhiteSpace c = false
  end.

End StringSpec.
Export StringSpec.

(** ** The response normalizer *)

Module NormalizerSpec.
Import GenerateTodo.

Section WithHost.
Context `{Host}.

(** [dueDate < today] after both were set to local midnight. *)
Definition isPast (due currentDate : jsstring) : bool :=
  tvLt (setHours0 (newDate due)) (setHours0 (newDate currentDate)).

(** What each step of [postprocessResult] leaves in its field, as a function
    of what it found there. *)
Definition titleOf (v : value) : jsstring :=
  match v with
  | VStr [] => defaultTitle
  | VStr s =>
      let t := trim s in
      let t := if (100 <? length t)%nat then substring0 97 t ++ js "..." else t in
      if (length t <? 1)%nat then defaultTitle else t
  | _ => defaultTitle
  end.

Definition textOf (v : value) : value :=
  match v with
  | VStr s => match trim s with [] => VNull | t => VStr t end
  | _ => VNull
  end.

Definition dueDateOf (currentDate : jsstring) (v : value) : value :=
  match v with
  | VStr [] => VNull
  | VStr s =>
      if isPast s currentDate then VStr currentDate
      else if dateRegex s then VStr s else VNull
  | _ => VNull
  end.

Definition dueTimeOf (v : value) : value :=
  match v with
  | VStr s => if timeRegex s then VStr s else VNull
  | _ => VNull
  end.

Definition priorityOf (v : value) : value :=
  if isPriority v then v else VStr (js "medium").

End WithHost.

(** A text field of the draft: [null], or a string that is not empty and
    that [trim] leaves as it is. *)
Definition cleanText (v : value) : Prop :=
  v = VNull \/ exists s, v = VStr s /\ s <> [] /\ trim s = s.

(** A title of the draft. *)
Definition goodTitle (t : jsstring) : Prop :=
  t <> [] /\ trim t = t /\ (length t <= 100)%nat.

(** HH:mm with hours 00 to 23 and minutes 00 to 59. *)
Definition clockTime (s : jsstring) : Prop :=
  exists h m, 0 <= h <= 23 /\ 0 <= m <= 59 /\ s = pad2 h ++ [58%N] ++ pad2 m.

Definition exampleDraft (dueDate : string) : obj :=
  <["due_date" := VStr (js dueDate)]> ∅.

(** A string that matches YYYY-MM-DD and names a day of the calendar. *)
Definition calendarDate (s : jsstring) : option (Z * Z * Z) :=
  if dateRegex s then isoDate s else None.

(** One calendar date strictly before another. *)
Definition before (a b : Z * Z * Z) : Prop :=
  let '(y1, m1, d1) := a in
  let '(y2, m2, d2) := b in
  y1 < y2 \/ (y1 = y2 /\ (m1 < m2 \/ (m1 = m2 /\ d1 < d2))).

(** Case analysis on a month, from a proof [H] that it is one of twelve. *)
Ltac each_month H :=
  destruct H as [->|[->|[->|[->|[->|[->|[->|[->|[->|[->|[->| ->]]]]]]]]]]].

End NormalizerSpec.

(** ** The generation handler *)

Module HandlerSpec.
Import GenerateTodo.

Definition textBody (text : string) : option value :=
  Some (VObj [("text", VStr (js text))]).

(** A model that fails with [message] under the identifiers in [failing] and
    returns [draft] under any other. *)
Definition failingOn (failing : list jsstring) (message : string) (draft : obj)
    (p : GenPrompt) : Outcome obj :=
  if existsb (streq (model p)) failing
  then Throws {| message := Some (js message) |}
  else Returns draft.

(** An environment whose clock stands at [now]. *)
Definition envAt (key : bool) (now : Z) : Env :=
  {| apiKey := key; clock := fun _ => now |}.

(** A configured key, on 10 June 2025 at 03:00 UTC. *)
Definition exampleEnv : Env := envAt true 1749524400000.

End HandlerSpec.

(** ** The analysis handler *)

Module AnalyzeSpec.
Import AnalyzeTodos.

(** The sum of the [total] counters of a table. *)
Definition sumTotals {K} (tbl : list (K * Count)) : nat :=
  foldr (fun e n => (total (snd e) + n)%nat) 0%nat tbl.

(** The hour the handler reads off a task, when the task has a [due_time]. *)
Definition dueHour `{Host} (t : Task) : option num :=
  hoursOf <$> present (due_time t).

Definition hasDueTime (t : Task) : bool :=
  match present (due_time t) with
  | Some _ => true
  | None => false
  end.

(** [due_time] with an hour of at least 9. *)
Definition hourAtLeast9 `{Host} (t : Task) : bool :=
  match dueHour t with
  | Some h => numGe h 9
  | None => false
  end.

(** [due_time] with an hour from 0 to 8. *)
Definition hourFrom0To8 `{Host} (t : Task) : bool :=
  match dueHour t with
  | Some h => numGe h 0 && numLt h 9
  | None => false
  end.

(** The four slots in their order, whatever their counters. *)
Definition slotTable (tbl : list (Slot * Count)) : Prop :=
  exists a b c d,
    tbl = [(Morning, a); (Afternoon, b); (Evening, c); (Night, d)].

Definition taskDueAt (dueTime : string) : Task :=
  {| title := js "task"; completed := false; priority := js "medium";
     category := None; due_date := None; due_time := Some (js dueTime);
     created_date := js "2025-06-01" |}.

(** Every own property of [categoryStats] has counted a task. *)
Definition counted (m : gmap jsstring Count) : Prop :=
  forall k c, m !! k = Some c -> (0 < total c)%nat.

(** The statistics [s] with other counts of overdue and upcoming tasks. *)
Definition withDeadlines (o u : nat) (s : Stats) : Stats :=
  {| totalCount := totalCount s;
     completedCount := completedCount s;
     completionRate := completionRate s;
     highPriorityTotal := highPriorityTotal s;
     highPriorityCompleted := highPriorityCompleted s;
     highPriorityRate := highPriorityRate s;
     mediumPriorityTotal := mediumPriorityTotal s;
     mediumPriorityCompleted := mediumPriorityCompleted s;
     mediumPriorityRate := mediumPriorityRate s;
     lowPriorityTotal := lowPriorityTotal s;
     lowPriorityCompleted := lowPriorityCompleted s;
     lowPriorityRate := lowPriorityRate s;
     highPriorityPending := highPriorityPending s;
     mediumPriorityPending := mediumPriorityPending s;
     lowPriorityPending := lowPriorityPending s;
     withDueDate := withDueDate s;
     completedOnTime := completedOnTime s;
     onTimeRate := onTimeRate s;
     overdue := o;
     upcomingDeadlines := u;
     timeSlots := timeSlots s;
     dayOfWeekStats := dayOfWeekStats s;
     categoryStats := categoryStats s;
     mostProductiveTimeSlot := mostProductiveTimeSlot s;
     mostProductiveDay := mostProductiveDay s;
     mostConcentratedTimeSlot := mostConcentratedTimeSlot s |}.

Definition taskDueOn (dueDate : string) : Task :=
  {| title := js "task"; completed := false; priority := js "medium";
     category := None; due_date := Some (js dueDate); due_time := None;
     created_date := js "2025-06-01" |}.

Definition emptyAnalysis : Analysis :=
  {| summary := []; urgentTasks := []; insights := []; recommendations := [] |}.

End AnalyzeSpec.

(** ** The input pipeline *)

Module InputSpec.
Import GenerateTodo.

(** A string that [trimEnd] leaves alone: empty or ending with a code unit
    that is not white space. *)
Definition lastOk (s : jsstring) : Prop := trimEnd s = s.

Definition notWhiteSpace (c : N) : bool := negb (isWhiteSpace c).

(** The code units of [s] that are not white space, in order. *)
Definition inkOf (s : jsstring) : jsstring := List.filter notWhiteSpace s.

(** Every white-space code unit of [s] is a plain space, U+0020. *)
Definition plainSpaces (s : jsstring) : bool :=
  forallb (fun c => notWhiteSpace c || (c =? 32)%N) s.

(** No two white-space code units of [s] are adjacent. *)
Fixpoint noSpaceRuns (s : jsstring) : bool :=
  match s with
  | a :: r =>
      match r with
      | b :: _ => negb (isWhiteSpace a && isWhiteSpace b)
      | [] => true
      end && noSpaceRuns r
  | [] => true
  end.

(** The number of code units [validateInput] counts as special. *)
Definition specialCount (text : jsstring) : nat :=
  length (List.filter isSpecialChar text).

End InputSpec.

(** ** Conforming drafts *)

Module DraftSpec.
Import GenerateTodo NormalizerSpec.

(** The six properties [postprocessResult] writes. *)
Definition draftKeys : list string :=
  ["title"; "description"; "due_date"; "due_time"; "priority"; "category"].

(** A draft that holds, as own properties, a title, a priority and texts,
    a time and a date as [postprocessResult] produces them, the date not
    before the current date. *)
Definition conforming `{Host} (currentDate : jsstring) (d : obj) : Prop :=
  (exists t, d !! "title" = Some (VStr t) /\ goodTitle t)
  /\ (exists v, d !! "description" = Some v /\ cleanText v)
  /\ (d !! "due_date" = Some VNull
      \/ exists s, d !! "due_date" = Some (VStr s) /\ dateRegex s = true
                   /\ isPast s currentDate = false)
  /\ (d !! "due_time" = Some VNull
      \/ exists s, d !! "due_time" = Some (VStr s) /\ timeRegex s = true)
  /\ (exists v, d !! "priority" = Some v /\ isPriority v = true)
  /\ (exists v, d !! "category" = Some v /\ cleanText v).

(** The first inclusive and last inclusive time values of the years 0000 to
    9999, in UTC. *)
Definition minFourDigitYear : Z := -62167219200000.

Definition maxFourDigitYear : Z := 253402300799999.

(** The year of the era in [civilFromDays], from the day of the era. *)
Definition yearOfEra (doe : Z) : Z :=
  (doe - doe / 1460 + doe / 36524 - doe / 146096) / 365.

(** The field constraints of a draft. *)
Definition wellFormedDraft (d : obj) : Prop :=
  (exists t, field d "title" = VStr t /\ t <> [] /\ (length t <= 100)%nat)
  /\ isPriority (field d "priority") = true
  /\ (field d "due_time" = VNull
      \/ exists s, field d "due_time" = VStr s /\ timeRegex s = true)
  /\ (field d "due_date" = VNull
      \/ exists s, field d "due_date" = VStr s /\ dateRegex s = true)
  /\ cleanText (field d "description")
  /\ cleanText (field d "category").

End DraftSpec.

(** ** Counters of the analysis *)

Module CountSpec.
Import AnalyzeTodos.

(** A counter that has not counted more completed tasks than tasks. *)
Definition sound (c : Count) : Prop := (done c <= total c)%nat.

(** A rate of at most 100 per cent. *)
Definition atMostAll (r : Rate) : Prop :=
  match r with
  | Zero => True
  | Fixed1 p => (pctNum p <= pctDen p)%nat
  end.

Definition slotKeys : list Slot := [Morning; Afternoon; Evening; Night].

Definition dayKeys : list Weekday :=
  [Monday; Tuesday; Wednesday; Thursday; Friday; Saturday; Sunday].

(** The tasks counted under the category [c]. *)
Definition inCategory (c : jsstring) (t : Task) : bool := streq (categoryOf t) c.

Definition doneInCategory (c : jsstring) (t : Task) : bool :=
  inCategory c t && completed t.

Definition isInherited (c : jsstring) : bool := existsb (streq c) inheritedNames.

(** What [categoryStats] holds under [c] after the tasks [todos]. *)
Definition categoryCount (todos : list Task) (c : jsstring) : option Count :=
  if isInherited c || (length (List.filter (inCategory c) todos) =? 0)%nat
  then None
  else Some {| total := length (List.filter (inCategory c) todos);
               done := length (List.filter (doneInCategory c) todos) |}.

(** A task whose [due_date] is present and read by [Date] as a date. *)
Definition hasReadableDueDate `{Host} (t : Task) : bool :=
  match present (due_date t) with
  | Some due => match newDate due with Some _ => true | None => false end
  | None => false
  end.

Definition pendingWithDueDate (t : Task) : bool :=
  hasDueDate t && negb (completed t).

End CountSpec.

(** ** The calendar and the caller *)

Module ClientSpec.
Import AnalyzeTodos AnalyzeClient.

(** The tasks of [a] are tasks of [b]. *)
Definition within (a b : list Task) : Prop := forall t, In t a -> In t b.

(** A request for the tasks [todos] and the period [period]. *)
Definition requestFor (todos : list Task) (period : Period) : Request :=
  Parsed (Some todos) (VStr (periodName period)).

End ClientSpec.

(** * Properties *)

(** ** Strings *)

Section StringFacts.

Lemma trimStart_headOk s : headOk (trimStart s).
Proof.
  induction s as [|c r IH]; simpl; [exact I|].
  destruct (isWhiteSpace c) eqn:E; [exact IH | exact E].
Qed.

Lemma trimStart_fixed s : headOk s -> trimStart s = s.
Proof. destruct s as [|c r]; simpl; [easy|]. now intros ->. Qed.

Lemma trimEnd_headOk s : headOk s -> headOk (trimEnd s).
Proof.
  destruct s as [|c r]; simpl; [easy|]. intros Hc.
  destruct (trimEnd r); simpl; [rewrite Hc|]; exact Hc.
Qed.

Lemma trimEnd_idempotent s : trimEnd (trimEnd s) = trimEnd s.
Proof.
  induction s as [|c r IH]; simpl; [reflexivity|].
  destruct (trimEnd r) as [|c' r'] eqn:E.
  - destruct (isWhiteSpace c) eqn:Ec; simpl; [reflexivity|now rewrite Ec].
  - change (trimEnd (c :: c' :: r')) with
      (match trimEnd (c' :: r') with
       | [] => if isWhiteSpace c then [] else [c]
       | x => c :: x
       end).
    now rewrite IH.
Qed.

Lemma trim_headOk s : headOk (trim s).
Proof. apply trimEnd_headOk, trimStart_headOk. Qed.

Lemma trim_idempotent s : trim (trim s) = trim s.
Proof.
  unfold trim at 1. rewrite (trimStart_fixed (trim s)) by apply trim_headOk.
  apply trimEnd_idempotent.
Qed.

(** A suffix that [trimEnd] keeps protects what stands before it. *)
Lemma trimEnd_app a b : b <> [] -> trimEnd b = b -> trimEnd (a ++ b) = a ++ b.
Proof.
  intros Hb Eb. induction a as [|c r IH]; simpl; [exact Eb|].
  rewrite IH. destruct (r ++ b) eqn:E; [|reflexivity].
  apply app_eq_nil in E. tauto.
Qed.

Lemma headOk_take n s : (0 < n)%nat -> headOk s -> headOk (take n s).
Proof. destruct n; [lia|]. now destruct s. Qed.

Lemma headOk_app a b : a <> [] -> headOk a -> headOk (a ++ b).
Proof. now destruct a. Qed.

(** The truncated title: 97 code units and an ellipsis. *)
Lemma trim_truncated t :
  (100 < length t)%nat -> headOk t ->
  trim (substring0 97 t ++ js "...") = substring0 97 t ++ js "...".
Proof.
  intros Hlen Hh. unfold trim, substring0.
  assert (Hne : take 97 t <> []).
  { intros E. apply (f_equal length) in E. rewrite length_take in E.
    change (length (@nil N)) with 0%nat in E. lia. }
  rewrite trimStart_fixed.
  - now apply trimEnd_app.
  - apply headOk_app; [exact Hne|]. apply headOk_take; [lia|exact Hh].
Qed.

Lemma length_truncated t :
  (100 < length t)%nat -> length (substring0 97 t ++ js "...") = 100%nat.
Proof.
  intros Hlen. unfold substring0. rewrite length_app, length_take.
  change (length (js "...")) with 3%nat. lia.
Qed.

Lemma streq_true a b : streq a b = true <-> a = b.
Proof. unfold streq. apply bool_decide_eq_true. Qed.

Lemma streq_false a b : streq a b = false <-> a <> b.
Proof. unfold streq. apply bool_decide_eq_false. Qed.

Lemma length_zero_nil (s : jsstring) : (length s =? 0)%nat = true <-> s = [].
Proof. rewrite Nat.eqb_eq. now destruct s. Qed.

End StringFacts.

(** ** The response normalizer, field by field *)

Module NormalizerFacts.
Import GenerateTodo NormalizerSpec.

Section WithHost.
Context `{Host}.

Lemma field_insert (m : obj) k v : field (<[k := v]> m) k = v.
Proof. unfold field. now rewrite lookup_insert_eq. Qed.

Lemma field_insert_ne (m : obj) k j v : k <> j -> field (<[k := v]> m) j = field m j.
Proof. intros. unfold field. now rewrite lookup_insert_ne. Qed.

(** Writing back what a property already holds changes nothing. *)
Lemma insert_field_id (m : obj) k v :
  field m k = v -> v <> VUndefined -> <[k := v]> m = m.
Proof.
  unfold field. intros E Hv. apply insert_id.
  destruct (m !! k); simpl in E; congruence.
Qed.

Lemma normalizeTitle_spec m :
  normalizeTitle m = <["title" := VStr (titleOf (field m "title"))]> m.
Proof.
  unfold normalizeTitle, titleOf.
  destruct (field m "title") as [| | | |s| |]; try reflexivity.
  destruct s; reflexivity.
Qed.

Lemma normalizeText_spec key m :
  normalizeText key m = <[key := textOf (field m key)]> m.
Proof.
  unfold normalizeText, textOf.
  destruct (field m key) as [| | | |s| |]; try reflexivity.
  destruct s as [|c r]; [reflexivity|].
  change (truthy (VStr (c :: r))) with true. cbv iota.
  now destruct (trim (c :: r)).
Qed.

Lemma normalizeDueDate_spec currentDate m :
  normalizeDueDate currentDate m
  = <["due_date" := dueDateOf currentDate (field m "due_date")]> m.
Proof.
  unfold normalizeDueDate, dueDateOf, isPast.
  destruct (field m "due_date") as [| | | |s| |] eqn:E; try reflexivity.
  destruct s as [|c r]; [reflexivity|].
  change (truthy (VStr (c :: r))) with true. cbv iota.
  destruct (tvLt _ _); [reflexivity|].
  destruct (dateRegex (c :: r)); [|reflexivity].
  symmetry. now apply insert_field_id.
Qed.

Lemma timeRegex_nonempty s : timeRegex s = true -> s <> [].
Proof. now destruct s. Qed.

Lemma normalizeDueTime_spec m :
  normalizeDueTime m = <["due_time" := dueTimeOf (field m "due_time")]> m.
Proof.
  unfold normalizeDueTime, dueTimeOf.
  destruct (field m "due_time") as [| | | |s| |] eqn:E; try reflexivity.
  destruct s as [|c r]; [reflexivity|].
  change (truthy (VStr (c :: r))) with true. cbv iota.
  destruct (timeRegex (c :: r)); [|reflexivity].
  symmetry. now apply insert_field_id.
Qed.

Lemma isPriority_cases v :
  isPriority v = true ->
  v = VStr (js "high") \/ v = VStr (js "medium") \/ v = VStr (js "low").
Proof.
  destruct v as [| | | |s| |]; try discriminate. simpl.
  rewrite !orb_true_iff, !streq_true. intuition congruence.
Qed.

Lemma isPriority_truthy v : isPriority v = true -> truthy v = true.
Proof. intros Hp. destruct (isPriority_cases v Hp) as [->|[->| ->]]; reflexivity. Qed.

Lemma normalizePriority_spec m :
  normalizePriority m = <["priority" := priorityOf (field m "priority")]> m.
Proof.
  unfold normalizePriority, priorityOf.
  destruct (isPriority (field m "priority")) eqn:E.
  - rewrite (isPriority_truthy _ E). simpl. symmetry.
    apply insert_field_id; [reflexivity|]. intros E'. now rewrite E' in E.
  - now rewrite orb_true_r.
Qed.

(** The six fields of the result, read off the input. *)
Lemma postprocessResult_spec data currentDate :
  postprocessResult data currentDate
  = <["category" := textOf (field data "category")]>
      (<["priority" := priorityOf (field data "priority")]>
        (<["due_time" := dueTimeOf (field data "due_time")]>
          (<["due_date" := dueDateOf currentDate (field data "due_date")]>
            (<["description" := textOf (field data "description")]>
              (<["title" := VStr (titleOf (field data "title"))]> data))))).
Proof.
  unfold postprocessResult.
  rewrite normalizeText_spec, normalizePriority_spec, normalizeDueTime_spec,
    normalizeDueDate_spec, normalizeText_spec, normalizeTitle_spec.
  now rewrite !field_insert_ne by discriminate.
Qed.

End WithHost.
End NormalizerFacts.

(** ** The response normalizer: output constraints and idempotence *)

Module Normalizer.
Import GenerateTodo NormalizerSpec NormalizerFacts.

Section WithHost.
Context `{Host}.

Lemma titleOf_good v : goodTitle (titleOf v).
Proof.
  assert (Hd : goodTitle defaultTitle) by (repeat split; [discriminate | simpl; lia]).
  unfold titleOf. destruct v as [| | | |s| |]; try exact Hd.
  destruct s as [|c r]; [exact Hd|]. cbv zeta.
  set (t := trim (c :: r)).
  destruct (100 <? length t)%nat eqn:E.
  - apply Nat.ltb_lt in E. rewrite length_truncated by exact E.
    change (100 <? 1)%nat with false. cbv iota.
    repeat split.
    + intros E'. apply (f_equal length) in E'.
      rewrite length_truncated in E' by exact E. discriminate.
    + apply trim_truncated; [exact E | apply trim_headOk].
    + rewrite length_truncated by exact E. lia.
  - apply Nat.ltb_ge in E.
    destruct (length t <? 1)%nat eqn:E1; [exact Hd|].
    apply Nat.ltb_ge in E1. repeat split.
    + intros E'. rewrite E' in E1. simpl in E1. lia.
    + apply trim_idempotent.
    + exact E.
Qed.

Lemma titleOf_fixed t : goodTitle t -> titleOf (VStr t) = t.
Proof.
  intros (Hne & Ht & Hlen). unfold titleOf.
  destruct t as [|c r]; [easy|]. cbv zeta. rewrite Ht.
  assert (E : (100 <? length (c :: r))%nat = false) by (apply Nat.ltb_ge; exact Hlen).
  rewrite E. reflexivity.
Qed.

Lemma textOf_clean v : cleanText (textOf v).
Proof.
  unfold textOf. destruct v as [| | | |s| |]; try (now left).
  destruct (trim s) as [|c r] eqn:E; [now left|]. right.
  exists (c :: r). repeat split; [discriminate|]. rewrite <- E. apply trim_idempotent.
Qed.

Lemma textOf_fixed v : cleanText v -> textOf v = v.
Proof.
  intros [->|(s & -> & Hne & Ht)]; [reflexivity|].
  unfold textOf. rewrite Ht. now destruct s.
Qed.

Lemma dueTimeOf_fixed v : dueTimeOf (dueTimeOf v) = dueTimeOf v.
Proof.
  unfold dueTimeOf. destruct v as [| | | |s| |]; try reflexivity.
  destruct (timeRegex s) eqn:E; [now rewrite E | reflexivity].
Qed.

Lemma priorityOf_fixed v : priorityOf (priorityOf v) = priorityOf v.
Proof.
  unfold priorityOf. destruct (isPriority v) eqn:E; [now rewrite E | reflexivity].
Qed.

Lemma pad2_digits2 a b :
  isDigit a = true -> isDigit b = true ->
  0 <= digits2 a b <= 99 /\ pad2 (digits2 a b) = [a; b].
Proof.
  unfold isDigit. rewrite !andb_true_iff, !N.leb_le. intros [Ha1 Ha2] [Hb1 Hb2].
  unfold pad2, digits2, digitChar, digit.
  set (x := Z.of_N a - 48). set (y := Z.of_N b - 48).
  assert (Hx : 0 <= x <= 9) by lia. assert (Hy : 0 <= y <= 9) by lia.
  assert (Ed : (10 * x + y) / 10 = x) by (symmetry; apply (Z.div_unique _ _ _ y); lia).
  assert (Em : (10 * x + y) mod 10 = y) by (symmetry; apply (Z.mod_unique _ _ x); lia).
  rewrite Ed, Em, (Z.mod_small x) by lia.
  split; [lia|]. f_equal; [|f_equal]; lia.
Qed.

Lemma timeRegex_clockTime s : timeRegex s = true -> clockTime s.
Proof.
  destruct s as [|a [|b [|c [|d [|e [|]]]]]]; try discriminate.
  unfold timeRegex, inRange.
  rewrite !andb_true_iff, orb_true_iff, !andb_true_iff, !N.leb_le, !N.eqb_eq.
  intros [[[Hh Hc] [Hd1 Hd2]] He]. subst c.
  assert (Hd : isDigit d = true)
    by (unfold isDigit; rewrite andb_true_iff, !N.leb_le; lia).
  assert (Hab : isDigit a = true /\ isDigit b = true /\ digits2 a b <= 23).
  { unfold isDigit, digits2, digit in *.
    rewrite !andb_true_iff, !N.leb_le in *. lia. }
  destruct Hab as (Ha & Hb & Hle).
  destruct (pad2_digits2 a b Ha Hb) as [Hr1 E1].
  destruct (pad2_digits2 d e Hd He) as [Hr2 E2].
  exists (digits2 a b), (digits2 d e). rewrite E1, E2.
  repeat split; try lia.
  unfold isDigit in He. rewrite andb_true_iff, !N.leb_le in He.
  unfold digits2, digit. lia.
Qed.

Lemma tvLt_irrefl a : tvLt a a = false.
Proof. destruct a; simpl; [apply Z.ltb_irrefl | reflexivity]. Qed.

Lemma dateRegex_nonempty s : dateRegex s = true -> s <> [].
Proof. now destruct s. Qed.

(** No step leaves [undefined] in its field. *)
Lemma textOf_defined v : textOf v <> VUndefined.
Proof. unfold textOf. destruct v; try discriminate. now destruct (trim s). Qed.

Lemma dueTimeOf_defined v : dueTimeOf v <> VUndefined.
Proof. unfold dueTimeOf. destruct v; try discriminate. now destruct (timeRegex s). Qed.

Lemma priorityOf_defined v : priorityOf v <> VUndefined.
Proof.
  unfold priorityOf. destruct (isPriority v) eqn:E; [|discriminate].
  intros E'. now rewrite E' in E.
Qed.

Lemma dueDateOf_defined currentDate v : dueDateOf currentDate v <> VUndefined.
Proof.
  unfold dueDateOf. destruct v; try discriminate. destruct s; [discriminate|].
  destruct (isPast _ _); [discriminate|]. now destruct (dateRegex _).
Qed.

(** The three shapes of the resulting [due_date]. *)
Lemma dueDateOf_cases currentDate v :
  dueDateOf currentDate v = VNull
  \/ (exists s, dueDateOf currentDate v = VStr s /\ dateRegex s = true)
  \/ dueDateOf currentDate v = VStr currentDate.
Proof.
  unfold dueDateOf. destruct v as [| | | |s| |]; try (now left).
  destruct s as [|c r]; [now left|].
  destruct (isPast _ _); [now right; right|].
  destruct (dateRegex (c :: r)) eqn:E; [right; left; eauto | now left].
Qed.

(** The second pass keeps [due_date] unless the first pass wrote a
    current-date string there that does not match YYYY-MM-DD. *)
Lemma dueDateOf_fixed currentDate v :
  dueDateOf currentDate (dueDateOf currentDate v) = dueDateOf currentDate v
  <-> (dateRegex currentDate = true \/ dueDateOf currentDate v <> VStr currentDate).
Proof.
  assert (Hcur : dueDateOf currentDate (VStr currentDate)
                 = if dateRegex currentDate then VStr currentDate else VNull).
  { unfold dueDateOf, isPast. rewrite tvLt_irrefl.
    destruct currentDate; reflexivity. }
  split.
  - intros Hfix. destruct (dateRegex currentDate) eqn:Hc; [now left|right].
    intros E. rewrite E, Hcur in Hfix. discriminate.
  - intros Hc. destruct v as [| | | |s| |]; try reflexivity.
    destruct s as [|c r]; [reflexivity|].
    assert (E : dueDateOf currentDate (VStr (c :: r))
                = if isPast (c :: r) currentDate then VStr currentDate
                  else if dateRegex (c :: r) then VStr (c :: r) else VNull)
      by reflexivity.
    rewrite E in Hc |- *.
    destruct (isPast (c :: r) currentDate) eqn:Ep.
    + rewrite Hcur. destruct Hc as [-> | Hc]; [reflexivity | now destruct Hc].
    + destruct (dateRegex (c :: r)) eqn:Er; [exact E | reflexivity].
Qed.

(** Whatever the input object and the current-date string,
    [postprocessResult] returns a draft whose title, priority, [due_time],
    description and category meet the field constraints, and whose
    [due_date] is null, or matches YYYY-MM-DD, or is the current-date string
    itself. *)
Lemma postprocessResult_output_any_date data currentDate :
  let out := postprocessResult data currentDate in
  (exists t, field out "title" = VStr t /\ t <> [] /\ (length t <= 100)%nat)
  /\ (field out "priority" = VStr (js "high")
      \/ field out "priority" = VStr (js "medium")
      \/ field out "priority" = VStr (js "low"))
  /\ (field out "due_time" = VNull
      \/ exists s, field out "due_time" = VStr s /\ timeRegex s = true /\ clockTime s)
  /\ (field out "due_date" = VNull
      \/ (exists s, field out "due_date" = VStr s /\ dateRegex s = true)
      \/ field out "due_date" = VStr currentDate)
  /\ cleanText (field out "description")
  /\ cleanText (field out "category")
  /\ (let dueTime s :=
        field (postprocessResult (<["due_time" := VStr (js s)]> data) currentDate)
          "due_time" in
      dueTime "25:00" = VNull /\ dueTime "9:5" = VNull
      /\ dueTime "09:05" = VStr (js "09:05")).
Proof.
  intros out. subst out. rewrite postprocessResult_spec.
  repeat rewrite ?field_insert, ?field_insert_ne by discriminate.
  split; [|split; [|split; [|split; [|split; [|split]]]]].
  - destruct (titleOf_good (field data "title")) as (Hne & _ & Hlen). eauto.
  - unfold priorityOf. destruct (isPriority _) eqn:E; [|now right; left].
    now apply isPriority_cases.
  - unfold dueTimeOf. destruct (field data "due_time") as [| | | |s| |]; try (now left).
    destruct (timeRegex s) eqn:E; [right | now left].
    exists s. auto using timeRegex_clockTime.
  - apply dueDateOf_cases.
  - apply textOf_clean.
  - apply textOf_clean.
  - cbv beta zeta. rewrite !postprocessResult_spec.
    repeat rewrite ?field_insert, ?field_insert_ne by discriminate.
    repeat split.
Qed.

(** C3. Whatever the input object, and for every current-date string that
    matches YYYY-MM-DD, as the one the handler passes does,
    [postprocessResult] returns (it is a total function: none of the
    operations it applies can throw), and in its result the title is a
    non-empty string of at most 100 code units; the priority is high, medium
    or low; [due_time] is null or matches HH:mm with hours 00 to 23 and
    minutes 00 to 59, so that 25:00 and 9:5 become null and 09:05 is kept;
    [due_date] is null or matches YYYY-MM-DD; description and category are
    null or non-empty trimmed strings. *)
Theorem postprocessResult_output data currentDate :
  dateRegex currentDate = true ->
  let out := postprocessResult data currentDate in
  (exists t, field out "title" = VStr t /\ t <> [] /\ (length t <= 100)%nat)
  /\ (field out "priority" = VStr (js "high")
      \/ field out "priority" = VStr (js "medium")
      \/ field out "priority" = VStr (js "low"))
  /\ (field out "due_time" = VNull
      \/ exists s, field out "due_time" = VStr s /\ timeRegex s = true /\ clockTime s)
  /\ (field out "due_date" = VNull
      \/ exists s, field out "due_date" = VStr s /\ dateRegex s = true)
  /\ cleanText (field out "description")
  /\ cleanText (field out "category")
  /\ (let dueTime s :=
        field (postprocessResult (<["due_time" := VStr (js s)]> data) currentDate)
          "due_time" in
      dueTime "25:00" = VNull /\ dueTime "9:5" = VNull
      /\ dueTime "09:05" = VStr (js "09:05")).
Proof.
  intros Hc.
  pose proof (postprocessResult_output_any_date data currentDate) as Hall.
  cbv zeta in Hall |- *.
  destruct Hall as (Htitle & Hprio & Htime & Hdate & Hdesc & Hcat & Hex).
  split; [exact Htitle|]. split; [exact Hprio|]. split; [exact Htime|].
  split; [|split; [exact Hdesc|split; [exact Hcat|exact Hex]]].
  destruct Hdate as [E|[E|E]]; [now left | now right | right].
  exists currentDate. now split.
Qed.

(** The condition on the current-date string is needed: with the string
    2025-06 (a date-only form that [Date] reads as the first of June, and
    that the handler never passes) a past due date is replaced by that
    string, which does not match YYYY-MM-DD. *)
Lemma postprocessResult_due_date_not_always_formatted :
  field (postprocessResult (H := refHost) (exampleDraft "2020-01-01") (js "2025-06"))
    "due_date" = VStr (js "2025-06")
  /\ dateRegex (js "2025-06") = false.
Proof. split; vm_compute; reflexivity. Qed.

(** Normalizing a normalized draft with the same current date gives the
    same object, property for property, exactly when the current-date string
    matches YYYY-MM-DD or the first pass did not put the current-date string
    into [due_date]. *)
Lemma postprocessResult_idempotent_iff data currentDate :
  postprocessResult (postprocessResult data currentDate) currentDate
  = postprocessResult data currentDate
  <-> (dateRegex currentDate = true
       \/ field (postprocessResult data currentDate) "due_date" <> VStr currentDate).
Proof.
  rewrite (postprocessResult_spec (postprocessResult _ _)).
  set (out := postprocessResult data currentDate).
  assert (Ht : field out "title" = VStr (titleOf (field data "title"))
          /\ field out "description" = textOf (field data "description")
          /\ field out "due_date" = dueDateOf currentDate (field data "due_date")
          /\ field out "due_time" = dueTimeOf (field data "due_time")
          /\ field out "priority" = priorityOf (field data "priority")
          /\ field out "category" = textOf (field data "category")).
  { subst out. rewrite postprocessResult_spec.
    repeat rewrite ?field_insert, ?field_insert_ne by discriminate.
    repeat split. }
  destruct Ht as (Et & Ed & Edd & Edt & Ep & Ec).
  rewrite Edd at 2. rewrite <- dueDateOf_fixed. split.
  - intros Hfix. apply (f_equal (fun m => field m "due_date")) in Hfix.
    repeat rewrite ?field_insert, ?field_insert_ne in Hfix by discriminate.
    now rewrite Edd in Hfix.
  - intros Hfix.
    rewrite (insert_field_id out "title");
      [|rewrite Et; f_equal; symmetry; apply titleOf_fixed, titleOf_good
       |discriminate].
    rewrite (insert_field_id out "description");
      [|rewrite Ed; symmetry; apply textOf_fixed, textOf_clean
       |apply textOf_defined].
    rewrite (insert_field_id out "due_date");
      [|rewrite Edd; symmetry; exact Hfix
       |apply dueDateOf_defined].
    rewrite (insert_field_id out "due_time");
      [|rewrite Edt; symmetry; apply dueTimeOf_fixed
       |apply dueTimeOf_defined].
    rewrite (insert_field_id out "priority");
      [|rewrite Ep; symmetry; apply priorityOf_fixed
       |apply priorityOf_defined].
    apply insert_field_id;
      [rewrite Ec; symmetry; apply textOf_fixed, textOf_clean
      |apply textOf_defined].
Qed.

(** C4. [postprocessResult] is idempotent: whatever the input object, and
    for every current-date string that matches YYYY-MM-DD, as the one the
    handler passes does, normalizing the normalized draft with the same
    current date gives the same object, property for property. *)
Theorem postprocessResult_idempotent data currentDate :
  dateRegex currentDate = true ->
  postprocessResult (postprocessResult data currentDate) currentDate
  = postprocessResult data currentDate.
Proof.
  intros Hc. apply postprocessResult_idempotent_iff. now left.
Qed.

(** C5 (as amended). A [due_date] string that does not match YYYY-MM-DD
    comes out null, except when it is not empty and [Date] reads it as a day
    before the current date: the past-date test comes first and replaces it
    by the current date. *)
Theorem malformed_due_date data currentDate s :
  field data "due_date" = VStr s ->
  dateRegex s = false ->
  field (postprocessResult data currentDate) "due_date"
  = if negb (streq s []) && isPast s currentDate then VStr currentDate else VNull.
Proof.
  intros E Hr. rewrite postprocessResult_spec.
  repeat rewrite ?field_insert, ?field_insert_ne by discriminate.
  rewrite E. unfold dueDateOf. destruct s as [|c r]; [reflexivity|].
  change (negb (streq (c :: r) [])) with true. simpl andb.
  now rewrite Hr.
Qed.

End WithHost.

Lemma postprocessResult_idempotent_example :
  postprocessResult (H := refHost)
    (postprocessResult (H := refHost) (exampleDraft "2020-01-01") (js "2025-06-10"))
    (js "2025-06-10")
  = postprocessResult (H := refHost) (exampleDraft "2020-01-01") (js "2025-06-10").
Proof.
  apply (postprocessResult_idempotent (H := refHost)
           (exampleDraft "2020-01-01") (js "2025-06-10")).
  reflexivity.
Defined.

Lemma postprocessResult_output_example :
  let out :=
    postprocessResult (H := refHost) (exampleDraft "2020-01-01") (js "2025-06-10") in
  (exists t, field out "title" = VStr t /\ t <> [] /\ (length t <= 100)%nat)
  /\ (field out "priority" = VStr (js "high")
      \/ field out "priority" = VStr (js "medium")
      \/ field out "priority" = VStr (js "low"))
  /\ (field out "due_time" = VNull
      \/ exists s, field out "due_time" = VStr s /\ timeRegex s = true /\ clockTime s)
  /\ (field out "due_date" = VNull
      \/ exists s, field out "due_date" = VStr s /\ dateRegex s = true)
  /\ cleanText (field out "description")
  /\ cleanText (field out "category")
  /\ (let dueTime s :=
        field (postprocessResult (H := refHost)
                 (<["due_time" := VStr (js s)]> (exampleDraft "2020-01-01"))
                 (js "2025-06-10"))
          "due_time" in
      dueTime "25:00" = VNull /\ dueTime "9:5" = VNull
      /\ dueTime "09:05" = VStr (js "09:05")).
Proof.
  apply (postprocessResult_output (H := refHost)
           (exampleDraft "2020-01-01") (js "2025-06-10")).
  reflexivity.
Defined.

(** Here too the condition is needed: with the current-date string 2025-06
    the first pass writes that string into [due_date] and the second pass,
    which finds it neither past nor well formed, drops it. *)
Lemma postprocessResult_not_idempotent :
  field (postprocessResult (H := refHost) (exampleDraft "2020-01-01") (js "2025-06"))
    "due_date" = VStr (js "2025-06")
  /\ field (postprocessResult (H := refHost)
       (postprocessResult (H := refHost) (exampleDraft "2020-01-01") (js "2025-06"))
       (js "2025-06")) "due_date" = VNull.
Proof. split; vm_compute; reflexivity. Qed.

Lemma malformed_due_date_example :
  field (postprocessResult (H := refHost) (exampleDraft "tomorrow") (js "2025-06-10"))
    "due_date" = VNull.
Proof.
  apply (malformed_due_date (H := refHost) (exampleDraft "tomorrow")
           (js "2025-06-10") (js "tomorrow")); reflexivity.
Defined.

(** C5, the claim as stated fails: 2020-01 does not match YYYY-MM-DD, [Date]
    reads it as the first of January 2020, and the result holds the current
    date, not null. *)
Lemma malformed_past_due_date_rewritten :
  dateRegex (js "2020-01") = false
  /\ field (postprocessResult (H := refHost) (exampleDraft "2020-01") (js "2025-06-10"))
       "due_date" = VStr (js "2025-06-10").
Proof. split; vm_compute; reflexivity. Qed.

End Normalizer.

(** ** Calendar dates and the past-date rule *)

Module PastDate.
Import GenerateTodo NormalizerSpec NormalizerFacts Normalizer.

Lemma DayFromYear_succ y : DayFromYear (y + 1) = DayFromYear y + DaysInYear y.
Proof.
  unfold DayFromYear, DaysInYear, InLeapYear.
  destruct (Z.eqb_spec (y mod 4) 0), (Z.eqb_spec (y mod 100) 0),
    (Z.eqb_spec (y mod 400) 0); simpl; Z.div_mod_to_equations; lia.
Qed.

Lemma DayFromYear_mono a b : a <= b -> DayFromYear a <= DayFromYear b.
Proof. unfold DayFromYear. intros. Z.div_mod_to_equations. lia. Qed.

Lemma DayFromYear_next a b :
  a < b -> DayFromYear a + DaysInYear a <= DayFromYear b.
Proof.
  intros. rewrite <- DayFromYear_succ. apply DayFromYear_mono. lia.
Qed.

Lemma month_cases m :
  1 <= m <= 12 ->
  m = 1 \/ m = 2 \/ m = 3 \/ m = 4 \/ m = 5 \/ m = 6 \/ m = 7 \/ m = 8
  \/ m = 9 \/ m = 10 \/ m = 11 \/ m = 12.
Proof. lia. Qed.

Lemma validYMD_inv y m d :
  validYMD y m d = true -> 1 <= m <= 12 /\ 1 <= d <= DaysInMonth y m.
Proof. unfold validYMD. rewrite !andb_true_iff, !Z.leb_le. lia. Qed.

(** The day of the year lies inside the year. *)
Lemma dayOfYear_range y m d :
  validYMD y m d = true ->
  0 <= monthStart y m + (d - 1) < DaysInYear y.
Proof.
  intros Hv. apply validYMD_inv in Hv. destruct Hv as [Hm Hd].
  unfold DaysInMonth, monthStart, DaysInYear in *.
  apply month_cases in Hm.
  destruct (InLeapYear y); each_month Hm; simpl in *; lia.
Qed.

Lemma dayOfYear_mono y m1 d1 m2 d2 :
  validYMD y m1 d1 = true -> validYMD y m2 d2 = true ->
  m1 < m2 \/ (m1 = m2 /\ d1 < d2) ->
  monthStart y m1 + (d1 - 1) < monthStart y m2 + (d2 - 1).
Proof.
  intros H1 H2 Hlt. apply validYMD_inv in H1, H2.
  destruct H1 as [Hm1 Hd1], H2 as [Hm2 Hd2].
  unfold DaysInMonth, monthStart in *.
  apply month_cases in Hm1, Hm2.
  destruct (InLeapYear y); each_month Hm1; simpl in *; each_month Hm2;
    simpl in *; lia.
Qed.

(** [MakeDay] respects the order of the calendar. *)
Lemma MakeDay_mono y1 m1 d1 y2 m2 d2 :
  validYMD y1 m1 d1 = true -> validYMD y2 m2 d2 = true ->
  before (y1, m1, d1) (y2, m2, d2) ->
  MakeDay y1 m1 d1 < MakeDay y2 m2 d2.
Proof.
  intros H1 H2 [Hy|[-> Hmd]]; unfold MakeDay.
  - pose proof (DayFromYear_next y1 y2 Hy).
    pose proof (dayOfYear_range _ _ _ H1). pose proof (dayOfYear_range _ _ _ H2).
    lia.
  - pose proof (dayOfYear_mono _ _ _ _ _ H1 H2 Hmd). lia.
Qed.

Lemma digit_range c : isDigit c = true -> 0 <= digit c <= 9.
Proof. unfold isDigit, digit. rewrite andb_true_iff, !N.leb_le. lia. Qed.

Lemma isoDate_inv s y m d :
  isoDate s = Some (y, m, d) -> 0 <= y <= 9999 /\ validYMD y m d = true.
Proof.
  unfold isoDate. destruct (isoDateOnly s) as [[[y' m'] d']|] eqn:E; [|discriminate].
  destruct (validYMD y' m' d') eqn:Ev; [|discriminate].
  intros [= <- <- <-]. split; [|exact Ev].
  assert (Hy : forall a b c e,
             isDigit a && isDigit b && isDigit c && isDigit e = true ->
             0 <= digits4 a b c e <= 9999).
  { intros a b c e. rewrite !andb_true_iff. intros [[[Ha Hb] Hc] He].
    apply digit_range in Ha, Hb, Hc, He. unfold digits4. lia. }
  unfold isoDateOnly in E.
  destruct s as [|a [|b [|c [|e s]]]]; try discriminate.
  destruct (isDigit a && isDigit b && isDigit c && isDigit e) eqn:Ed.
  - specialize (Hy _ _ _ _ Ed).
    destruct s as [|p [|f [|g [|q [|h [|i [|]]]]]]]; simpl in E; try discriminate.
    + now injection E as <- _ _.
    + destruct (isDash p && isDigit f && isDigit g); [|discriminate].
      now injection E as <- _ _.
    + destruct (isDash p && isDigit f && isDigit g && isDash q && isDigit h
                && isDigit i); [|discriminate].
      now injection E as <- _ _.
  - destruct s as [|p [|f [|g [|q [|h [|i [|]]]]]]]; simpl in E; discriminate.
Qed.

Lemma DayFromYear_bounds y :
  0 <= y <= 9999 -> -719528 <= DayFromYear y /\ DayFromYear y + DaysInYear y <= 2932897.
Proof.
  intros Hy. split.
  - change (-719528) with (DayFromYear 0). apply DayFromYear_mono. lia.
  - change 2932897 with (DayFromYear 10000). apply DayFromYear_next. lia.
Qed.

Section WithHost.
Context `{Host}.

(** Local midnight of a date-only string: a whole number of days, shifted by
    the zone offset. *)
Lemma setHours0_isoDate s y m d :
  isoDate s = Some (y, m, d) ->
  setHours0 (newDate s)
  = Some ((MakeDay y m d + LocalTZA / msPerDay) * msPerDay - LocalTZA).
Proof.
  intros E. unfold newDate. rewrite E. simpl.
  apply isoDate_inv in E. destruct E as [Hy Hv].
  pose proof (DayFromYear_bounds y Hy) as Hb.
  pose proof (dayOfYear_range y m d Hv) as Hr.
  pose proof LocalTZA_range as Hz. apply Z.ltb_lt in Hz.
  assert (Hday : -719528 <= MakeDay y m d <= 2932897) by (unfold MakeDay; lia).
  rewrite Z.div_add_l by (unfold msPerDay; lia).
  assert (Hq : -1 <= LocalTZA / msPerDay <= 0).
  { unfold msPerDay in *. Z.div_mod_to_equations. lia. }
  unfold TimeClip.
  destruct (Z.leb_spec (Z.abs ((MakeDay y m d + LocalTZA / msPerDay) * msPerDay
                               - LocalTZA)) 8640000000000000) as [_|Hbad];
    [reflexivity|].
  exfalso. unfold msPerDay in *. lia.
Qed.

Lemma isPast_before due currentDate d1 d2 :
  calendarDate due = Some d1 -> calendarDate currentDate = Some d2 ->
  before d1 d2 -> isPast due currentDate = true.
Proof.
  unfold calendarDate.
  destruct (dateRegex due); [|discriminate].
  destruct (dateRegex currentDate); [|discriminate].
  destruct d1 as [[y1 m1] dd1], d2 as [[y2 m2] dd2]. intros E1 E2 Hb.
  unfold isPast. rewrite (setHours0_isoDate _ _ _ _ E1), (setHours0_isoDate _ _ _ _ E2).
  apply isoDate_inv in E1, E2.
  pose proof (MakeDay_mono _ _ _ _ _ _ (proj2 E1) (proj2 E2) Hb).
  simpl. apply Z.ltb_lt. unfold msPerDay. lia.
Qed.


End WithHost.


End PastDate.

(** ** The generation handler *)

Module GenerateHandler.
Import GenerateTodo HandlerSpec.

Lemma trim_nil_length text : text = [] -> length (trim text) = 0%nat.
Proof. now intros ->. Qed.

Lemma validateInput_rejects text :
  text = [] \/ length (trim text) = 1%nat \/ (500 < length text)%nat ->
  isValid (validateInput text) = false.
Proof.
  intros Hc. unfold validateInput.
  destruct (streq text [] || (length (trim text) =? 0)%nat) eqn:E1; [reflexivity|].
  apply orb_false_iff in E1. destruct E1 as [E1 E2].
  destruct (length (trim text) <? 2)%nat eqn:E3; [reflexivity|].
  destruct (500 <? length text)%nat eqn:E4; [reflexivity|].
  exfalso. apply streq_false in E1. apply Nat.eqb_neq in E2.
  apply Nat.ltb_ge in E3, E4. destruct Hc as [Hc|[Hc|Hc]]; [easy | lia | lia].
Qed.

Lemma prop_string_object body k s :
  prop body k = VStr s -> exists fields, body = VObj fields.
Proof. destruct body; try discriminate. eauto. Qed.

Section WithHost.
Context `{Host}.

(** C7. A request whose [text] is the empty string, has a single code unit
    once trimmed (such as the string a), or is longer than 500 code units is
    answered with status 400, and [generateObject] is not called. *)
Theorem invalid_text_is_rejected env generateObject body text :
  prop body "text" = VStr text ->
  text = [] \/ length (trim text) = 1%nat \/ (500 < length text)%nat ->
  status (fst (POST env generateObject (Some body))) = 400
  /\ snd (POST env generateObject (Some body)) = [].
Proof.
  intros Hp Hc. destruct (prop_string_object _ _ _ Hp) as [fields ->].
  unfold POST. rewrite Hp, (validateInput_rejects text Hc). now split.
Qed.

Lemma classifyLastError_status e :
  status (classifyLastError e) = 429 \/ status (classifyLastError e) = 500.
Proof.
  unfold classifyLastError.
  repeat match goal with
         | |- context [if ?b then _ else _] => destruct b
         end; simpl; auto.
Qed.

(** C2 (as amended). For a valid text and a configured key the handler calls
    the first identifier; if that call returns, no other identifier is tried;
    if it fails, with whatever error, the second identifier is called. Only
    when the second call fails too is an error surfaced: the last one,
    classified to status 429 or 500. *)
Theorem fallback_after_any_failure env generateObject body text :
  prop body "text" = VStr text ->
  isValid (validateInput text) = true ->
  apiKey env = true ->
  let prompt := makePrompt (preprocessInput text) (clock env 0) in
  let currentDate := toISODate (clock env 0) in
  let result := POST env generateObject (Some body) in
  match generateObject (prompt (js "gemini-2.5-flash")) with
  | Returns o =>
      snd result = [js "gemini-2.5-flash"]
      /\ fst result = Build_Response 200 (DataBody (postprocessResult o currentDate))
  | Throws _ =>
      snd result = [js "gemini-2.5-flash"; js "gemini-1.5-flash"]
      /\ match generateObject (prompt (js "gemini-1.5-flash")) with
         | Returns o =>
             fst result
             = Build_Response 200 (DataBody (postprocessResult o currentDate))
         | Throws e =>
             fst result = classifyLastError (Some e)
             /\ (status (fst result) = 429 \/ status (fst result) = 500)
         end
  end.
Proof.
  intros Hp Hv Hk prompt currentDate result. subst result.
  destruct (prop_string_object _ _ _ Hp) as [fields ->].
  unfold POST. rewrite Hp, Hv, Hk. cbn [negb]. cbv zeta.
  fold prompt. unfold modelNames, tryModels.
  destruct (generateObject (prompt (js "gemini-2.5-flash"))) as [o|e1];
    [now split|].
  destruct (generateObject (prompt (js "gemini-1.5-flash"))) as [o|e2];
    [now split|].
  cbn [object lastError called fst snd app].
  repeat split. apply classifyLastError_status.
Qed.

End WithHost.

Lemma invalid_text_examples :
  (status (fst (POST (H := refHost) exampleEnv (failingOn [] "" ∅) (textBody ""))) = 400
   /\ snd (POST (H := refHost) exampleEnv (failingOn [] "" ∅) (textBody "")) = [])
  /\ (status (fst (POST (H := refHost) exampleEnv (failingOn [] "" ∅) (textBody "a"))) = 400
      /\ snd (POST (H := refHost) exampleEnv (failingOn [] "" ∅) (textBody "a")) = [])
  /\ (status (fst (POST (H := refHost) exampleEnv (failingOn [] "" ∅)
                     (Some (VObj [("text", VStr (repeat 120%N 501))])))) = 400
      /\ snd (POST (H := refHost) exampleEnv (failingOn [] "" ∅)
                (Some (VObj [("text", VStr (repeat 120%N 501))]))) = []).
Proof.
  repeat apply conj.
  1,2: apply (invalid_text_is_rejected (H := refHost) exampleEnv _ _ (js ""));
    [reflexivity | now left].
  1,2: apply (invalid_text_is_rejected (H := refHost) exampleEnv _ _ (js "a"));
    [reflexivity | right; left; reflexivity].
  1,2: apply (invalid_text_is_rejected (H := refHost) exampleEnv _ _ (repeat 120%N 501));
    [reflexivity | right; right; rewrite repeat_length; lia].
Defined.

(** C2, the claim as stated fails: the first identifier fails with a quota
    error, which is no model-not-found error, and the handler still calls the
    second identifier and answers 200 with its draft. *)
Lemma fallback_after_quota_error :
  let generateObject := failingOn [js "gemini-2.5-flash"] "Quota exceeded" ∅ in
  let result := POST (H := refHost) exampleEnv generateObject (textBody "buy milk") in
  snd result = [js "gemini-2.5-flash"; js "gemini-1.5-flash"]
  /\ status (fst result) = 200
  /\ status (classifyLastError (H := refHost)
               (Some {| message := Some (js "Quota exceeded") |})) = 429.
Proof. repeat split; vm_compute; reflexivity. Qed.

Lemma fallback_after_any_failure_example :
  let generateObject := failingOn modelNames "fetch failed" ∅ in
  let result := POST (H := refHost) exampleEnv generateObject (textBody "buy milk") in
  snd result = modelNames /\ status (fst result) = 500.
Proof.
  cbv zeta.
  pose proof (fallback_after_any_failure (H := refHost) exampleEnv
                (failingOn modelNames "fetch failed" ∅) (VObj [("text", VStr (js "buy milk"))])
                (js "buy milk") eq_refl eq_refl eq_refl) as Hf.
  cbv zeta in Hf.
  change (failingOn modelNames "fetch failed" ∅
            (makePrompt (preprocessInput (js "buy milk")) (clock exampleEnv 0)
               (js "gemini-2.5-flash")))
    with (@Throws obj {| message := Some (js "fetch failed") |}) in Hf.
  change (failingOn modelNames "fetch failed" ∅
            (makePrompt (preprocessInput (js "buy milk")) (clock exampleEnv 0)
               (js "gemini-1.5-flash")))
    with (@Throws obj {| message := Some (js "fetch failed") |}) in Hf.
  destruct Hf as [Hcalls [Hresp _]]. split; [exact Hcalls|].
  unfold textBody. rewrite Hresp. reflexivity.
Defined.

End GenerateHandler.

(** ** The statistics of the analysis handler *)

Module AnalyzeFacts.
Import AnalyzeTodos HandlerSpec AnalyzeSpec.

Lemma numGe_mono x a b : a <= b -> numGe x b = true -> numGe x a = true.
Proof.
  intros Hab. destruct x as [| |q|]; simpl; try easy.
  rewrite !Qle_bool_iff. intros Hq.
  apply Qle_trans with (inject_Z b); [|exact Hq].
  now rewrite <- Zle_Qle.
Qed.

Lemma numLt_mono x a b : a <= b -> numLt x a = true -> numLt x b = true.
Proof.
  intros Hab. destruct x as [| |q|]; simpl; try easy.
  rewrite !negb_true_iff. intros Hq.
  destruct (Qle_bool (inject_Z b) q) eqn:E; [|reflexivity].
  rewrite <- Hq. symmetry. apply Qle_bool_iff.
  apply Qle_bool_iff in E. apply Qle_trans with (inject_Z b); [|exact E].
  now rewrite <- Zle_Qle.
Qed.

Lemma numLt_numGe x k : numLt x k = true -> numGe x k = false.
Proof. destruct x; simpl; try easy. now rewrite negb_true_iff. Qed.

Lemma numGe_numLt x k : numGe x k = true -> numLt x k = false.
Proof. destruct x; simpl; try easy. now intros ->. Qed.

(** A slot is found exactly for the hours from 9 on. *)
Lemma slotOfHours_defined h :
  numGe h 9 = true -> exists slot, slotOfHours h = Some slot.
Proof.
  intros H9. unfold slotOfHours. rewrite H9.
  destruct (numLt h 12) eqn:L12; [simpl; eauto|].
  destruct (numGe h 12) eqn:G12.
  2:{ destruct h; simpl in *; try discriminate.
      rewrite G12 in L12. discriminate. }
  destruct (numLt h 18) eqn:L18; [simpl; eauto|].
  destruct (numGe h 18) eqn:G18.
  2:{ destruct h; simpl in *; try discriminate.
      rewrite G18 in L18. discriminate. }
  destruct (numLt h 21) eqn:L21; [simpl; eauto|].
  destruct (numGe h 21) eqn:G21; [simpl; eauto|].
  destruct h; simpl in *; try discriminate.
  rewrite G21 in L21. discriminate.
Qed.

Lemma slotOfHours_none h : numGe h 9 = false -> slotOfHours h = None.
Proof.
  intros H9. unfold slotOfHours. rewrite H9. simpl.
  assert (Hk : forall k, 9 <= k -> numGe h k = false).
  { intros k Hk. destruct (numGe h k) eqn:E; [|reflexivity].
    rewrite <- H9. symmetry. now apply (numGe_mono h 9 k). }
  now rewrite !Hk by lia.
Qed.

Lemma sumTotals_bump slot isDone tbl :
  slotTable tbl ->
  slotTable (bumpAt slot isDone tbl)
  /\ sumTotals (bumpAt slot isDone tbl) = S (sumTotals tbl).
Proof.
  intros (a & b & c & d & ->).
  destruct slot; (split; [unfold slotTable; simpl; eauto 10|]);
    simpl; lia.
Qed.

Section WithHost.
Context `{Host}.

Lemma addTimeSlot_sum tbl todo :
  slotTable tbl ->
  slotTable (addTimeSlot tbl todo)
  /\ sumTotals (addTimeSlot tbl todo)
     = ((if hourAtLeast9 todo then 1 else 0) + sumTotals tbl)%nat.
Proof.
  intros Ht. unfold addTimeSlot, hourAtLeast9, dueHour.
  destruct (present (due_time todo)) as [dueTime|]; simpl; [|now split].
  destruct (numGe (hoursOf dueTime) 9) eqn:E.
  - destruct (slotOfHours_defined _ E) as [slot ->].
    now apply sumTotals_bump.
  - rewrite (slotOfHours_none _ E). now split.
Qed.

Lemma timeSlots_sum todos tbl :
  slotTable tbl ->
  sumTotals (fold_left addTimeSlot todos tbl)
  = (count hourAtLeast9 todos + sumTotals tbl)%nat.
Proof.
  revert tbl. induction todos as [|t rest IH]; intros tbl Ht; [reflexivity|].
  destruct (addTimeSlot_sum tbl t Ht) as [Ht' Es].
  simpl fold_left. rewrite (IH _ Ht'), Es. unfold count. simpl.
  destruct (hourAtLeast9 t); simpl; lia.
Qed.

Lemma aggregate_timeSlots env todos :
  timeSlots (fst (aggregate env todos)) = fold_left addTimeSlot todos timeSlots0.
Proof.
  unfold aggregate.
  destruct (countClocked (isOverdue env) todos 0) as [o k].
  now destruct (countClocked (isUpcoming env) todos k).
Qed.

(** C10. A task whose [due_time] has an hour from 0 to 8 changes no time
    slot; hence the four slot totals add up to the number of tasks whose
    [due_time] has an hour of at least 9, which a task due at 08:30 shows to
    differ from the number of tasks that have a [due_time]. *)
Theorem early_hours_fall_in_no_slot :
  (forall todo slots, hourFrom0To8 todo = true -> addTimeSlot slots todo = slots)
  /\ (forall env todos,
        sumTotals (timeSlots (fst (aggregate env todos))) = count hourAtLeast9 todos)
  /\ (forall env,
        sumTotals (timeSlots (fst (aggregate env [taskDueAt "08:30"]))) = 0%nat
        /\ count hasDueTime [taskDueAt "08:30"] = 1%nat).
Proof.
  split; [|split].
  - intros todo slots. unfold hourFrom0To8, addTimeSlot, dueHour.
    destruct (present (due_time todo)) as [dueTime|]; simpl; [|discriminate].
    rewrite andb_true_iff. intros [_ Hlt].
    now rewrite (slotOfHours_none _ (numLt_numGe _ _ Hlt)).
  - intros env todos. rewrite aggregate_timeSlots, timeSlots_sum.
    + simpl. lia.
    + unfold slotTable, timeSlots0. eauto 10.
  - intros env. rewrite aggregate_timeSlots. split; reflexivity.
Qed.

End WithHost.

Lemma early_hours_example :
  addTimeSlot (H := refHost) timeSlots0 (taskDueAt "08:30") = timeSlots0.
Proof.
  apply (proj1 (early_hours_fall_in_no_slot (H := refHost))). reflexivity.
Defined.

(** *** Completion rates *)

Lemma guardedRate_zero c : guardedRate c 0 = Zero.
Proof. reflexivity. Qed.

Lemma guardedRate_safe c t : dividesByZero (guardedRate c t) = false.
Proof.
  unfold guardedRate. destruct (0 <? t)%nat eqn:E; [|reflexivity].
  simpl. apply Nat.eqb_neq. apply Nat.ltb_lt in E. lia.
Qed.

Lemma plainRate_safe {K} (e : K * Count) :
  busy e = true -> dividesByZero (plainRate (snd e)) = false.
Proof.
  unfold busy. intros E. simpl. apply Nat.eqb_neq. apply Nat.ltb_lt in E. lia.
Qed.

Lemma insertBy_In {A} (cmp : A -> A -> comparison) x y l :
  In x (insertBy cmp y l) -> x = y \/ In x l.
Proof.
  induction l as [|z r IH]; simpl; [intuition congruence|].
  destruct (cmp y z); simpl; intuition congruence.
Qed.

(** Sorting neither adds nor invents an element. *)
Lemma sortBy_In {A} (cmp : A -> A -> comparison) x l :
  In x (sortBy cmp l) -> In x l.
Proof.
  unfold sortBy. induction l as [|y r IH]; simpl; [tauto|].
  intros Hi. apply insertBy_In in Hi. intuition congruence.
Qed.

Lemma head_In {A} (l : list A) x : head l = Some x -> In x l.
Proof. destruct l; [discriminate|]. intros [= ->]. now left. Qed.

Lemma best_busy {K} (cmp : K * Count -> K * Count -> comparison) tbl e :
  head (sortBy cmp (List.filter busy tbl)) = Some e -> busy e = true.
Proof.
  intros Hh. apply head_In, sortBy_In, filter_In in Hh. tauto.
Qed.

Lemma addCategory_counted m todo : counted m -> counted (addCategory m todo).
Proof.
  intros Hm. unfold addCategory.
  destruct (existsb _ _); [exact Hm|].
  intros k c. rewrite lookup_alter_Some.
  intros [(_ & x & _ & ->)|[Hne Hk]]; [simpl; lia|].
  destruct (m !! categoryOf todo); [now apply (Hm k)|].
  rewrite lookup_insert_ne in Hk by exact Hne. now apply (Hm k).
Qed.

Lemma categoryStats_counted todos m :
  counted m -> counted (fold_left addCategory todos m).
Proof.
  revert m. induction todos as [|t rest IH]; intros m Hm; [exact Hm|].
  simpl. apply IH, addCategory_counted, Hm.
Qed.

Section Rates.
Context `{Host}.

(** The statistics of a run, with the two clocked counts named. *)
Lemma aggregate_fields env todos :
  let st := fst (aggregate env todos) in
  totalCount st = length todos
  /\ completionRate st = guardedRate (completedCount st) (totalCount st)
  /\ highPriorityRate st = guardedRate (highPriorityCompleted st) (highPriorityTotal st)
  /\ mediumPriorityRate st
     = guardedRate (mediumPriorityCompleted st) (mediumPriorityTotal st)
  /\ lowPriorityRate st = guardedRate (lowPriorityCompleted st) (lowPriorityTotal st)
  /\ onTimeRate st = guardedRate (completedOnTime st) (withDueDate st)
  /\ categoryStats st = fold_left addCategory todos ∅
  /\ mostProductiveTimeSlot st
     = head (sortBy byRate (List.filter busy (timeSlots st)))
  /\ mostProductiveDay st
     = head (sortBy byRate (List.filter busy (dayOfWeekStats st))).
Proof.
  unfold aggregate.
  destruct (countClocked (isOverdue env) todos 0) as [o k].
  destruct (countClocked (isUpcoming env) todos k) as [u k'].
  cbn. repeat split.
Qed.

Lemma buildPrompt_fields env todos period :
  let p := buildPrompt env todos period in
  let st := fst (aggregate env todos) in
  stats p = st
  /\ slotLines p
     = List.map (withRate (fun c => guardedRate (done c) (total c))) (timeSlots st)
  /\ productiveSlotRate p = plainRate ∘ snd <$> mostProductiveTimeSlot st
  /\ dayLines p = List.map (withRate plainRate) (List.filter busy (dayOfWeekStats st))
  /\ productiveDayRate p = plainRate ∘ snd <$> mostProductiveDay st
  /\ categoryLines p = List.map (withRate plainRate) (map_to_list (categoryStats st)).
Proof.
  unfold buildPrompt. destruct (aggregate env todos) as [st k]. cbn. repeat split.
Qed.

(** C8. In every run of the handler the overall, per-priority and on-time
    rates and the rate of each time slot are the string 0 when their
    denominator is 0; a weekday line is written only for a weekday with
    tasks and a category line only for a category that counted a task, so
    their rates have no zero denominator to report; and no quotient the
    handler forms, the operands of the two sorts by rate included, has a
    zero denominator. The handler is a total function: nothing here fails. *)
Theorem rates_guard_zero_denominator env todos period :
  let p := buildPrompt env todos period in
  let st := stats p in
  (totalCount st = 0%nat -> completionRate st = Zero)
  /\ (highPriorityTotal st = 0%nat -> highPriorityRate st = Zero)
  /\ (mediumPriorityTotal st = 0%nat -> mediumPriorityRate st = Zero)
  /\ (lowPriorityTotal st = 0%nat -> lowPriorityRate st = Zero)
  /\ (withDueDate st = 0%nat -> onTimeRate st = Zero)
  /\ (forall slot c r, In (slot, c, r) (slotLines p) -> total c = 0%nat -> r = Zero)
  /\ (forall day c r, In (day, c, r) (dayLines p) -> total c <> 0%nat)
  /\ (forall cat c r, In (cat, c, r) (categoryLines p) -> total c <> 0%nat)
  /\ Forall (fun r => dividesByZero r = false) (rateComputations p).
Proof.
  intros p st.
  destruct (buildPrompt_fields env todos period) as (Es & El & Eps & Ed & Epd & Ec).
  fold p in Es, El, Eps, Ed, Epd, Ec.
  destruct (aggregate_fields env todos) as (_ & Er & Eh & Em & Elo & Eo & Ecat & Ebs & Ebd).
  rewrite <- Es in Er, Eh, Em, Elo, Eo, Ecat, Ebs, Ebd, El, Eps, Ed, Epd, Ec.
  fold st in Er, Eh, Em, Elo, Eo, Ecat, Ebs, Ebd, El, Eps, Ed, Epd, Ec.
  assert (Hcat : counted (categoryStats st)).
  { rewrite Ecat. apply categoryStats_counted. intros k c. now rewrite lookup_empty. }
  assert (Hdays : forall day c r, In (day, c, r) (dayLines p) ->
                  busy (day, c) = true /\ r = plainRate c).
  { intros day c r. rewrite Ed, in_map_iff. intros ([d' c'] & [= <- <- <-] & Hin).
    apply filter_In in Hin. tauto. }
  assert (Hcats : forall cat c r, In (cat, c, r) (categoryLines p) ->
                  busy (cat, c) = true /\ r = plainRate c).
  { intros cat c r. rewrite Ec, in_map_iff. intros ([k' c'] & [= <- <- <-] & Hin).
    apply list_elem_of_In, elem_of_map_to_list, Hcat in Hin.
    split; [|reflexivity]. now apply Nat.ltb_lt. }
  split; [intros E; now rewrite Er, E|].
  split; [intros E; now rewrite Eh, E|].
  split; [intros E; now rewrite Em, E|].
  split; [intros E; now rewrite Elo, E|].
  split; [intros E; now rewrite Eo, E|].
  split.
  { intros slot c r. rewrite El, in_map_iff.
    intros ([s' c'] & [= <- <- <-] & _) E. simpl. now rewrite E. }
  split.
  { intros day c r Hin E. apply Hdays in Hin. destruct Hin as [Hb _].
    unfold busy in Hb. simpl in Hb. rewrite E in Hb. discriminate. }
  split.
  { intros cat c r Hin E. apply Hcats in Hin. destruct Hin as [Hb _].
    unfold busy in Hb. simpl in Hb. rewrite E in Hb. discriminate. }
  unfold rateComputations. fold st.
  rewrite Er, Eh, Em, Elo, Eo.
  repeat (constructor; [apply guardedRate_safe|]).
  repeat (apply List.Forall_app; split).
  - apply List.Forall_forall. intros r. rewrite in_map_iff.
    intros ([[s c] r'] & <- & Hin). rewrite El in Hin. apply in_map_iff in Hin.
    destruct Hin as ([s' c'] & [= <- <- <-] & _). apply guardedRate_safe.
  - rewrite Eps, Ebs.
    destruct (head (sortBy byRate (List.filter busy (timeSlots st))))
      as [e|] eqn:Eh'; [|constructor].
    repeat constructor. apply (plainRate_safe e), (best_busy _ _ _ Eh').
  - apply List.Forall_forall. intros r. rewrite in_map_iff.
    intros ([[d c] r'] & <- & Hin). apply Hdays in Hin. destruct Hin as [Hb ->].
    apply (plainRate_safe (d, c) Hb).
  - rewrite Epd, Ebd.
    destruct (head (sortBy byRate (List.filter busy (dayOfWeekStats st))))
      as [e|] eqn:Eh'; [|constructor].
    repeat constructor. apply (plainRate_safe e), (best_busy _ _ _ Eh').
  - apply List.Forall_forall. intros r. rewrite in_map_iff.
    intros ([[k c] r'] & <- & Hin). apply Hcats in Hin. destruct Hin as [Hb ->].
    apply (plainRate_safe (k, c) Hb).
  - apply List.Forall_forall. intros r. rewrite in_map_iff.
    intros (e & <- & Hin). apply filter_In in Hin. apply (plainRate_safe e), Hin.
  - apply List.Forall_forall. intros r. rewrite in_map_iff.
    intros (e & <- & Hin). apply filter_In in Hin. apply (plainRate_safe e), Hin.
Qed.

End Rates.

Lemma rates_of_no_tasks :
  completionRate (stats (buildPrompt (H := refHost) exampleEnv [] (js "today"))) = Zero.
Proof.
  apply (proj1 (rates_guard_zero_denominator (H := refHost) exampleEnv [] (js "today"))).
  reflexivity.
Defined.

(** *** What the statistics depend on *)

Section Clock.
Context `{Host}.

Lemma countClocked_ext (p q : Task -> nat -> bool * nat) todos k :
  (forall t k, p t k = q t k) -> countClocked p todos k = countClocked q todos k.
Proof.
  intros Hpq. revert k. induction todos as [|t rest IH]; intros k; [reflexivity|].
  simpl. rewrite Hpq. destruct (q t k) as [b k']. now rewrite IH.
Qed.

Lemma isOverdue_ext env1 env2 t k :
  (forall k, clock env1 k = clock env2 k) -> isOverdue env1 t k = isOverdue env2 t k.
Proof. intros Hc. unfold isOverdue. now rewrite Hc. Qed.

Lemma isUpcoming_ext env1 env2 t k :
  (forall k, clock env1 k = clock env2 k) -> isUpcoming env1 t k = isUpcoming env2 t k.
Proof. intros Hc. unfold isUpcoming. now rewrite Hc. Qed.

(** C9 (as amended). Two runs of the aggregation over the same task list
    agree on every statistic except the overdue count and the count of tasks
    due within 24 hours, whatever their clocks (the period is no input of the
    aggregation); they agree on those two as well when [new Date()] gives the
    same readings in both. *)
Theorem aggregate_deterministic_up_to_clock env1 env2 todos :
  fst (aggregate env1 todos)
  = withDeadlines (overdue (fst (aggregate env1 todos)))
      (upcomingDeadlines (fst (aggregate env1 todos)))
      (fst (aggregate env2 todos))
  /\ ((forall k, clock env1 k = clock env2 k) ->
      aggregate env1 todos = aggregate env2 todos).
Proof.
  split.
  - unfold aggregate.
    destruct (countClocked (isOverdue env1) todos 0) as [o1 k1].
    destruct (countClocked (isUpcoming env1) todos k1) as [u1 k1'].
    destruct (countClocked (isOverdue env2) todos 0) as [o2 k2].
    destruct (countClocked (isUpcoming env2) todos k2) as [u2 k2'].
    reflexivity.
  - intros Hc. unfold aggregate.
    rewrite (countClocked_ext (isOverdue env1) (isOverdue env2))
      by (intros; now apply isOverdue_ext).
    destruct (countClocked (isOverdue env2) todos 0) as [o k].
    rewrite (countClocked_ext (isUpcoming env1) (isUpcoming env2))
      by (intros; now apply isUpcoming_ext).
    reflexivity.
Qed.

End Clock.

Lemma aggregate_same_clock :
  aggregate (H := refHost) (envAt true 1749524400000) [taskDueOn "2025-06-10"]
  = aggregate (H := refHost) (envAt false 1749524400000) [taskDueOn "2025-06-10"].
Proof.
  apply (proj2 (aggregate_deterministic_up_to_clock (H := refHost)
                  (envAt true 1749524400000) (envAt false 1749524400000)
                  [taskDueOn "2025-06-10"])).
  reflexivity.
Defined.

(** C9, the claim as stated fails: the same one-task list gives no overdue
    task in a run on 9 June 2025 and one overdue task in a run on 11 June. *)
Lemma overdue_depends_on_clock :
  overdue (fst (aggregate (H := refHost) (envAt true 1749427200000)
                  [taskDueOn "2025-06-10"])) = 0%nat
  /\ overdue (fst (aggregate (H := refHost) (envAt true 1749600000000)
                     [taskDueOn "2025-06-10"])) = 1%nat.
Proof. split; vm_compute; reflexivity. Qed.

(** *** The request handler and the empty list *)

Section Handler.
Context `{Host}.

Lemma classifyCaught_status e :
  status (classifyCaught e) = 429 \/ status (classifyCaught e) = 500.
Proof.
  unfold classifyCaught.
  repeat match goal with
         | |- context [if ?b then _ else _] => destruct b
         end; simpl; auto.
Qed.

(** C1 (as amended). A request with an empty [todos] array and a period of
    today or week passes the validation and is never answered with 400.
    Without a configured key the answer is 500 and the model is not called;
    with one, the model is called exactly once, on a prompt whose totals are
    0 and whose completion rate is the string 0, and the answer is 200 with
    the model's object, or 429 or 500 when the call fails. *)
Theorem empty_todos_reach_the_model env generateObject period p :
  periodOf period = Some p ->
  let result := POST env generateObject (Parsed (Some []) period) in
  let prompt := buildPrompt env [] p in
  status (fst result) <> 400
  /\ (if apiKey env
      then snd result = [prompt]
           /\ totalCount (stats prompt) = 0%nat
           /\ completionRate (stats prompt) = Zero
           /\ match generateObject prompt with
              | Returns object => fst result = Build_Response 200 (DataBody object)
              | Throws e =>
                  fst result = classifyCaught e
                  /\ (status (fst result) = 429 \/ status (fst result) = 500)
              end
      else fst result = respond 500 MissingApiKey /\ snd result = []).
Proof.
  intros Hp result prompt. subst result. unfold POST. rewrite Hp.
  destruct (apiKey env); cbn [negb]; [|now split].
  fold prompt. destruct (generateObject prompt) as [object|e] eqn:Eg.
  - cbn [fst snd status]. repeat split. discriminate.
  - cbn [fst snd]. pose proof (classifyCaught_status e) as Hs.
    repeat split; [|exact Hs]. destruct Hs as [Hs|Hs]; rewrite Hs; discriminate.
Qed.

End Handler.

Lemma empty_todos_example :
  snd (POST (H := refHost) exampleEnv (fun _ => Returns emptyAnalysis)
         (Parsed (Some []) (VStr (js "week"))))
  = [buildPrompt (H := refHost) exampleEnv [] (js "week")].
Proof.
  pose proof (empty_todos_reach_the_model (H := refHost) exampleEnv
                (fun _ => Returns emptyAnalysis) (VStr (js "week")) (js "week") eq_refl)
    as [_ Hkey].
  cbv zeta in Hkey. change (apiKey exampleEnv) with true in Hkey. cbv iota in Hkey.
  exact (proj1 Hkey).
Defined.

(** C1, the claim as stated fails: for an empty [todos] array and the period
    today the handler calls the model once and answers 200. *)
Lemma empty_todos_are_analysed :
  let result :=
    POST (H := refHost) (envAt true 1749524400000) (fun _ => Returns emptyAnalysis)
      (Parsed (Some []) (VStr (js "today"))) in
  status (fst result) = 200 /\ length (snd result) = 1%nat.
Proof. split; reflexivity. Qed.

End AnalyzeFacts.

(** ** The input pipeline of the generation handler *)

Module InputFacts.
Import GenerateTodo InputSpec.

Lemma lastOk_inv c r : lastOk (c :: r) -> r <> [] -> lastOk r.
Proof.
  unfold lastOk. simpl. intros E Hr.
  destruct (trimEnd r) as [|c' r'] eqn:Er.
  - destruct r; [easy|]. destruct (isWhiteSpace c); discriminate.
  - now injection E.
Qed.

Lemma lastOk_single c : lastOk [c] -> isWhiteSpace c = false.
Proof.
  unfold lastOk. simpl. now destruct (isWhiteSpace c).
Qed.

Lemma lastOk_cons c u : lastOk u -> u <> [] -> lastOk (c :: u).
Proof.
  unfold lastOk. intros E Hu. simpl. rewrite E. now destruct u.
Qed.

Lemma trimEnd_lastOk s : lastOk (trimEnd s).
Proof. apply trimEnd_idempotent. Qed.

Lemma trim_lastOk s : lastOk (trim s).
Proof. apply trimEnd_lastOk. Qed.

(** Collapsing keeps a string that ends in ink from vanishing. *)
Lemma collapse_nonempty b s :
  lastOk s -> s <> [] -> collapseWhiteSpace b s <> [].
Proof.
  revert b. induction s as [|c r IH]; intros b Hl Hs; [easy|].
  simpl. destruct (isWhiteSpace c) eqn:Ec; [|discriminate].
  assert (Hr : r <> []).
  { intros ->. apply lastOk_single in Hl. congruence. }
  specialize (IH true (lastOk_inv _ _ Hl Hr) Hr).
  destruct b; [exact IH | discriminate].
Qed.

Lemma collapse_lastOk b s : lastOk s -> lastOk (collapseWhiteSpace b s).
Proof.
  revert b. induction s as [|c r IH]; intros b Hl; [reflexivity|].
  destruct r as [|c' r'].
  - apply lastOk_single in Hl. simpl. rewrite Hl. unfold lastOk. simpl.
    now rewrite Hl.
  - assert (Hr : lastOk (c' :: r')) by (apply (lastOk_inv c); easy).
    assert (Hne : forall b', collapseWhiteSpace b' (c' :: r') <> [])
      by (intros b'; apply collapse_nonempty; easy).
    change (collapseWhiteSpace b (c :: c' :: r'))
      with (if isWhiteSpace c
            then (if b then collapseWhiteSpace true (c' :: r')
                  else 32%N :: collapseWhiteSpace true (c' :: r'))
            else c :: collapseWhiteSpace false (c' :: r')).
    destruct (isWhiteSpace c); [destruct b|]; auto using lastOk_cons.
Qed.

Lemma collapse_headOk s : headOk s -> headOk (collapseWhiteSpace false s).
Proof.
  destruct s as [|c r]; simpl; [easy|]. intros Hc. rewrite Hc. exact Hc.
Qed.

Lemma collapse_plainSpaces b s : plainSpaces (collapseWhiteSpace b s) = true.
Proof.
  revert b. induction s as [|c r IH]; intros b; [reflexivity|].
  simpl. destruct (isWhiteSpace c) eqn:Ec.
  - destruct b; [apply IH|]. simpl. apply IH.
  - simpl. unfold notWhiteSpace at 1. rewrite Ec. simpl. apply IH.
Qed.

(** After white space the collapsed string goes on with ink. *)
Lemma collapse_true_headOk s : headOk (collapseWhiteSpace true s).
Proof.
  induction s as [|c r IH]; simpl; [exact I|].
  destruct (isWhiteSpace c) eqn:Ec; [exact IH | exact Ec].
Qed.

Lemma noSpaceRuns_cons c u :
  noSpaceRuns u = true -> (isWhiteSpace c = true -> headOk u) ->
  noSpaceRuns (c :: u) = true.
Proof.
  intros Hu Hc. simpl. rewrite Hu, andb_true_r.
  destruct u as [|d u']; [reflexivity|].
  destruct (isWhiteSpace c); [|reflexivity].
  simpl in Hc. now rewrite Hc.
Qed.

Lemma collapse_noSpaceRuns b s : noSpaceRuns (collapseWhiteSpace b s) = true.
Proof.
  revert b. induction s as [|c r IH]; intros b; [reflexivity|].
  simpl. destruct (isWhiteSpace c) eqn:Ec.
  - destruct b; [apply IH|].
    apply noSpaceRuns_cons; [apply IH|]. intros _. apply collapse_true_headOk.
  - apply noSpaceRuns_cons; [apply IH|]. congruence.
Qed.

Lemma collapse_length b s : (length (collapseWhiteSpace b s) <= length s)%nat.
Proof.
  revert b. induction s as [|c r IH]; intros b; simpl; [lia|].
  destruct (isWhiteSpace c); [destruct b|]; simpl;
    [pose proof (IH true) | pose proof (IH true) | pose proof (IH false)]; lia.
Qed.

Lemma trimStart_length s : (length (trimStart s) <= length s)%nat.
Proof.
  induction s as [|c r IH]; simpl; [lia|].
  destruct (isWhiteSpace c); simpl; lia.
Qed.

Lemma trimEnd_length s : (length (trimEnd s) <= length s)%nat.
Proof.
  induction s as [|c r IH]; simpl; [lia|].
  destruct (trimEnd r); [destruct (isWhiteSpace c)|]; simpl in *; lia.
Qed.

Lemma trim_length s : (length (trim s) <= length s)%nat.
Proof.
  unfold trim. pose proof (trimEnd_length (trimStart s)).
  pose proof (trimStart_length s). lia.
Qed.

Lemma inkOf_collapse b s : inkOf (collapseWhiteSpace b s) = inkOf s.
Proof.
  unfold inkOf. revert b. induction s as [|c r IH]; intros b; [reflexivity|].
  simpl. unfold notWhiteSpace at 2. destruct (isWhiteSpace c) eqn:Ec; simpl.
  - destruct b; [apply IH|]. simpl. apply IH.
  - unfold notWhiteSpace at 1. rewrite Ec. simpl. now rewrite IH.
Qed.

Lemma inkOf_trimStart s : inkOf (trimStart s) = inkOf s.
Proof.
  unfold inkOf. induction s as [|c r IH]; [reflexivity|].
  simpl. unfold notWhiteSpace at 2. destruct (isWhiteSpace c) eqn:Ec; simpl.
  - exact IH.
  - unfold notWhiteSpace. now rewrite Ec.
Qed.

Lemma inkOf_trimEnd s : inkOf (trimEnd s) = inkOf s.
Proof.
  unfold inkOf. induction s as [|c r IH]; [reflexivity|].
  simpl. destruct (trimEnd r) as [|c' r'] eqn:Er.
  - simpl in IH. rewrite <- IH. unfold notWhiteSpace.
    destruct (isWhiteSpace c) eqn:Ec; simpl; [reflexivity|].
    now rewrite Ec.
  - simpl in *. now rewrite IH.
Qed.

Lemma inkOf_trim s : inkOf (trim s) = inkOf s.
Proof. unfold trim. now rewrite inkOf_trimEnd, inkOf_trimStart. Qed.

(** A normal form is left as it is. *)
Lemma collapse_fixed b s :
  plainSpaces s = true -> noSpaceRuns s = true -> (b = true -> headOk s) ->
  collapseWhiteSpace b s = s.
Proof.
  revert b. induction s as [|c r IH]; intros b Hp Hn Hb; [reflexivity|].
  simpl in Hp, Hn. apply andb_true_iff in Hp, Hn.
  destruct Hp as [Hc Hp], Hn as [Hcr Hn]. simpl.
  destruct (isWhiteSpace c) eqn:Ec.
  - destruct b; [specialize (Hb eq_refl); simpl in Hb; congruence|].
    unfold notWhiteSpace in Hc. rewrite Ec in Hc. simpl in Hc.
    apply N.eqb_eq in Hc. subst c. f_equal. apply IH; [exact Hp | exact Hn|].
    intros _. destruct r as [|d r']; [exact I|]. simpl.
    simpl in Hcr. now destruct (isWhiteSpace d).
  - f_equal. apply IH; [exact Hp | exact Hn | discriminate].
Qed.

(** A trimmed string of two or more code units has two of ink. *)
Lemma lastOk_ink s : lastOk s -> s <> [] -> (1 <= length (inkOf s))%nat.
Proof.
  induction s as [|c r IH]; intros Hl Hs; [easy|].
  destruct r as [|c' r'].
  - apply lastOk_single in Hl. unfold inkOf, notWhiteSpace. simpl.
    rewrite Hl. simpl. lia.
  - assert (Hr : lastOk (c' :: r')) by (apply (lastOk_inv c); easy).
    specialize (IH Hr ltac:(easy)). unfold inkOf in *.
    change (List.filter notWhiteSpace (c :: c' :: r'))
      with (if notWhiteSpace c then c :: List.filter notWhiteSpace (c' :: r')
            else List.filter notWhiteSpace (c' :: r')).
    destruct (notWhiteSpace c); simpl in *; lia.
Qed.

Lemma trimmed_ink s :
  headOk s -> lastOk s -> (2 <= length s)%nat -> (2 <= length (inkOf s))%nat.
Proof.
  destruct s as [|c r]; simpl; [lia|]. intros Hc Hl Hlen.
  assert (Hr : r <> []) by (destruct r; simpl in Hlen; [lia | easy]).
  pose proof (lastOk_ink r (lastOk_inv _ _ Hl Hr) Hr).
  unfold inkOf in *. simpl. unfold notWhiteSpace at 1. rewrite Hc. simpl. lia.
Qed.

Lemma inkOf_length s : (length (inkOf s) <= length s)%nat.
Proof. unfold inkOf. apply filter_length_le. Qed.

Lemma preprocessInput_trimmed text :
  trim (preprocessInput text) = preprocessInput text.
Proof.
  unfold preprocessInput, trim at 1. rewrite trimStart_fixed.
  - apply collapse_lastOk, trim_lastOk.
  - apply collapse_headOk, trim_headOk.
Qed.

Lemma preprocessInput_ink text : inkOf (preprocessInput text) = inkOf text.
Proof. unfold preprocessInput. now rewrite inkOf_collapse, inkOf_trim. Qed.

Lemma preprocessInput_length text :
  (length (preprocessInput text) <= length text)%nat.
Proof.
  unfold preprocessInput.
  pose proof (collapse_length false (trim text)).
  pose proof (trim_length text). lia.
Qed.

(** X1. Whatever the text, [preprocessInput] returns a string with no white
    space at either end, whose white space is single plain spaces, that keeps
    the code units that are not white space in their order and is no longer
    than the text. *)
Theorem preprocessInput_normal_form text :
  let processed := preprocessInput text in
  trim processed = processed
  /\ plainSpaces processed = true
  /\ noSpaceRuns processed = true
  /\ inkOf processed = inkOf text
  /\ (length processed <= length text)%nat.
Proof.
  intros processed. subst processed.
  split; [apply preprocessInput_trimmed|].
  split; [apply collapse_plainSpaces|].
  split; [apply collapse_noSpaceRuns|].
  split; [apply preprocessInput_ink | apply preprocessInput_length].
Qed.

(** X2. Processing a processed text changes nothing. *)
Theorem preprocessInput_idempotent text :
  preprocessInput (preprocessInput text) = preprocessInput text.
Proof.
  unfold preprocessInput at 1. rewrite preprocessInput_trimmed.
  apply collapse_fixed;
    [apply collapse_plainSpaces | apply collapse_noSpaceRuns | discriminate].
Qed.

(** X3. A text that [validateInput] accepts gives the model a processed text
    of 2 to 500 code units. *)
Theorem valid_text_bounds text :
  isValid (validateInput text) = true ->
  (2 <= length (preprocessInput text) <= 500)%nat.
Proof.
  unfold validateInput.
  destruct (streq text [] || (length (trim text) =? 0)%nat); [discriminate|].
  destruct (length (trim text) <? 2)%nat eqn:E2; [discriminate|].
  destruct (500 <? length text)%nat eqn:E3; [discriminate|].
  intros _. apply Nat.ltb_ge in E2, E3.
  pose proof (preprocessInput_ink text) as Hink.
  pose proof (preprocessInput_length text) as Hlen. split; [|lia].
  pose proof (inkOf_length (preprocessInput text)).
  pose proof (trimmed_ink (trim text) (trim_headOk _) (trim_lastOk _) E2) as Hi.
  rewrite inkOf_trim in Hi. rewrite Hink in *. lia.
Qed.

Lemma valid_text_bounds_example :
  (2 <= length (preprocessInput (js "  buy   milk ")) <= 500)%nat.
Proof. apply valid_text_bounds. reflexivity. Defined.

End InputFacts.

(** ** The response normalizer: what it keeps *)

Module NormalizerKeeps.
Import GenerateTodo NormalizerSpec NormalizerFacts Normalizer PastDate DraftSpec.

Lemma field_lookup (d : obj) k v : d !! k = Some v -> field d k = v.
Proof. unfold field. now intros ->. Qed.

Lemma lookup_field (d : obj) k v : field d k = v -> v <> VUndefined -> d !! k = Some v.
Proof.
  unfold field. destruct (d !! k); simpl; intros E Hv; congruence.
Qed.

Lemma before_trichotomy a b : before a b \/ a = b \/ before b a.
Proof.
  destruct a as [[y1 m1] d1], b as [[y2 m2] d2]. unfold before.
  destruct (Z.lt_trichotomy y1 y2) as [?|[->|?]]; [tauto| |tauto].
  destruct (Z.lt_trichotomy m1 m2) as [?|[->|?]]; [tauto| |tauto].
  destruct (Z.lt_trichotomy d1 d2) as [?|[->|?]]; tauto.
Qed.

Section WithHost.
Context `{Host}.

(** X4. [postprocessResult] writes the six properties of a draft and leaves
    every other property of the model's object as it found it. *)
Theorem postprocessResult_frame data currentDate k :
  ~ In k draftKeys ->
  postprocessResult data currentDate !! k = data !! k.
Proof.
  intros Hk. rewrite postprocessResult_spec.
  rewrite !lookup_insert_ne; [reflexivity|..]; intros <-; apply Hk;
    unfold draftKeys; simpl; tauto.
Qed.

Lemma dueDateOf_kept currentDate v :
  dueDateOf currentDate v = v <->
  v = VNull \/ exists s, v = VStr s /\ dateRegex s = true
                         /\ isPast s currentDate = false.
Proof.
  split.
  - intros Hv. destruct v as [| | | |s| |]; try discriminate Hv; [now left|].
    destruct s as [|c r]; [discriminate Hv|]. right. exists (c :: r).
    assert (E : dueDateOf currentDate (VStr (c :: r))
                = if isPast (c :: r) currentDate then VStr currentDate
                  else if dateRegex (c :: r) then VStr (c :: r) else VNull)
      by reflexivity.
    rewrite E in Hv. clear E.
    destruct (isPast (c :: r) currentDate) eqn:Ep.
    + injection Hv as E. rewrite E in Ep. unfold isPast in Ep.
      rewrite tvLt_irrefl in Ep. discriminate.
    + destruct (dateRegex (c :: r)); [auto | discriminate].
  - intros [->|(s & -> & Hr & Hp)]; [reflexivity|].
    unfold dueDateOf. rewrite Hp, Hr. destruct s; [discriminate | reflexivity].
Qed.

(** X5. The drafts that [postprocessResult] returns unchanged are exactly
    the conforming ones. *)
Theorem postprocessResult_fixed_points data currentDate :
  postprocessResult data currentDate = data <-> conforming currentDate data.
Proof.
  split.
  - intros Hfix.
    assert (Hf : forall k, field (postprocessResult data currentDate) k = field data k)
      by (intros k; now rewrite Hfix).
    rewrite postprocessResult_spec in Hf.
    pose proof (Hf "title") as Et. pose proof (Hf "description") as Ed.
    pose proof (Hf "due_date") as Edd. pose proof (Hf "due_time") as Edt.
    pose proof (Hf "priority") as Ep. pose proof (Hf "category") as Ec.
    repeat (rewrite field_insert_ne in Et by discriminate); rewrite field_insert in Et.
    repeat (rewrite field_insert_ne in Ed by discriminate); rewrite field_insert in Ed.
    repeat (rewrite field_insert_ne in Edd by discriminate); rewrite field_insert in Edd.
    repeat (rewrite field_insert_ne in Edt by discriminate); rewrite field_insert in Edt.
    repeat (rewrite field_insert_ne in Ep by discriminate); rewrite field_insert in Ep.
    repeat (rewrite field_insert_ne in Ec by discriminate); rewrite field_insert in Ec.
    clear Hf Hfix. unfold conforming. repeat split.
    + exists (titleOf (field data "title")). split; [|apply titleOf_good].
      apply lookup_field; [now symmetry | discriminate].
    + exists (field data "description"). split.
      * apply lookup_field; [reflexivity|]. rewrite <- Ed. apply textOf_defined.
      * rewrite <- Ed. apply textOf_clean.
    + apply dueDateOf_kept in Edd. destruct Edd as [E|(s & E & Hr & Hp)].
      * left. apply lookup_field; [exact E | discriminate].
      * right. exists s. split; [|easy]. apply lookup_field; [exact E | discriminate].
    + unfold dueTimeOf in Edt.
      destruct (field data "due_time") as [| | | |s| |] eqn:E; try discriminate.
      * left. apply lookup_field; [exact E | discriminate].
      * destruct (timeRegex s) eqn:Er; [|discriminate].
        right. exists s. split; [|exact Er].
        apply lookup_field; [exact E | discriminate].
    + exists (field data "priority"). unfold priorityOf in Ep.
      destruct (isPriority (field data "priority")) eqn:Ei.
      * split; [|reflexivity]. apply lookup_field; [reflexivity|].
        intros E. now rewrite E in Ei.
      * rewrite <- Ep in Ei. discriminate.
    + exists (field data "category"). split.
      * apply lookup_field; [reflexivity|]. rewrite <- Ec. apply textOf_defined.
      * rewrite <- Ec. apply textOf_clean.
  - intros ((t & Et & Ht) & (vd & Ed & Hd) & Hdd & Hdt & (vp & Ep & Hp)
            & (vc & Ec & Hc)).
    rewrite postprocessResult_spec.
    apply field_lookup in Et, Ed, Ep, Ec.
    rewrite (insert_field_id data "title");
      [|rewrite Et; f_equal; symmetry; now apply titleOf_fixed | discriminate].
    rewrite (insert_field_id data "description");
      [|rewrite Ed; symmetry; now apply textOf_fixed | apply textOf_defined].
    rewrite (insert_field_id data "due_date");
      [|symmetry; apply dueDateOf_kept | apply dueDateOf_defined].
    2:{ destruct Hdd as [E|(s & E & Hs)]; apply field_lookup in E; eauto. }
    rewrite (insert_field_id data "due_time");
      [| | apply dueTimeOf_defined].
    2:{ destruct Hdt as [E|(s & E & Hs)]; apply field_lookup in E; rewrite E;
          [reflexivity|]. unfold dueTimeOf. now rewrite Hs. }
    rewrite (insert_field_id data "priority");
      [|unfold priorityOf; rewrite Ep; now rewrite Hp | apply priorityOf_defined].
    apply insert_field_id;
      [rewrite Ec; symmetry; now apply textOf_fixed | apply textOf_defined].
Qed.

Lemma MakeDay_le y1 m1 d1 y2 m2 d2 :
  validYMD y1 m1 d1 = true -> validYMD y2 m2 d2 = true ->
  ~ before (y1, m1, d1) (y2, m2, d2) ->
  MakeDay y2 m2 d2 <= MakeDay y1 m1 d1.
Proof.
  intros H1 H2 Hnb.
  destruct (before_trichotomy (y1, m1, d1) (y2, m2, d2)) as [Hb|[[= -> -> ->]|Hb]];
    [easy | lia |].
  pose proof (MakeDay_mono _ _ _ _ _ _ H2 H1 Hb). lia.
Qed.

Lemma isPast_not_before due currentDate d1 d2 :
  calendarDate due = Some d1 -> calendarDate currentDate = Some d2 ->
  ~ before d1 d2 -> isPast due currentDate = false.
Proof.
  unfold calendarDate.
  destruct (dateRegex due); [|discriminate].
  destruct (dateRegex currentDate); [|discriminate].
  destruct d1 as [[y1 m1] dd1], d2 as [[y2 m2] dd2]. intros E1 E2 Hb.
  unfold isPast. rewrite (setHours0_isoDate _ _ _ _ E1), (setHours0_isoDate _ _ _ _ E2).
  apply isoDate_inv in E1, E2.
  pose proof (MakeDay_le _ _ _ _ _ _ (proj2 E1) (proj2 E2) Hb).
  simpl. apply Z.ltb_ge. unfold msPerDay. lia.
Qed.

(** X6. A [due_date] that names a calendar day on or after the current date
    passes through unchanged. *)
Theorem due_date_not_past_is_kept data currentDate due d1 d2 :
  field data "due_date" = VStr due ->
  calendarDate due = Some d1 ->
  calendarDate currentDate = Some d2 ->
  ~ before d1 d2 ->
  field (postprocessResult data currentDate) "due_date" = VStr due.
Proof.
  intros E E1 E2 Hb. rewrite postprocessResult_spec.
  repeat rewrite ?field_insert, ?field_insert_ne by discriminate.
  rewrite E. apply dueDateOf_kept. right. exists due. split; [reflexivity|].
  split; [|now apply (isPast_not_before _ _ d1 d2)].
  unfold calendarDate in E1. now destruct (dateRegex due).
Qed.

End WithHost.

Lemma postprocessResult_frame_example :
  postprocessResult (H := refHost) (<["confidence" := VBool true]> ∅) (js "2025-06-10")
    !! "confidence" = Some (VBool true).
Proof.
  rewrite (postprocessResult_frame (H := refHost)); [reflexivity|].
  unfold draftKeys. simpl. intuition discriminate.
Defined.

Lemma due_date_not_past_example :
  field (postprocessResult (H := refHost) (exampleDraft "2025-06-10") (js "2025-06-10"))
    "due_date" = VStr (js "2025-06-10").
Proof.
  apply (due_date_not_past_is_kept (H := refHost) _ _ _ (2025, 6, 10) (2025, 6, 10));
    [reflexivity | reflexivity | reflexivity | simpl; lia].
Defined.

End NormalizerKeeps.

(** ** The generation handler: statuses, calls and the returned draft *)

Module GenerateResponses.
Import GenerateTodo NormalizerSpec NormalizerFacts Normalizer DraftSpec.

Lemma yearOfEra_range doe : 0 <= doe <= 146096 -> 0 <= yearOfEra doe <= 399.
Proof.
  intros Hd. unfold yearOfEra. destruct (Z.eq_dec doe 146096) as [->|Hne].
  - vm_compute. split; discriminate.
  - assert (doe / 146096 = 0) by (apply Z.div_small; lia).
    assert (0 <= doe / 36524 <= 3) by (Z.div_mod_to_equations; lia).
    Z.div_mod_to_equations. lia.
Qed.

(** The last year of an era starts on its day 145731. *)
Lemma yearOfEra_last doe :
  0 <= doe <= 146096 -> yearOfEra doe = 399 -> 145731 <= doe.
Proof.
  intros Hd. unfold yearOfEra. intros E.
  assert (0 <= doe / 36524 <= 4) by (Z.div_mod_to_equations; lia).
  assert (0 <= doe / 146096) by (Z.div_mod_to_equations; lia).
  assert (H1 : 145631 <= doe) by (Z.div_mod_to_equations; lia).
  assert (99 <= doe / 1460) by (Z.div_mod_to_equations; lia).
  destruct (Z.eq_dec doe 146096) as [->|Hne]; [lia|].
  assert (doe / 36524 <= 3) by (Z.div_mod_to_equations; lia).
  Z.div_mod_to_equations. lia.
Qed.

Lemma yearOfEra_late doe : 146037 <= doe <= 146096 -> yearOfEra doe = 399.
Proof.
  intros Hd. unfold yearOfEra.
  destruct (Z.eq_dec doe 146096) as [->|Hne]; [reflexivity|].
  assert (doe / 146096 = 0) by (apply Z.div_small; lia).
  assert (doe / 36524 = 3) by (Z.div_mod_to_equations; lia).
  assert (doe / 1460 = 100) by (Z.div_mod_to_equations; lia).
  Z.div_mod_to_equations. lia.
Qed.

(** The days of the years 0000 to 9999 get a year from 0 to 9999. *)
Lemma civilFromDays_year z :
  -719528 <= z <= 2932896 ->
  0 <= fst (fst (civilFromDays z)) <= 9999.
Proof.
  intros Hz. unfold civilFromDays.
  set (z' := z + 719468).
  set (era := z' / 146097).
  set (doe := z' - era * 146097).
  change ((doe - doe / 1460 + doe / 36524 - doe / 146096) / 365)
    with (yearOfEra doe).
  set (yoe := yearOfEra doe).
  set (doy := doe - (365 * yoe + yoe / 4 - yoe / 100)).
  set (mp := (5 * doy + 2) / 153).
  cbv zeta. cbn [fst].
  assert (Hera : -1 <= era <= 24) by (subst era z'; Z.div_mod_to_equations; lia).
  assert (Hdoe : 0 <= doe <= 146096)
    by (subst doe era z'; Z.div_mod_to_equations; lia).
  assert (Hyoe : 0 <= yoe <= 399) by (apply yearOfEra_range, Hdoe).
  assert (Hz' : z' = era * 146097 + doe) by (subst doe; lia).
  assert (Hz'' : -60 <= z' <= 3652364) by (subst z'; lia).
  assert (Hfirst : era = -1 -> yoe = 399 /\ 10 <= mp <= 11).
  { intros He. assert (Hd : 146037 <= doe <= 146096) by lia.
    assert (Hy : yoe = 399) by (apply yearOfEra_late, Hd). split; [exact Hy|].
    subst mp doy. rewrite Hy. Z.div_mod_to_equations. lia. }
  assert (Hlast : era = 24 -> yoe = 399 -> 0 <= mp <= 9).
  { intros He Hy. pose proof (yearOfEra_last doe Hdoe Hy).
    subst mp doy. rewrite Hy. Z.div_mod_to_equations. lia. }
  destruct (Z.ltb_spec mp 10) as [Hmp|Hmp].
  - destruct (Z.leb_spec (mp + 3) 2) as [Hm|Hm]; lia.
  - destruct (Z.leb_spec (mp - 9) 2) as [Hm|Hm]; lia.
Qed.

Lemma digitChar_isDigit n : isDigit (digitChar n) = true.
Proof.
  unfold isDigit, digitChar. pose proof (Z.mod_pos_bound n 10 ltac:(lia)).
  apply andb_true_iff. rewrite !N.leb_le. lia.
Qed.

Lemma toISODate_of_day t :
  -719528 <= t / msPerDay <= 2932896 -> dateRegex (toISODate t) = true.
Proof.
  intros Hz. pose proof (civilFromDays_year _ Hz) as Hy.
  unfold toISODate. destruct (civilFromDays (t / msPerDay)) as [[y m] d].
  cbn [fst] in Hy.
  assert (E : (0 <=? y) && (y <=? 9999) = true)
    by (apply andb_true_iff; rewrite !Z.leb_le; lia).
  rewrite E. unfold pad4, pad2, dateRegex. cbn [app].
  now rewrite !digitChar_isDigit.
Qed.

Lemma fourDigitYear_days t :
  minFourDigitYear <= t <= maxFourDigitYear ->
  -719528 <= t / msPerDay <= 2932896.
Proof.
  unfold minFourDigitYear, maxFourDigitYear, msPerDay. intros Ht.
  Z.div_mod_to_equations; lia.
Qed.

(** X7. For a time value in the years 0000 to 9999 the current-date string
    of the handler, the date part of [toISOString], matches YYYY-MM-DD. *)
Theorem toISODate_format t :
  minFourDigitYear <= t <= maxFourDigitYear ->
  dateRegex (toISODate t) = true.
Proof.
  intros Ht. apply toISODate_of_day. now apply fourDigitYear_days.
Qed.

Lemma caught_error_status `{Host} e :
  status (classifyCaught e) = 429 \/ status (classifyCaught e) = 500.
Proof.
  unfold classifyCaught.
  repeat match goal with
         | |- context [if ?b then _ else _] => destruct b
         end; simpl; auto.
Qed.

Lemma classifyLastError_codes `{Host} e :
  (status (classifyLastError e) = 429 \/ status (classifyLastError e) = 500)
  /\ exists m, body (classifyLastError e) = ErrorBody m.
Proof.
  unfold classifyLastError.
  repeat match goal with
         | |- context [if ?b then _ else _] => destruct b
         end; simpl; eauto.
Qed.

Lemma classifyCaught_body `{Host} e : exists m, body (classifyCaught e) = ErrorBody m.
Proof.
  unfold classifyCaught.
  repeat match goal with
         | |- context [if ?b then _ else _] => destruct b
         end; simpl; eauto.
Qed.

Section WithHost.
Context `{Host}.

Lemma postprocessResult_wellFormed data currentDate :
  dateRegex currentDate = true ->
  wellFormedDraft (postprocessResult data currentDate).
Proof.
  intros Hc. unfold wellFormedDraft. rewrite postprocessResult_spec.
  repeat rewrite ?field_insert, ?field_insert_ne by discriminate.
  repeat split.
  - destruct (titleOf_good (field data "title")) as (Hne & _ & Hlen). eauto.
  - unfold priorityOf. now destruct (isPriority (field data "priority")) eqn:E.
  - unfold dueTimeOf. destruct (field data "due_time") as [| | | |s| |]; try (now left).
    destruct (timeRegex s) eqn:E; [right; eauto | now left].
  - destruct (dueDateOf_cases currentDate (field data "due_date")) as [E|[E|E]];
      [now left | now right | right; eauto].
  - apply textOf_clean.
  - apply textOf_clean.
Qed.

(** The two calls of the loop, case by case. *)
Lemma tryModels_cases generateObject prompt :
  let st := tryModels generateObject prompt modelNames
              {| object := None; lastError := None; called := [] |} in
  match generateObject (prompt (js "gemini-2.5-flash")) with
  | Returns o => st = {| object := Some o; lastError := None;
                         called := [js "gemini-2.5-flash"] |}
  | Throws e1 =>
      match generateObject (prompt (js "gemini-1.5-flash")) with
      | Returns o => st = {| object := Some o; lastError := Some e1;
                             called := modelNames |}
      | Throws e2 => st = {| object := None; lastError := Some e2;
                             called := modelNames |}
      end
  end.
Proof.
  cbv zeta. unfold modelNames, tryModels.
  destruct (generateObject (prompt (js "gemini-2.5-flash"))); [reflexivity|].
  destruct (generateObject (prompt (js "gemini-1.5-flash"))); reflexivity.
Qed.

(** X8. Whatever the request, the environment and the model, the handler
    answers 200, 400, 429 or 500, with a draft exactly when the status is
    200; it calls the model with the first configured identifier, or with
    both in their order, or not at all; it calls it only for a [text] that is
    a string [validateInput] accepts and with a configured key; and a 400
    answer means no call was made. *)
Theorem generate_responses env generateObject request :
  let response := fst (POST env generateObject request) in
  let calls := snd (POST env generateObject request) in
  (status response = 200 \/ status response = 400 \/ status response = 429
   \/ status response = 500)
  /\ (status response = 200 <-> exists draft, body response = DataBody draft)
  /\ (calls = [] \/ calls = [js "gemini-2.5-flash"] \/ calls = modelNames)
  /\ (calls <> [] ->
      apiKey env = true
      /\ exists value text,
           request = Some value /\ prop value "text" = VStr text
           /\ isValid (validateInput text) = true)
  /\ (status response = 400 -> calls = []).
Proof.
  cbv zeta. unfold POST.
  assert (Hquiet : forall st m,
    (st = 400 \/ st = 500) ->
    (st = 200 \/ st = 400 \/ st = 429 \/ st = 500)
    /\ (st = 200 <-> exists draft, @ErrorBody Message obj m = DataBody draft)
    /\ (@nil jsstring = [] \/ @nil jsstring = [js "gemini-2.5-flash"]
        \/ @nil jsstring = modelNames)
    /\ (@nil jsstring <> [] ->
        apiKey env = true
        /\ exists value text,
             request = Some value /\ prop value "text" = VStr text
             /\ isValid (validateInput text) = true)
    /\ (st = 400 -> @nil jsstring = [])).
  { intros st m Hst.
    repeat split; try tauto; try (intros; lia);
      try (intros [d Hd]; discriminate). }
  assert (Hcaught : forall e,
    let r := classifyCaught e in
    (status r = 200 \/ status r = 400 \/ status r = 429 \/ status r = 500)
    /\ (status r = 200 <-> exists draft, body r = DataBody draft)
    /\ (@nil jsstring = [] \/ @nil jsstring = [js "gemini-2.5-flash"]
        \/ @nil jsstring = modelNames)
    /\ (@nil jsstring <> [] ->
        apiKey env = true
        /\ exists value text,
             request = Some value /\ prop value "text" = VStr text
             /\ isValid (validateInput text) = true)
    /\ (status r = 400 -> @nil jsstring = [])).
  { intros e r. subst r. destruct (classifyCaught_body e) as [m Hm].
    pose proof (caught_error_status e) as Hs. rewrite Hm.
    repeat split; try tauto; try (intros; lia);
      try (intros [d Hd]; discriminate). }
  destruct request as [value|]; [|apply (Hquiet 400 BadJson); auto].
  destruct value as [| |b|x|s|items|fields];
    try apply Hcaught; try (apply (Hquiet 400 NotAString); auto).
  destruct (prop (VObj fields) "text") as [| | | |text| |] eqn:Ep;
    try (apply (Hquiet 400 NotAString); auto).
  destruct (isValid (validateInput text)) eqn:Ev; cbn [negb];
    [|apply (Hquiet 400 (Invalid (error (validateInput text)))); auto].
  destruct (apiKey env) eqn:Ek; cbn [negb];
    [|apply (Hquiet 500 MissingApiKey); auto].
  cbv zeta.
  pose proof (tryModels_cases generateObject
                (makePrompt (preprocessInput text) (clock env 0))) as Hc.
  cbv zeta in Hc.
  assert (Hreq : exists value text0,
             Some (VObj fields) = Some value /\ prop value "text" = VStr text0
             /\ isValid (validateInput text0) = true) by eauto.
  destruct (generateObject (makePrompt (preprocessInput text) (clock env 0)
                              (js "gemini-2.5-flash"))) as [o|e1].
  { rewrite Hc. cbn. repeat split; eauto; try lia. }
  destruct (generateObject (makePrompt (preprocessInput text) (clock env 0)
                              (js "gemini-1.5-flash"))) as [o|e2].
  { rewrite Hc. cbn. repeat split; eauto; try lia. }
  rewrite Hc. cbn [object lastError called fst snd].
  destruct (classifyLastError_codes (Some e2)) as [Hs [m Hm]]. rewrite Hm.
  repeat split; eauto; try (intros; lia);
    try (intros [d Hd]; discriminate).
Qed.

(** X9. With a clock in the years 0000 to 9999, every answer that carries
    a draft carries one that meets the field constraints: a non-empty title
    of at most 100 code units, a priority of high, medium or low, a
    [due_time] and a [due_date] that are null or well formed, and texts that
    are null or non-empty and trimmed. *)
Theorem generated_draft_is_well_formed env generateObject request draft :
  minFourDigitYear <= clock env 0 <= maxFourDigitYear ->
  body (fst (POST env generateObject request)) = DataBody draft ->
  wellFormedDraft draft.
Proof.
  intros Hclock. unfold POST.
  destruct request as [value|]; [|discriminate].
  assert (Hcaught : forall e, body (classifyCaught e) = DataBody draft ->
                              wellFormedDraft draft).
  { intros e. destruct (classifyCaught_body e) as [m ->]. discriminate. }
  destruct value as [| |b|x|s|items|fields]; try apply Hcaught; try discriminate.
  destruct (prop (VObj fields) "text") as [| | | |text| |]; try discriminate.
  destruct (negb (isValid (validateInput text))); [discriminate|].
  destruct (negb (apiKey env)); [discriminate|].
  cbv zeta.
  destruct (object _) as [o|].
  - cbn. intros [= <-]. apply postprocessResult_wellFormed.
    now apply toISODate_of_day, fourDigitYear_days.
  - cbn [fst]. destruct (classifyLastError_codes (lastError
      (tryModels generateObject (makePrompt (preprocessInput text) (clock env 0))
         modelNames {| object := None; lastError := None; called := [] |})))
      as [_ [m ->]]. discriminate.
Qed.

End WithHost.

Lemma toISODate_format_example :
  dateRegex (toISODate 1749524400000) = true.
Proof. apply toISODate_format. unfold minFourDigitYear, maxFourDigitYear. lia. Defined.

Lemma generated_draft_example :
  wellFormedDraft
    (postprocessResult (H := refHost) ∅ (toISODate 1749524400000)).
Proof.
  apply (generated_draft_is_well_formed (H := refHost)
           {| apiKey := true; clock := fun _ => 1749524400000 |}
           (fun _ => Returns ∅)
           (Some (VObj [("text", VStr (js "buy milk"))]))).
  - unfold minFourDigitYear, maxFourDigitYear. simpl. lia.
  - reflexivity.
Defined.

End GenerateResponses.

(** ** The statistics: counts, tables and categories *)

Module CountFacts.
Import AnalyzeTodos HandlerSpec AnalyzeSpec AnalyzeFacts CountSpec.

Lemma filter_split {A} (p q : A -> bool) l :
  length (List.filter p l)
  = (length (List.filter (fun x => p x && q x) l)
     + length (List.filter (fun x => p x && negb (q x)) l))%nat.
Proof.
  induction l as [|x r IH]; [reflexivity|]. simpl.
  destruct (p x), (q x); simpl; lia.
Qed.

Lemma filter_le {A} (p q : A -> bool) l :
  (forall x, p x = true -> q x = true) ->
  (length (List.filter p l) <= length (List.filter q l))%nat.
Proof.
  intros Hpq. induction l as [|x r IH]; [reflexivity|]. simpl.
  destruct (p x) eqn:Ep; [rewrite (Hpq x Ep)|destruct (q x)]; simpl; lia.
Qed.

Lemma filter_disjoint3 {A} (p q r : A -> bool) l :
  (forall x, p x && q x = false) -> (forall x, p x && r x = false) ->
  (forall x, q x && r x = false) ->
  (length (List.filter p l) + length (List.filter q l)
   + length (List.filter r l) <= length l)%nat.
Proof.
  intros Hpq Hpr Hqr. induction l as [|x s IH]; [reflexivity|]. simpl.
  specialize (Hpq x). specialize (Hpr x). specialize (Hqr x).
  destruct (p x), (q x), (r x); simpl in *; try discriminate; lia.
Qed.

Lemma filter_disjoint2 {A} (p q r : A -> bool) l :
  (forall x, p x && q x = false) ->
  (forall x, p x = true -> r x = true) -> (forall x, q x = true -> r x = true) ->
  (length (List.filter p l) + length (List.filter q l)
   <= length (List.filter r l))%nat.
Proof.
  intros Hpq Hp Hq. induction l as [|x s IH]; [reflexivity|]. simpl.
  specialize (Hpq x). specialize (Hp x). specialize (Hq x).
  destruct (p x), (q x); simpl in *; try discriminate;
    try rewrite Hp by reflexivity; try rewrite Hq by reflexivity;
    try destruct (r x); simpl; lia.
Qed.

Lemma countClocked_le (p : Task -> nat -> bool * nat) (q : Task -> bool) todos k :
  (forall t k, fst (p t k) = true -> q t = true) ->
  (fst (countClocked p todos k) <= length (List.filter q todos))%nat.
Proof.
  intros Hpq. revert k. induction todos as [|t rest IH]; intros k; [reflexivity|].
  simpl. specialize (Hpq t k). destruct (p t k) as [b k1].
  specialize (IH k1). destruct (countClocked p rest k1) as [n k2].
  simpl in *. destruct b; [rewrite Hpq by reflexivity|destruct (q t)]; simpl; lia.
Qed.

Lemma hasPriority_exclusive a b t :
  js a <> js b -> hasPriority a t && hasPriority b t = false.
Proof.
  intros Hab. unfold hasPriority.
  destruct (streq (priority t) (js a)) eqn:Ea; [|reflexivity].
  apply streq_true in Ea. simpl. apply streq_false. congruence.
Qed.

Section WithHost.
Context `{Host}.

Lemma isOverdue_pending env t k : fst (isOverdue env t k) = true -> pendingWithDueDate t = true.
Proof.
  unfold isOverdue, pendingWithDueDate, hasDueDate.
  destruct (present (due_date t)); [|discriminate].
  now destruct (completed t).
Qed.

Lemma isUpcoming_pending env t k : fst (isUpcoming env t k) = true -> pendingWithDueDate t = true.
Proof.
  unfold isUpcoming, pendingWithDueDate, hasDueDate.
  destruct (present (due_date t)); [|discriminate].
  now destruct (completed t).
Qed.

Lemma isCompletedOnTime_inv t :
  isCompletedOnTime t = true -> hasDueDate t = true /\ completed t = true.
Proof.
  unfold isCompletedOnTime, hasDueDate.
  destruct (present (due_date t)); [|discriminate].
  now destruct (completed t).
Qed.

(** X10. In the statistics of every run the total is the length of the
    list; each priority's total splits into its completed and its pending
    tasks; the three priorities together, the completed tasks and the tasks
    with a due date each count at most all tasks; and the tasks completed on
    time together with the overdue ones, or with the upcoming ones, are at
    most the tasks with a due date. *)
Theorem counts_are_consistent env todos :
  let st := fst (aggregate env todos) in
  totalCount st = length todos
  /\ (completedCount st <= totalCount st)%nat
  /\ highPriorityTotal st = (highPriorityCompleted st + highPriorityPending st)%nat
  /\ mediumPriorityTotal st
     = (mediumPriorityCompleted st + mediumPriorityPending st)%nat
  /\ lowPriorityTotal st = (lowPriorityCompleted st + lowPriorityPending st)%nat
  /\ (highPriorityTotal st + mediumPriorityTotal st + lowPriorityTotal st
      <= totalCount st)%nat
  /\ (withDueDate st <= totalCount st)%nat
  /\ (completedOnTime st <= completedCount st)%nat
  /\ (completedOnTime st + overdue st <= withDueDate st)%nat
  /\ (completedOnTime st + upcomingDeadlines st <= withDueDate st)%nat.
Proof.
  unfold aggregate.
  pose proof (countClocked_le (isOverdue env) pendingWithDueDate todos 0
                (isOverdue_pending env)) as Ho.
  destruct (countClocked (isOverdue env) todos 0) as [o k].
  pose proof (countClocked_le (isUpcoming env) pendingWithDueDate todos k
                (isUpcoming_pending env)) as Hu.
  destruct (countClocked (isUpcoming env) todos k) as [u k'].
  cbn in *. unfold count.
  assert (Hdue : forall n,
    (n <= length (List.filter pendingWithDueDate todos))%nat ->
    (length (List.filter isCompletedOnTime todos) + n
     <= length (List.filter hasDueDate todos))%nat).
  { intros n Hn.
    pose proof (filter_disjoint2 isCompletedOnTime pendingWithDueDate hasDueDate todos)
      as Hd.
    assert (length (List.filter isCompletedOnTime todos)
            + length (List.filter pendingWithDueDate todos)
            <= length (List.filter hasDueDate todos))%nat; [|lia].
    apply Hd.
    - intros t. unfold pendingWithDueDate.
      destruct (isCompletedOnTime t) eqn:E; [|reflexivity].
      apply isCompletedOnTime_inv in E. destruct E as [-> ->]. reflexivity.
    - intros t E. now apply isCompletedOnTime_inv in E.
    - intros t. unfold pendingWithDueDate. now destruct (hasDueDate t). }
  repeat split.
  - apply filter_length_le.
  - apply filter_split.
  - apply filter_split.
  - apply filter_split.
  - apply filter_disjoint3; intros t; now apply hasPriority_exclusive.
  - apply filter_length_le.
  - apply filter_le. intros t E. now apply isCompletedOnTime_inv in E.
  - now apply Hdue.
  - now apply Hdue.
Qed.

End WithHost.

(** *** Tables with fixed keys *)

Lemma bump_sound b c : sound c -> sound (bump b c).
Proof. unfold sound, bump. destruct b; simpl; lia. Qed.

Lemma bumpAt_keys {K} `{EqDecision K} (k : K) b tbl :
  List.map fst (bumpAt k b tbl) = List.map fst tbl.
Proof.
  unfold bumpAt. induction tbl as [|e r IH]; [reflexivity|].
  simpl. rewrite IH. now destruct (decide (fst e = k)).
Qed.

Lemma bumpAt_sound {K} `{EqDecision K} (k : K) b tbl :
  Forall (fun e => sound (snd e)) tbl ->
  Forall (fun e => sound (snd e)) (bumpAt k b tbl).
Proof.
  unfold bumpAt. induction 1 as [|e r He Hr IH]; simpl; constructor; [|exact IH].
  destruct (decide (fst e = k)); [apply bump_sound|]; exact He.
Qed.

Lemma bumpAt_absent {K} `{EqDecision K} (k : K) b tbl :
  ~ In k (List.map fst tbl) -> bumpAt k b tbl = tbl.
Proof.
  unfold bumpAt. induction tbl as [|e r IH]; [reflexivity|].
  simpl. intros Hk. rewrite IH by tauto.
  destruct (decide (fst e = k)); [tauto | reflexivity].
Qed.

(** One bump of a key that occurs once adds one to the totals. *)
Lemma sumTotals_bumpAt {K} `{EqDecision K} (k : K) b tbl :
  List.NoDup (List.map fst tbl) -> In k (List.map fst tbl) ->
  sumTotals (bumpAt k b tbl) = S (sumTotals tbl).
Proof.
  induction tbl as [|e r IH]; [easy|].
  simpl. intros Hnd Hin. apply List.NoDup_cons_iff in Hnd. destruct Hnd as [Hne Hnd].
  change (bumpAt k b (e :: r))
    with ((if decide (fst e = k) then (fst e, bump b (snd e)) else e)
          :: bumpAt k b r).
  destruct (decide (fst e = k)) as [E|E].
  - rewrite bumpAt_absent by (now rewrite <- E). simpl. lia.
  - destruct Hin as [Hin|Hin]; [easy|]. simpl. rewrite IH by easy. lia.
Qed.

Lemma dayName_getDay `{Host} t : exists day, dayName (getDay t) = Some day.
Proof.
  unfold getDay.
  pose proof (Z.mod_pos_bound ((t + LocalTZA) / msPerDay + 4) 7 ltac:(lia)) as Hr.
  set (d := ((t + LocalTZA) / msPerDay + 4) mod 7) in *.
  assert (Hd : d = 0 \/ d = 1 \/ d = 2 \/ d = 3 \/ d = 4 \/ d = 5 \/ d = 6) by lia.
  destruct Hd as [->|[->|[->|[->|[->|[->| ->]]]]]]; simpl; eauto.
Qed.

Lemma In_dayKeys day : In day dayKeys.
Proof. destruct day; simpl; tauto. Qed.

Lemma In_slotKeys slot : In slot slotKeys.
Proof. destruct slot; simpl; tauto. Qed.

Lemma NoDup_dayKeys : List.NoDup dayKeys.
Proof.
  unfold dayKeys. repeat constructor; simpl; intuition discriminate.
Qed.

Section Tables.
Context `{Host}.

Lemma addTimeSlot_table tbl todo :
  List.map fst (addTimeSlot tbl todo) = List.map fst tbl
  /\ (Forall (fun e => sound (snd e)) tbl ->
      Forall (fun e => sound (snd e)) (addTimeSlot tbl todo)).
Proof.
  unfold addTimeSlot. destruct (present (due_time todo)); [|easy].
  destruct (slotOfHours _); [|easy].
  split; [apply bumpAt_keys | apply bumpAt_sound].
Qed.

Lemma addDayOfWeek_table tbl todo :
  List.map fst tbl = dayKeys ->
  List.map fst (addDayOfWeek tbl todo) = dayKeys
  /\ (Forall (fun e => sound (snd e)) tbl ->
      Forall (fun e => sound (snd e)) (addDayOfWeek tbl todo))
  /\ sumTotals (addDayOfWeek tbl todo)
     = ((if hasReadableDueDate todo then 1 else 0) + sumTotals tbl)%nat.
Proof.
  intros Hk. unfold addDayOfWeek, hasReadableDueDate.
  destruct (present (due_date todo)) as [due|]; [|easy].
  destruct (newDate due) as [t|]; [|easy]. simpl.
  destruct (dayName_getDay t) as [day ->].
  split; [now rewrite bumpAt_keys|]. split; [apply bumpAt_sound|].
  apply sumTotals_bumpAt; rewrite Hk; [apply NoDup_dayKeys | apply In_dayKeys].
Qed.

Lemma timeSlots_table todos tbl :
  List.map fst (fold_left addTimeSlot todos tbl) = List.map fst tbl
  /\ (Forall (fun e => sound (snd e)) tbl ->
      Forall (fun e => sound (snd e)) (fold_left addTimeSlot todos tbl)).
Proof.
  revert tbl. induction todos as [|t rest IH]; intros tbl; [easy|].
  simpl. destruct (addTimeSlot_table tbl t) as [Ek Es].
  destruct (IH (addTimeSlot tbl t)) as [Ek' Es']. split; [congruence | auto].
Qed.

Lemma dayOfWeekStats_table todos tbl :
  List.map fst tbl = dayKeys ->
  List.map fst (fold_left addDayOfWeek todos tbl) = dayKeys
  /\ (Forall (fun e => sound (snd e)) tbl ->
      Forall (fun e => sound (snd e)) (fold_left addDayOfWeek todos tbl))
  /\ sumTotals (fold_left addDayOfWeek todos tbl)
     = (count hasReadableDueDate todos + sumTotals tbl)%nat.
Proof.
  revert tbl. induction todos as [|t rest IH]; intros tbl Hk; [easy|].
  simpl. destruct (addDayOfWeek_table tbl t Hk) as (Ek & Es & Et).
  destruct (IH _ Ek) as (Ek' & Es' & Et'). split; [exact Ek'|]. split; [auto|].
  rewrite Et', Et. unfold count. simpl.
  destruct (hasReadableDueDate t); simpl; lia.
Qed.

Lemma aggregate_tables env todos :
  let st := fst (aggregate env todos) in
  timeSlots st = fold_left addTimeSlot todos timeSlots0
  /\ dayOfWeekStats st = fold_left addDayOfWeek todos dayOfWeekStats0
  /\ mostConcentratedTimeSlot st = head (sortBy byTotal (timeSlots st))
  /\ withDueDate st = count hasDueDate todos.
Proof.
  unfold aggregate.
  destruct (countClocked (isOverdue env) todos 0) as [o k].
  destruct (countClocked (isUpcoming env) todos k) as [u k'].
  cbn. repeat split.
Qed.

Lemma zero_tables_sound :
  Forall (fun e : Slot * Count => sound (snd e)) timeSlots0
  /\ Forall (fun e : Weekday * Count => sound (snd e)) dayOfWeekStats0.
Proof. split; repeat constructor. Qed.

(** X11. In every run the slot table keeps its four slots and the weekday
    table its seven days, each in the order it was written; the weekday
    totals add up to the number of tasks whose [due_date] [Date] can read,
    which is at most the number of tasks with a due date. *)
Theorem tables_keep_their_keys env todos :
  let st := fst (aggregate env todos) in
  List.map fst (timeSlots st) = slotKeys
  /\ List.map fst (dayOfWeekStats st) = dayKeys
  /\ sumTotals (dayOfWeekStats st) = count hasReadableDueDate todos
  /\ (sumTotals (dayOfWeekStats st) <= withDueDate st)%nat.
Proof.
  cbv zeta. destruct (aggregate_tables env todos) as (Es & Ed & _ & Ew).
  rewrite Es, Ed, Ew.
  destruct (timeSlots_table todos timeSlots0) as [Ek _].
  destruct (dayOfWeekStats_table todos dayOfWeekStats0 eq_refl) as (Ek' & _ & Et).
  rewrite Ek, Ek', Et. change (sumTotals dayOfWeekStats0) with 0%nat.
  rewrite Nat.add_0_r. repeat split. unfold count. apply filter_le.
  intros t. unfold hasReadableDueDate, hasDueDate.
  now destruct (present (due_date t)).
Qed.

End Tables.

End CountFacts.

(** ** Categories, rates and the best slots *)

Module AnalysisFacts.
Import AnalyzeTodos HandlerSpec AnalyzeSpec AnalyzeFacts CountSpec CountFacts.

(** One task adds one to its own category, unless the name is inherited. *)
Lemma addCategory_lookup m t c :
  addCategory m t !! c
  = if negb (isInherited c) && inCategory c t
    then Some (bump (completed t) (default zeroCount (m !! c)))
    else m !! c.
Proof.
  unfold addCategory, inCategory, isInherited.
  destruct (streq (categoryOf t) c) eqn:E.
  - apply streq_true in E. subst c.
    destruct (existsb _ _); [reflexivity|]. cbn [negb andb].
    rewrite lookup_alter_eq.
    destruct (m !! categoryOf t) eqn:Em; [now rewrite Em|].
    now rewrite lookup_insert_eq.
  - apply streq_false in E. rewrite andb_false_r.
    destruct (existsb _ _); [reflexivity|].
    rewrite lookup_alter_ne by exact E.
    destruct (m !! categoryOf t); [reflexivity|].
    now rewrite lookup_insert_ne.
Qed.

Lemma doneInCategory_le c todos :
  (length (List.filter (doneInCategory c) todos)
   <= length (List.filter (inCategory c) todos))%nat.
Proof.
  apply filter_le. intros t. unfold doneInCategory. now destruct (inCategory c t).
Qed.

Lemma categoryStats_from todos m c :
  fold_left addCategory todos m !! c
  = if isInherited c || (length (List.filter (inCategory c) todos) =? 0)%nat
    then m !! c
    else Some {| total := total (default zeroCount (m !! c))
                          + length (List.filter (inCategory c) todos);
                 done := done (default zeroCount (m !! c))
                         + length (List.filter (doneInCategory c) todos) |}.
Proof.
  revert m. induction todos as [|t rest IH]; intros m.
  - simpl. now rewrite orb_true_r.
  - simpl fold_left. rewrite IH, addCategory_lookup. simpl List.filter.
    pose proof (doneInCategory_le c rest) as Hle.
    destruct (isInherited c); [reflexivity|]. cbn [negb andb orb].
    unfold doneInCategory at 2.
    destruct (inCategory c t); cbn [andb]; [|reflexivity].
    destruct (m !! c) as [[a b]|];
      destruct (completed t); cbn [length default bump total done zeroCount];
      destruct (length (List.filter (inCategory c) rest)) as [|n];
      cbn [Nat.eqb]; f_equal; cbv [id bump zeroCount total done];
      f_equal; lia.
Qed.

Lemma guardedRate_atMostAll c t : (c <= t)%nat -> atMostAll (guardedRate c t).
Proof. intros Hc. unfold guardedRate. now destruct (0 <? t)%nat. Qed.

Lemma plainRate_atMostAll c : sound c -> atMostAll (plainRate c).
Proof. now intros Hc. Qed.

(** *** The head of a sorted table *)

Lemma sortBy_nil {A} (cmp : A -> A -> comparison) l :
  sortBy cmp l = [] -> l = [].
Proof.
  destruct l as [|x r]; [reflexivity|]. unfold sortBy. simpl.
  destruct (foldr (insertBy cmp) [] r) as [|y s]; simpl; [discriminate|].
  destruct (cmp x y); discriminate.
Qed.

Lemma head_insertBy {A} (cmp : A -> A -> comparison) x l :
  head (insertBy cmp x l)
  = match head l with
    | Some y => match cmp x y with Gt => Some y | _ => Some x end
    | None => Some x
    end.
Proof. destruct l as [|y r]; [reflexivity|]. simpl. now destruct (cmp x y). Qed.

(** The first element of a table sorted by [byTotal] has the largest total. *)
Lemma head_byTotal {K} (tbl : list (K * Count)) e :
  head (sortBy byTotal tbl) = Some e ->
  forall e', In e' tbl -> (total (snd e') <= total (snd e))%nat.
Proof.
  revert e. induction tbl as [|x r IH]; intros e He e' Hin; [easy|].
  unfold sortBy in He. simpl in He. rewrite head_insertBy in He.
  fold (sortBy (@byTotal K) r) in He.
  destruct (head (sortBy byTotal r)) as [y|] eqn:Ey.
  - specialize (IH y eq_refl). unfold byTotal in He.
    destruct (Nat.compare_spec (total (snd y)) (total (snd x))) as [Hc|Hc|Hc];
      injection He as <-; destruct Hin as [<-|Hin];
      try lia; specialize (IH e' Hin); lia.
  - injection He as <-. destruct r as [|z r'].
    + destruct Hin as [<-|[]]. lia.
    + exfalso.
      assert (Hn : sortBy (@byTotal K) (z :: r') = [])
        by (now destruct (sortBy byTotal (z :: r'))).
      now apply sortBy_nil in Hn.
Qed.

Lemma sumTotals_zero {K} (tbl : list (K * Count)) :
  sumTotals tbl = 0%nat <-> List.filter busy tbl = [].
Proof.
  induction tbl as [|e r IH]; [easy|].
  simpl. unfold busy at 1. destruct (total (snd e)) eqn:E; simpl.
  - exact IH.
  - split; [lia | discriminate].
Qed.

Section WithHost.
Context `{Host}.

(** X12. After any list of tasks, [categoryStats] holds under a name that is
    not inherited from [Object.prototype] the number of tasks of that
    category and the number of them that are completed, and holds nothing
    under a name no task has or an inherited one. *)
Theorem categoryStats_counts env todos c :
  categoryStats (fst (aggregate env todos)) !! c = categoryCount todos c.
Proof.
  destruct (aggregate_fields env todos) as (_ & _ & _ & _ & _ & _ & -> & _).
  rewrite categoryStats_from, lookup_empty. unfold categoryCount.
  destruct (isInherited c || _); [reflexivity|]. reflexivity.
Qed.

Lemma categoryStats_sound env todos k c :
  categoryStats (fst (aggregate env todos)) !! k = Some c -> sound c.
Proof.
  destruct (aggregate_fields env todos) as (_ & _ & _ & _ & _ & _ & -> & _).
  rewrite categoryStats_from, lookup_empty.
  destruct (isInherited k || _); [discriminate|]. intros [= <-].
  unfold sound. simpl. apply doneInCategory_le.
Qed.

Lemma tables_sound env todos :
  let st := fst (aggregate env todos) in
  Forall (fun e => sound (snd e)) (timeSlots st)
  /\ Forall (fun e => sound (snd e)) (dayOfWeekStats st).
Proof.
  cbv zeta. destruct (aggregate_tables env todos) as (-> & -> & _).
  destruct zero_tables_sound as [Hs Hd]. split.
  - now apply timeSlots_table.
  - now apply (dayOfWeekStats_table todos dayOfWeekStats0 eq_refl).
Qed.

Lemma statistics_rates env todos :
  let st := fst (aggregate env todos) in
  atMostAll (completionRate st) /\ atMostAll (highPriorityRate st)
  /\ atMostAll (mediumPriorityRate st) /\ atMostAll (lowPriorityRate st)
  /\ atMostAll (onTimeRate st).
Proof.
  unfold aggregate.
  destruct (countClocked (isOverdue env) todos 0) as [o k].
  destruct (countClocked (isUpcoming env) todos k) as [u k'].
  cbn. unfold count.
  assert (Hboth : forall p q : Task -> bool,
    (length (List.filter (fun t => p t && q t) todos)
     <= length (List.filter p todos))%nat).
  { intros p q. apply filter_le. intros t. now destruct (p t). }
  repeat split; apply guardedRate_atMostAll;
    try apply Hboth; try apply filter_length_le.
  apply filter_le. intros t E. now apply isCompletedOnTime_inv in E.
Qed.

(** X13. No rate the handler computes, in the statistics, in the lines of
    the prompt or as an operand of the two sorts, is above 100 per cent: its
    numerator is at most its denominator. *)
Theorem rates_at_most_all env todos period :
  Forall atMostAll (rateComputations (buildPrompt env todos period)).
Proof.
  destruct (buildPrompt_fields env todos period) as (Es & El & Eps & Ed & Epd & Ec).
  destruct (aggregate_fields env todos) as (_ & _ & _ & _ & _ & _ & _ & Ebs & Ebd).
  destruct (statistics_rates env todos) as (R1 & R2 & R3 & R4 & R5).
  destruct (tables_sound env todos) as [Hslots Hdays].
  pose proof (categoryStats_sound env todos) as Hcats.
  rewrite List.Forall_forall in Hslots, Hdays.
  assert (Hbest : forall {K} (tbl : list (K * Count)) e,
    (forall x, In x tbl -> sound (snd x)) ->
    head (sortBy byRate (List.filter busy tbl)) = Some e -> sound (snd e)).
  { intros K tbl e Ht He. apply head_In, sortBy_In, filter_In in He.
    now apply Ht. }
  apply List.Forall_forall. intros r Hr. unfold rateComputations in Hr.
  rewrite El, Eps, Ed, Epd, Ec, Es in Hr. clear El Eps Ed Epd Ec Es.
  set (st := fst (aggregate env todos)) in *.
  repeat (apply in_app_or in Hr; destruct Hr as [Hr|Hr]).
  - simpl in Hr. intuition (subst; assumption).
  - apply in_map_iff in Hr. destruct Hr as (x & <- & Hx).
    apply in_map_iff in Hx. destruct Hx as (e & <- & He).
    apply guardedRate_atMostAll, (Hslots e He).
  - rewrite Ebs in Hr.
    destruct (head (sortBy byRate (List.filter busy (timeSlots st)))) as [e|] eqn:E;
      [|easy].
    destruct Hr as [<-|[]]. apply plainRate_atMostAll, (Hbest _ _ _ Hslots E).
  - apply in_map_iff in Hr. destruct Hr as (x & <- & Hx).
    apply in_map_iff in Hx. destruct Hx as (e & <- & He).
    apply filter_In in He. apply plainRate_atMostAll, (Hdays e), He.
  - rewrite Ebd in Hr.
    destruct (head (sortBy byRate (List.filter busy (dayOfWeekStats st)))) as [e|] eqn:E;
      [|easy].
    destruct Hr as [<-|[]]. apply plainRate_atMostAll, (Hbest _ _ _ Hdays E).
  - apply in_map_iff in Hr. destruct Hr as (x & <- & Hx).
    apply in_map_iff in Hx. destruct Hx as ([k c] & <- & He).
    apply list_elem_of_In, elem_of_map_to_list in He.
    apply plainRate_atMostAll, (Hcats k c He).
  - apply in_map_iff in Hr. destruct Hr as (e & <- & He).
    apply filter_In in He. apply plainRate_atMostAll, (Hslots e), He.
  - apply in_map_iff in Hr. destruct Hr as (e & <- & He).
    apply filter_In in He. apply plainRate_atMostAll, (Hdays e), He.
Qed.

End WithHost.

Lemma head_sortBy_none {A} (cmp : A -> A -> comparison) l :
  head (sortBy cmp l) = None <-> l = [].
Proof.
  split; [|now intros ->].
  intros Hh. apply (sortBy_nil cmp). now destruct (sortBy cmp l).
Qed.

Section BestSlots.
Context `{Host}.

Lemma addTimeSlot_early tbl t : hourAtLeast9 t = false -> addTimeSlot tbl t = tbl.
Proof.
  unfold hourAtLeast9, dueHour, addTimeSlot.
  destruct (present (due_time t)) as [dueTime|]; [|reflexivity].
  simpl. intros E. now rewrite slotOfHours_none.
Qed.

Lemma timeSlots_untouched todos tbl :
  count hourAtLeast9 todos = 0%nat -> fold_left addTimeSlot todos tbl = tbl.
Proof.
  unfold count. induction todos as [|t rest IH]; [reflexivity|].
  simpl. destruct (hourAtLeast9 t) eqn:E; [discriminate|].
  intros Hr. rewrite addTimeSlot_early by exact E. now apply IH.
Qed.

Lemma best_of_table {K} (tbl : list (K * Count)) e :
  head (sortBy byRate (List.filter busy tbl)) = Some e ->
  In e tbl /\ (0 < total (snd e))%nat.
Proof.
  intros He. apply head_In, sortBy_In, filter_In in He.
  destruct He as [Hin Hb]. split; [exact Hin|]. now apply Nat.ltb_lt in Hb.
Qed.

(** X14. The most concentrated slot is always defined: it is a slot of the
    table whose total no other slot exceeds, and when no task has a
    [due_time] with an hour of at least 9 it is the morning slot with no
    tasks. The most productive slot is missing exactly when no task has such
    a [due_time], and the most productive weekday exactly when no task has a
    [due_date] that [Date] can read; when they are defined they are entries
    of their tables that counted a task. *)
Theorem best_slots env todos :
  let st := fst (aggregate env todos) in
  (exists e, mostConcentratedTimeSlot st = Some e
             /\ In e (timeSlots st)
             /\ forall e', In e' (timeSlots st) ->
                           (total (snd e') <= total (snd e))%nat)
  /\ (count hourAtLeast9 todos = 0%nat ->
      mostConcentratedTimeSlot st = Some (Morning, zeroCount))
  /\ (mostProductiveTimeSlot st = None <-> count hourAtLeast9 todos = 0%nat)
  /\ (mostProductiveDay st = None <-> count hasReadableDueDate todos = 0%nat)
  /\ (forall e, mostProductiveTimeSlot st = Some e ->
                In e (timeSlots st) /\ (0 < total (snd e))%nat)
  /\ (forall e, mostProductiveDay st = Some e ->
                In e (dayOfWeekStats st) /\ (0 < total (snd e))%nat).
Proof.
  cbv zeta.
  destruct (aggregate_tables env todos) as (Es & Ed & Ec & _).
  destruct (aggregate_fields env todos) as (_ & _ & _ & _ & _ & _ & _ & Ebs & Ebd).
  rewrite Ec, Ebs, Ebd. clear Ec Ebs Ebd.
  set (st := fst (aggregate env todos)) in *.
  assert (Hsum : sumTotals (timeSlots st) = count hourAtLeast9 todos).
  { rewrite Es, timeSlots_sum by (unfold slotTable, timeSlots0; eauto).
    simpl. lia. }
  assert (Hdays : sumTotals (dayOfWeekStats st) = count hasReadableDueDate todos).
  { rewrite Ed.
    destruct (dayOfWeekStats_table todos dayOfWeekStats0 eq_refl) as (_ & _ & ->).
    simpl. lia. }
  split; [|split; [|split; [|split; [|split]]]].
  - destruct (head (sortBy byTotal (timeSlots st))) as [e|] eqn:E.
    + exists e. split; [reflexivity|]. split.
      * now apply head_In, sortBy_In in E.
      * now apply head_byTotal.
    + apply head_sortBy_none in E. rewrite Es in E.
      destruct (timeSlots_table todos timeSlots0) as [Ek _].
      rewrite E in Ek. discriminate.
  - intros Hnone. rewrite Es, timeSlots_untouched by exact Hnone. reflexivity.
  - rewrite head_sortBy_none, <- sumTotals_zero. lia.
  - rewrite head_sortBy_none, <- sumTotals_zero. lia.
  - intros e Hb. now apply best_of_table in Hb.
  - intros e Hb. now apply best_of_table in Hb.
Qed.

(** X15. Whatever the request, the environment and the model, the analysis
    handler answers 200, 400, 429 or 500, with an analysis exactly when the
    status is 200; it answers 400 exactly when [todos] is not an array or
    [period] is neither today nor week; it calls the model at most once, and
    only with a configured key and the prompt built from an array and a
    valid period. *)
Theorem analyze_responses env generateObject request :
  let response := fst (POST env generateObject request) in
  let calls := snd (POST env generateObject request) in
  (status response = 200 \/ status response = 400 \/ status response = 429
   \/ status response = 500)
  /\ (status response = 200 <-> exists analysis, body response = DataBody analysis)
  /\ (status response = 400 <->
      exists todos period,
        request = Parsed todos period
        /\ (todos = None \/ periodOf period = None))
  /\ (calls = [] \/
      exists todos period p,
        request = Parsed (Some todos) period /\ periodOf period = Some p
        /\ apiKey env = true /\ calls = [buildPrompt env todos p]).
Proof.
  cbv zeta. unfold POST.
  assert (Hcaught : forall e,
    (status (classifyCaught e) = 429 \/ status (classifyCaught e) = 500)
    /\ exists m, body (classifyCaught e) = ErrorBody m).
  { intros e. unfold classifyCaught.
    repeat match goal with
           | |- context [if ?b then _ else _] => destruct b
           end; simpl; eauto. }
  destruct request as [e|[todos|] period].
  - destruct (Hcaught e) as [Hs [m Hm]]. cbn [fst snd]. rewrite Hm.
    repeat split; try tauto; try (intros [? [? [? ?]]]; discriminate);
      try (intros [? ?]; discriminate); destruct Hs as [Hs|Hs]; rewrite Hs;
      try tauto; discriminate.
  - destruct (periodOf period) as [p|] eqn:Ep.
    + destruct (apiKey env) eqn:Ek; cbn [negb].
      * destruct (generateObject (buildPrompt env todos p)) as [object|e].
        -- cbn. repeat split; try tauto; try discriminate; eauto 10.
           intros (t & p' & [= <- <-] & [Hn|Hn]); congruence.
        -- destruct (Hcaught e) as [Hs [m Hm]]. cbn [fst snd]. rewrite Hm.
           repeat split; try tauto; eauto 10;
             try (intros [? ?]; discriminate);
             try (intros (t & p' & [= <- <-] & [Hn|Hn]); congruence);
             destruct Hs as [Hs|Hs]; rewrite Hs; try tauto; discriminate.
      * cbn. repeat split; try tauto; try discriminate;
          try (intros [? ?]; discriminate).
        intros (t & p' & [= <- <-] & [Hn|Hn]); congruence.
    + cbn. repeat split; try tauto; try discriminate; eauto 10;
        try (intros [? ?]; discriminate).
  - cbn. repeat split; try tauto; try discriminate; eauto 10;
      try (intros [? ?]; discriminate).
Qed.

End BestSlots.

End AnalysisFacts.

(** ** The caller of the analysis handler *)

Module CalendarFacts.
Import DraftSpec PastDate GenerateResponses.

Lemma dayOfYear_of_era doe :
  0 <= doe <= 146096 ->
  0 <= doe - (365 * yearOfEra doe + yearOfEra doe / 4 - yearOfEra doe / 100) <= 365.
Proof.
  intros Hd. destruct (Z.eq_dec doe 146096) as [->|Hne].
  - vm_compute. split; discriminate.
  - unfold yearOfEra.
    assert (doe / 146096 = 0) by (apply Z.div_small; lia).
    assert (0 <= doe / 36524 <= 3) by (Z.div_mod_to_equations; lia).
    Z.div_mod_to_equations. lia.
Qed.

(** The first of March of the year [yoe] of the era [era], counted through
    the first of January after it. *)
Lemma DayFromYear_era era yoe :
  0 <= yoe <= 399 ->
  DayFromYear (yoe + era * 400 + 1)
  = era * 146097 + (365 * yoe + yoe / 4 - yoe / 100) - 719162.
Proof. intros Hy. unfold DayFromYear. Z.div_mod_to_equations. lia. Qed.

Lemma monthStart_from_march y mp :
  0 <= mp <= 9 ->
  monthStart y (mp + 3)
  = 59 + (if InLeapYear y then 1 else 0) + (153 * mp + 2) / 5.
Proof.
  intros Hmp. unfold monthStart.
  destruct (InLeapYear y);
    repeat match goal with
           | |- context [if ?a <=? ?b then _ else _] => destruct (Z.leb_spec a b)
           | |- context [if ?a =? ?b then _ else _] => destruct (Z.eqb_spec a b)
           end; Z.div_mod_to_equations; lia.
Qed.

Lemma MakeDay_from_march y mp d :
  0 <= mp <= 11 ->
  let m := if mp <? 10 then mp + 3 else mp - 9 in
  MakeDay (y + (if m <=? 2 then 1 else 0)) m d
  = DayFromYear (y + 1) - 306 + (153 * mp + 2) / 5 + (d - 1).
Proof.
  intros Hmp. cbv zeta. unfold MakeDay. destruct (Z.ltb_spec mp 10) as [Hlt|Hge].
  - destruct (Z.leb_spec (mp + 3) 2); [lia|].
    rewrite Z.add_0_r, monthStart_from_march, DayFromYear_succ by lia.
    unfold DaysInYear. destruct (InLeapYear y); lia.
  - destruct (Z.leb_spec (mp - 9) 2); [|lia]. unfold monthStart.
    destruct (Z.leb_spec (mp - 9) 1); destruct (Z.eqb_spec (mp - 9) 2);
      try lia; Z.div_mod_to_equations; lia.
Qed.

(** The civil date computed for a day number is a date of that day. *)
Lemma MakeDay_civilFromDays z :
  let '(y, m, d) := civilFromDays z in MakeDay y m d = z /\ 1 <= m <= 12.
Proof.
  unfold civilFromDays.
  set (z' := z + 719468).
  set (era := z' / 146097).
  set (doe := z' - era * 146097).
  change ((doe - doe / 1460 + doe / 36524 - doe / 146096) / 365)
    with (yearOfEra doe).
  set (yoe := yearOfEra doe).
  set (doy := doe - (365 * yoe + yoe / 4 - yoe / 100)).
  set (mp := (5 * doy + 2) / 153).
  cbv zeta.
  assert (Hdoe : 0 <= doe <= 146096)
    by (subst doe era; Z.div_mod_to_equations; lia).
  assert (Hyoe : 0 <= yoe <= 399) by (apply yearOfEra_range, Hdoe).
  assert (Hdoy : 0 <= doy <= 365) by (apply dayOfYear_of_era, Hdoe).
  assert (Hmp : 0 <= mp <= 11) by (subst mp; Z.div_mod_to_equations; lia).
  split.
  - rewrite (MakeDay_from_march (yoe + era * 400) mp _ Hmp).
    rewrite (DayFromYear_era era yoe Hyoe). subst doy doe z'. lia.
  - destruct (Z.ltb_spec mp 10); lia.
Qed.

End CalendarFacts.

Module ClientFacts.
Import AnalyzeTodos AnalyzeClient HandlerSpec AnalyzeSpec CountSpec ClientSpec.
Import DraftSpec CalendarFacts GenerateResponses AnalyzeFacts CountFacts.

Lemma TimeClip_small t : Z.abs t <= 8640000000000000 -> TimeClip t = Some t.
Proof. unfold TimeClip. intros Ht. apply Z.leb_le in Ht. now rewrite Ht. Qed.

(** From the last day of 1969 on the civil year is not read as a year of
    the 1900s by the [Date] constructor. *)
Lemma civilFromDays_after_99 z : -1 <= z -> 100 <= fst (fst (civilFromDays z)).
Proof.
  intros Hz. unfold civilFromDays.
  set (z' := z + 719468).
  set (era := z' / 146097).
  set (doe := z' - era * 146097).
  change ((doe - doe / 1460 + doe / 36524 - doe / 146096) / 365)
    with (yearOfEra doe).
  cbv zeta. cbn [fst].
  assert (Hera : 4 <= era) by (subst era z'; Z.div_mod_to_equations; lia).
  assert (Hdoe : 0 <= doe <= 146096)
    by (subst doe era; Z.div_mod_to_equations; lia).
  pose proof (yearOfEra_range doe Hdoe).
  destruct (_ <=? 2); lia.
Qed.

Section WithHost.
Context `{Host}.

Lemma LocalTZA_bounds : - msPerDay < LocalTZA < msPerDay.
Proof. pose proof LocalTZA_range as Hr. apply Z.ltb_lt in Hr. lia. Qed.

(** For a clock from 1970 to 9999, [today] is the start of the local day. *)
Lemma localMidnight_spec now :
  0 <= now <= maxFourDigitYear ->
  localMidnight (TimeClip now)
  = Some ((now + LocalTZA) / msPerDay * msPerDay - LocalTZA).
Proof.
  intros Hnow. pose proof LocalTZA_bounds as Hz.
  unfold maxFourDigitYear in Hnow.
  rewrite TimeClip_small by lia. unfold localMidnight. cbn [mbind option_bind].
  set (k := (now + LocalTZA) / msPerDay).
  assert (Hk : -1 <= k <= 2932897)
    by (subst k; unfold msPerDay in *; Z.div_mod_to_equations; lia).
  pose proof (MakeDay_civilFromDays k) as Hrt.
  pose proof (civilFromDays_after_99 k (proj1 Hk)) as Hy.
  destruct (civilFromDays k) as [[y m] d]. cbn [fst] in Hy.
  destruct Hrt as [Hrt _].
  destruct (Z.leb_spec y 99) as [Hle|_]; [lia|]. rewrite andb_false_r, Hrt.
  apply TimeClip_small. unfold msPerDay in *. lia.
Qed.

(** The week of the analysis, for a clock from 1970 to 9999. *)
Lemma week_spec now :
  0 <= now <= maxFourDigitYear ->
  let k := (now + LocalTZA) / msPerDay in
  let g := (k + 4) mod 7 in
  let today := localMidnight (TimeClip now) in
  today = Some (k * msPerDay - LocalTZA)
  /\ startOfWeek today = Some ((k - g) * msPerDay - LocalTZA)
  /\ endOfWeek (startOfWeek today)
     = Some ((k - g + 7) * msPerDay - 1 - LocalTZA).
Proof.
  intros Hnow. cbv zeta. pose proof LocalTZA_bounds as Hz.
  rewrite (localMidnight_spec now Hnow).
  set (k := (now + LocalTZA) / msPerDay).
  assert (Hk : -1 <= k <= 2932897).
  { subst k. unfold maxFourDigitYear, msPerDay in *.
    Z.div_mod_to_equations. lia. }
  pose proof (Z.mod_pos_bound (k + 4) 7 ltac:(lia)) as Hg.
  assert (Eday : getDay (k * msPerDay - LocalTZA) = (k + 4) mod 7).
  { unfold getDay. replace (k * msPerDay - LocalTZA + LocalTZA) with (k * msPerDay) by lia.
    now rewrite Z.div_mul by (unfold msPerDay; lia). }
  set (g := (k + 4) mod 7) in *.
  split; [reflexivity|].
  assert (Es : startOfWeek (Some (k * msPerDay - LocalTZA))
               = Some ((k - g) * msPerDay - LocalTZA)).
  { unfold startOfWeek. cbn [mbind option_bind]. rewrite Eday.
    replace (k * msPerDay - LocalTZA - g * msPerDay)
      with ((k - g) * msPerDay - LocalTZA) by lia.
    apply TimeClip_small. unfold msPerDay in *. lia. }
  split; [exact Es|]. rewrite Es. unfold endOfWeek. cbn [mbind option_bind].
  rewrite TimeClip_small by (unfold msPerDay in *; lia).
  cbn [mbind option_bind].
  replace ((k - g) * msPerDay - LocalTZA + 6 * msPerDay + LocalTZA)
    with ((k - g + 6) * msPerDay) by lia.
  rewrite Z.div_mul by (unfold msPerDay; lia).
  replace ((k - g + 6) * msPerDay + (msPerDay - 1) - LocalTZA)
    with ((k - g + 7) * msPerDay - 1 - LocalTZA) by lia.
  apply TimeClip_small. unfold msPerDay in *. lia.
Qed.

(** X16. For a clock from 1970 to 9999 the week the caller analyses starts
    at the local midnight that begins a Sunday, ends one millisecond before
    the next such midnight, and contains the current time. *)
Theorem week_runs_from_sunday now :
  0 <= now <= maxFourDigitYear ->
  let today := localMidnight (TimeClip now) in
  exists weekStart weekEnd,
    startOfWeek today = Some weekStart
    /\ endOfWeek (startOfWeek today) = Some weekEnd
    /\ getDay weekStart = 0
    /\ (weekStart + LocalTZA) mod msPerDay = 0
    /\ weekEnd = weekStart + 7 * msPerDay - 1
    /\ weekStart <= now <= weekEnd.
Proof.
  intros Hnow. destruct (week_spec now Hnow) as (_ & Es & Ee). cbv zeta in *.
  set (k := (now + LocalTZA) / msPerDay) in *.
  pose proof (Z.mod_pos_bound (k + 4) 7 ltac:(lia)) as Hg.
  set (g := (k + 4) mod 7) in *.
  exists ((k - g) * msPerDay - LocalTZA), ((k - g + 7) * msPerDay - 1 - LocalTZA).
  split; [exact Es|]. split; [exact Ee|].
  replace ((k - g) * msPerDay - LocalTZA + LocalTZA) with ((k - g) * msPerDay) by lia.
  split; [|split; [|split]].
  - unfold getDay.
    replace ((k - g) * msPerDay - LocalTZA + LocalTZA) with ((k - g) * msPerDay) by lia.
    rewrite Z.div_mul by (unfold msPerDay; lia).
    subst g. Z.div_mod_to_equations. lia.
  - apply Z.mod_mul. unfold msPerDay. lia.
  - lia.
  - subst k. unfold msPerDay in *. Z.div_mod_to_equations. lia.
Qed.

Lemma dueToday_dueThisWeek now todo :
  0 <= now <= maxFourDigitYear ->
  let today := localMidnight (TimeClip now) in
  dueToday today todo = true ->
  dueThisWeek (startOfWeek today) (endOfWeek (startOfWeek today)) todo = true.
Proof.
  intros Hnow. destruct (week_spec now Hnow) as (Et & Es & Ee). cbv zeta in *.
  rewrite Ee, Es, Et. clear Et Es Ee.
  set (k := (now + LocalTZA) / msPerDay).
  pose proof (Z.mod_pos_bound (k + 4) 7 ltac:(lia)) as Hg.
  set (g := (k + 4) mod 7) in *.
  unfold dueToday, dueThisWeek.
  destruct (present (due_date todo)) as [due|]; [|discriminate].
  destruct (newDate due) as [x|]; [|discriminate].
  unfold setHours0, TimeClip. cbn [mbind option_bind].
  destruct (Z.abs _ <=? _); [|discriminate].
  intros E. apply Z.eqb_eq in E. cbn [tvLe].
  apply andb_true_iff. rewrite !Z.leb_le.
  assert (Hx : (x + LocalTZA) / msPerDay = k).
  { apply (Z.mul_cancel_r _ _ msPerDay); [unfold msPerDay; lia | lia]. }
  clearbody k. subst k. unfold msPerDay in *. Z.div_mod_to_equations. lia.
Qed.


Lemma dueToday_readable today t : dueToday today t = true -> hasReadableDueDate t = true.
Proof.
  unfold dueToday, hasReadableDueDate.
  destruct (present (due_date t)) as [due|]; [|discriminate].
  now destruct (newDate due).
Qed.

Lemma dueThisWeek_readable weekStart weekEnd t :
  dueThisWeek weekStart weekEnd t = true -> hasReadableDueDate t = true.
Proof.
  unfold dueThisWeek, hasReadableDueDate.
  destruct (present (due_date t)) as [due|]; [|discriminate].
  destruct (newDate due); [reflexivity|]. now destruct weekStart.
Qed.

(** X18. Whatever the caller sends carries a list that is not empty, made of
    tasks of the user's list whose [due_date] [Date] can read, together with
    a valid period; the analysis handler never answers it with 400, and with
    a configured key it calls the model once, on statistics in which every
    task has a due date. *)
Theorem client_request_is_served user todos period now request :
  handleAnalyzeTodos user todos period now = inr request ->
  exists sent,
    request = requestFor sent period
    /\ user = true
    /\ sent <> []
    /\ (forall t, In t sent -> In t todos /\ hasReadableDueDate t = true)
    /\ forall env generateObject,
         let answer := POST env generateObject request in
         status (fst answer) <> 400
         /\ (apiKey env = true ->
             snd answer = [buildPrompt env sent (periodName period)]
             /\ withDueDate (stats (buildPrompt env sent (periodName period)))
                = length sent).
Proof.
  unfold handleAnalyzeTodos. destruct user; cbn [negb orb]; [|discriminate].
  destruct (length todos =? 0)%nat; [discriminate|].
  destruct (length (filterByPeriod period now todos) =? 0)%nat eqn:Es;
    [discriminate|].
  intros [= <-]. exists (filterByPeriod period now todos).
  assert (Hsent : forall t, In t (filterByPeriod period now todos) ->
                            In t todos /\ hasReadableDueDate t = true).
  { intros t. unfold filterByPeriod. destruct period; rewrite filter_In;
      intros [Ht Hd]; (split; [exact Ht|]).
    - eapply dueToday_readable, Hd.
    - eapply dueThisWeek_readable, Hd. }
  split; [reflexivity|]. split; [reflexivity|].
  split; [now destruct (filterByPeriod period now todos)|].
  split; [exact Hsent|].
  intros env generateObject. cbv zeta. unfold requestFor, POST.
  assert (Ep : periodOf (VStr (periodName period)) = Some (periodName period))
    by (now destruct period).
  rewrite Ep. set (sent := filterByPeriod period now todos) in *.
  destruct (apiKey env); cbn [negb].
  - split.
    + destruct (generateObject (buildPrompt env sent (periodName period))) as [o|e];
        cbn [fst]; [discriminate|].
      destruct (classifyCaught_status e) as [Hs|Hs]; rewrite Hs; discriminate.
    + intros _. split.
      * now destruct (generateObject (buildPrompt env sent (periodName period))).
      * destruct (buildPrompt_fields env sent (periodName period)) as (-> & _).
        destruct (aggregate_tables env sent) as (_ & _ & _ & ->).
        unfold count. clear Es. induction sent as [|t r IH]; [reflexivity|].
        simpl. assert (Ht : hasDueDate t = true).
        { destruct (Hsent t (or_introl eq_refl)) as [_ Hr].
          unfold hasReadableDueDate, hasDueDate in *.
          now destruct (present (due_date t)). }
        rewrite Ht. simpl. f_equal. apply IH. intros t' Ht'.
        apply Hsent. now right.
  - split; [discriminate|]. discriminate.
Qed.

End WithHost.


Lemma week_runs_from_sunday_example :
  exists weekStart weekEnd,
    startOfWeek (H := refHost) (localMidnight (H := refHost) (TimeClip 1749524400000))
    = Some weekStart
    /\ endOfWeek (H := refHost)
         (startOfWeek (H := refHost)
            (localMidnight (H := refHost) (TimeClip 1749524400000)))
       = Some weekEnd
    /\ getDay (H := refHost) weekStart = 0
    /\ (weekStart + LocalTZA (Host := refHost)) mod msPerDay = 0
    /\ weekEnd = weekStart + 7 * msPerDay - 1
    /\ weekStart <= 1749524400000 <= weekEnd.
Proof.
  apply (week_runs_from_sunday (H := refHost) 1749524400000).
  unfold maxFourDigitYear. lia.
Defined.

Lemma client_request_example :
  exists sent,
    requestFor [taskDueOn "2025-06-10"] Today = requestFor sent Today
    /\ true = true
    /\ sent <> []
    /\ (forall t, In t sent ->
          In t [taskDueOn "2025-06-10"]
          /\ hasReadableDueDate (H := refHost) t = true)
    /\ forall env generateObject,
         let answer :=
           POST (H := refHost) env generateObject
             (requestFor [taskDueOn "2025-06-10"] Today) in
         status (fst answer) <> 400
         /\ (apiKey env = true ->
             snd answer = [buildPrompt (H := refHost) env sent (periodName Today)]
             /\ withDueDate
                  (stats (buildPrompt (H := refHost) env sent (periodName Today)))
                = length sent).
Proof.
  apply (client_request_is_served (H := refHost) true [taskDueOn "2025-06-10"]
           Today 1749524400000).
  vm_compute. reflexivity.
Defined.

End ClientFacts.
